(** * Eligibility gating, batch statistics and delivery hand-off of the
      grant e-mail generator

    A shallow embedding of the decision logic of [brain.py],
    [src/core/generator.py], [main.py] and [src/core/sender.py].

    Modelling conventions.
    - Recipients, events, generated records and sendable e-mails are Python
      dictionaries loaded from JSON: they are finite maps from strings to
      JSON values ([gmap string json]).
    - A Python [str] is a [string] whose characters are code points below
      256; [str.strip], [str.lower] and the ordering used by [sorted] are
      CPython's on that range. The two characters above that range in the
      subjects of [_get_fallback_subject] are written in UTF-8.
    - A JSON number is the rational that is the exact value of the Python
      [int] or [float] it is loaded as, a float being a double (NaN and
      the infinities, which [json.load] accepts too, are left out). The
      only arithmetic on them is the comparison with the engagement
      thresholds, which Python makes on the exact values.
    - A Python call that can raise returns [res]: [Ok v] or [Raise e].
    - The collaborators the code calls but does not define (dateutil's
      parser, the pytz zone, the wall clock, [repr]/[str] formatting,
      [str.title], the language model, the SMTP server) are parameters of
      the definitions that use them. *)

From Stdlib Require Import QArith Ascii String.
From stdpp Require Import gmap strings list fin_maps sorting.

Set Warnings "-register-all,-clear-no-such-hyp".
#[local] Open Scope string_scope.
#[local] Open Scope list_scope.
#[local] Open Scope Z_scope.

(** ** JSON values and Python dictionaries *)

Inductive json : Type :=
  | JNull
  | JBool (b : bool)
  | JNum (q : Q)
  | JStr (s : string)
  | JList (l : list json)
  | JDict (d : gmap string json).

Abbreviation dict := (gmap string json).

(** ** Exceptions *)

Inductive exn : Type :=
  | TypeError
  | AttributeError
  | KeyError
  | IndexError
  | ValueError
  | ZeroDivisionError
  | RuntimeError (msg : string).

Inductive res (A : Type) : Type :=
  | Ok (a : A)
  | Raise (e : exn).
Arguments Ok {A} a.
Arguments Raise {A} e.

#[global] Instance res_ret : MRet res := λ A a, Ok a.
#[global] Instance res_bind : MBind res := λ A B f m,
  match m with
  | Ok a => f a
  | Raise e => Raise e
  end.

#[global] Instance res_fmap : FMap res := λ A B f m,
  match m with
  | Ok a => Ok (f a)
  | Raise e => Raise e
  end.

Definition is_ok {A} (r : res A) : bool :=
  match r with Ok _ => true | Raise _ => false end.

(** ** Python built-ins on JSON values *)

(** [bool(x)]: the truth value Python gives a JSON value. *)
Definition truthy (j : json) : bool :=
  match j with
  | JNull => false
  | JBool b => b
  | JNum q => negb (Qeq_bool q 0)
  | JStr s => negb (String.eqb s "")
  | JList l => match l with [] => false | _ => true end
  | JDict d => negb (Nat.eqb (size d) 0)
  end.

(** [k in d] for a dictionary [d]. *)
Definition has_key (d : dict) (k : string) : bool :=
  match d !! k with Some _ => true | None => false end.

(** [d.get(k, dflt)]. *)
Definition dict_get (d : dict) (k : string) (dflt : json) : json :=
  default dflt (d !! k).

(** [x.get(k, dflt)] on an arbitrary value: only dictionaries have [get]. *)
Definition py_get (x : json) (k : string) (dflt : json) : res json :=
  match x with
  | JDict d => Ok (dict_get d k dflt)
  | _ => Raise AttributeError
  end.

(** [x[k]] with a string key. *)
Definition py_getitem (x : json) (k : string) : res json :=
  match x with
  | JDict d => match d !! k with Some v => Ok v | None => Raise KeyError end
  | _ => Raise TypeError
  end.

(** [x[0]]. A dictionary loaded from JSON has only strings for keys, so
    [0] is not one of them. *)
Definition py_first (x : json) : res json :=
  match x with
  | JList (v :: _) => Ok v
  | JStr (String c _) => Ok (JStr (String c EmptyString))
  | JList [] | JStr EmptyString => Raise IndexError
  | JDict _ => Raise KeyError
  | _ => Raise TypeError
  end.

Definition is_list (j : json) : bool :=
  match j with JList _ => true | _ => false end.

Definition is_str (s : string) (j : json) : bool :=
  match j with JStr s' => String.eqb s s' | _ => false end.

(** ** Python string operations *)

(** [c.isspace()] for a code point below 256. *)
Definition py_isspace (c : ascii) : bool :=
  let n := N_of_ascii c in
  ((9 <=? n)%N && (n <=? 13)%N) || ((28 <=? n)%N && (n <=? 32)%N)
  || (n =? 133)%N || (n =? 160)%N.

(** [c.lower()] for a code point below 256. *)
Definition py_lower_char (c : ascii) : ascii :=
  let n := N_of_ascii c in
  if ((65 <=? n)%N && (n <=? 90)%N)
     || ((192 <=? n)%N && (n <=? 222)%N && negb (n =? 215)%N)
  then ascii_of_N (n + 32) else c.

Fixpoint py_lower (s : string) : string :=
  match s with
  | EmptyString => EmptyString
  | String c s' => String (py_lower_char c) (py_lower s')
  end.

Fixpoint lstrip (s : string) : string :=
  match s with
  | EmptyString => EmptyString
  | String c s' => if py_isspace c then lstrip s' else s
  end.

(** Drops trailing white space: a character is kept when it is not white
    space or when something is kept after it. *)
Fixpoint rstrip (s : string) : string :=
  match s with
  | EmptyString => EmptyString
  | String c s' =>
      match rstrip s' with
      | EmptyString => if py_isspace c then EmptyString else String c EmptyString
      | r => String c r
      end
  end.

(** [s.strip()]. *)
Definition py_strip (s : string) : string := rstrip (lstrip s).

(** [s.replace("_", " ")]. *)
Fixpoint py_replace_underscores (s : string) : string :=
  match s with
  | EmptyString => EmptyString
  | String c s' =>
      String (if Ascii.eqb c "_" then " "%char else c)
             (py_replace_underscores s')
  end.

(** [needle in hay] for two strings: substring test. *)
Fixpoint str_contains (needle hay : string) : bool :=
  String.prefix needle hay ||
  match hay with
  | EmptyString => false
  | String _ hay' => str_contains needle hay'
  end.

(** [needle in x] for a string [needle]: key of a dictionary, element of a
    list, substring of a string; anything else is not a container. *)
Definition py_in (needle : string) (x : json) : res bool :=
  match x with
  | JDict d => Ok (has_key d needle)
  | JList l => Ok (existsb (is_str needle) l)
  | JStr s => Ok (str_contains needle s)
  | _ => Raise TypeError
  end.

(** The characters of a string, each as a one-character string. *)
Fixpoint str_chars (s : string) : list json :=
  match s with
  | EmptyString => []
  | String c s' => JStr (String c EmptyString) :: str_chars s'
  end.

(** [for t in x]: the elements Python iterates over. *)
Definition py_iter (x : json) : res (list json) :=
  match x with
  | JList l => Ok l
  | JStr s => Ok (str_chars s)
  | JDict d => Ok ((λ kv, JStr kv.1) <$> map_to_list d)
  | _ => Raise TypeError
  end.

(** Ordering of [str] used by [sorted]: lexicographic on code points. *)
Definition str_le (s1 s2 : string) : Prop := String.leb s1 s2 = true.

#[global] Instance str_le_dec (s1 s2 : string) : Decision (str_le s1 s2).
Proof. unfold str_le. apply _. Defined.

(** [sorted(l)] for a list of strings. *)
Definition py_sorted (l : list string) : list string := merge_sort str_le l.

(** ** The validation rules of [templates.py] *)

Module VALIDATION_RULES.
Definition required_recipient_fields : list string :=
  ["recipient_id"; "name"; "email"; "organization"; "topics";
   "engagement_score"; "opt_out"].
Definition required_event_fields : list string :=
  ["event_id"; "title"; "start_date"; "tags"; "organizer"; "metadata"].
Definition required_metadata_fields : list string :=
  ["amount_range"; "application_deadline"].
Definition topic_match_threshold_high : nat := 2.
Definition topic_match_threshold_medium : nat := 1.
Definition topic_match_threshold_none : nat := 0.
(** The thresholds are the floats [0.7] and [0.5]. The double of [0.7] is
    3152519739159347 / 2^52, a little below 7/10; [0.5] is exact. *)
Definition engagement_thresholds_high : Q :=
  3152519739159347 # 4503599627370496.
Definition engagement_thresholds_low : Q := 5 # 10.
End VALIDATION_RULES.

(** ** Dates *)

(** A [datetime]: wall-clock seconds, counted from 1970-01-01T00:00:00,
    and the UTC offset when the value is timezone-aware. *)
Record datetime : Type := mk_datetime {
  wall : Z;
  tzinfo : option Z
}.

(** [datetime.min] and [datetime.max], 0001-01-01T00:00:00 and
    9999-12-31T23:59:59, in those seconds. Date arithmetic that leaves
    this range raises [OverflowError]. *)
Definition datetime_min : Z := -62135596800.
Definition datetime_max : Z := 253402300799.

Definition in_datetime_range (w : Z) : bool :=
  (datetime_min <=? w) && (w <=? datetime_max).

(** [timedelta(days=1)]. *)
Definition one_day : Z := 86400.

(** [str] of the [OverflowError] of date arithmetic. *)
Definition OverflowError_str : string := "date value out of range".

(** The result of [dateutil.parser.parse]: a datetime, or the message of
    the exception it raised. *)
Inductive parse_result : Type :=
  | Parsed (dt : datetime)
  | ParseError (msg : string).

(** [dt.astimezone(timezone.utc)] as an instant, for an aware datetime. *)
Definition utc_instant (w offset : Z) : Z := w - offset.

(** [if dt.tzinfo is None: dt = IST.localize(dt)] followed by
    [dt.astimezone(timezone.utc)]: the instant, or [None] when one of the
    two raises [OverflowError]. [localize] first steps a day back and a day
    forward from the naive value, [astimezone] subtracts the offset.
    [ist_utcoffset] is the UTC offset the zone has at a wall-clock time. *)
Definition to_utc (ist_utcoffset : Z -> Z) (dt : datetime) : option Z :=
  offset ←
    match tzinfo dt with
    | Some o => Some o
    | None =>
        if in_datetime_range (wall dt - one_day)
           && in_datetime_range (wall dt + one_day)
        then Some (ist_utcoffset (wall dt))
        else None
    end;
  if in_datetime_range (utc_instant (wall dt) offset)
  then Some (utc_instant (wall dt) offset)
  else None.

(** ** The text-generation collaborator *)

(** What the body of the [try] block around the model call comes to: the
    reply parsed as JSON, a [json.JSONDecodeError], or any other exception
    (transport, service, prompt formatting), each with its message. *)
Inductive ai_outcome : Type :=
  | AiReply (j : json)
  | AiJSONDecodeError (msg : string)
  | AiException (msg : string).

(** What one per-pair call reads from outside: the clock compared with the
    deadline, the [isoformat] timestamp written into the record, and the
    outcome of the model call should it be made. *)
Record pair_env : Type := mk_pair_env {
  now_utc : Z;
  now_iso : string;
  ai_body : ai_outcome
}.

(** ** Helpers shared by the two generators *)

Fixpoint res_map {A B} (f : A -> res B) (l : list A) : res (list B) :=
  match l with
  | [] => Ok []
  | x :: l' => y ← f x; ys ← res_map f l'; Ok (y :: ys)
  end.

Definition jstrs (l : list string) : json := JList (JStr <$> l).

(** The loop [for field in fields: if field not in d: append(prefix + field)]. *)
Definition missing_fields (pre : string) (fields : list string) (d : dict)
  : list string :=
  (λ f, pre +:+ f) <$> List.filter (λ f, negb (has_key d f)) fields.

(** A number as Python compares it: [bool] is a subtype of [int]. *)
Definition as_number (j : json) : option Q :=
  match j with
  | JNum q => Some q
  | JBool true => Some 1%Q
  | JBool false => Some 0%Q
  | _ => None
  end.

Definition as_dict (j : json) : res dict :=
  match j with JDict d => Ok d | _ => Raise TypeError end.

(** [warnings + x] for a list of strings [warnings]: [x] must be a list. *)
Definition list_concat (warnings : list string) (x : json) : res json :=
  match x with
  | JList l => Ok (JList ((JStr <$> warnings) ++ l))
  | _ => Raise TypeError
  end.

(** ** brain.py *)

Module Brain.
Section Brain.
(** [dateutil.parser.parse]. *)
Variable dateparse_parse : json -> parse_result.
(** The UTC offset [IST.localize] attaches to a naive wall-clock time. *)
Variable IST_utcoffset : Z -> Z.
(** [repr] of a JSON value and [str] of an exception. *)
Variable py_repr : json -> string.
Variable exn_str : exn -> string.

(** [str(x)], as an f-string formats its fields. *)
Definition py_str (j : json) : string :=
  match j with JStr s => s | _ => py_repr j end.

Definition validate_recipient (recipient : dict) : list string :=
  missing_fields "Missing recipient field: "
    VALIDATION_RULES.required_recipient_fields recipient
  ++ match recipient !! "topics" with
     | Some v => if is_list v then [] else ["recipient.topics must be a list"]
     | None => []
     end.

(** The inner loop of [validate_event] over the metadata fields. *)
Fixpoint metadata_errors (fields : list string) (metadata : json)
  : res (list string) :=
  match fields with
  | [] => Ok []
  | m :: fields' =>
      present ← py_in m metadata;
      rest ← metadata_errors fields' metadata;
      Ok ((if (present : bool) then [] else ["Missing event.metadata field: " +:+ m])
          ++ rest)
  end.

Definition validate_event (event : dict) : res (list string) :=
  let errors :=
    missing_fields "Missing event field: "
      VALIDATION_RULES.required_event_fields event in
  meta_errors ←
    match event !! "metadata" with
    | Some md => metadata_errors VALIDATION_RULES.required_metadata_fields md
    | None => Ok []
    end;
  Ok (errors ++ meta_errors
      ++ match event !! "tags" with
         | Some v => if is_list v then [] else ["event.tags must be a list"]
         | None => []
         end).

(** A naive value is localized to IST, then everything is converted to
    UTC; an exception of the parser or of the conversion is reported. *)
Definition is_deadline_passed (deadline_str : json) (now : Z)
  : bool * option string :=
  match dateparse_parse deadline_str with
  | Parsed dt =>
      match to_utc IST_utcoffset dt with
      | Some instant => (instant <? now, None)
      | None =>
          (false, Some ("Invalid deadline format: " +:+ OverflowError_str))
      end
  | ParseError msg => (false, Some ("Invalid deadline format: " +:+ msg))
  end.

(** [t.strip().lower()]: only a [str] has these methods. *)
Definition norm_key (t : json) : res string :=
  match t with
  | JStr s => Ok (py_lower (py_strip s))
  | _ => Raise AttributeError
  end.

(** [[t for t in recipient_topics if t.strip().lower() in e_lower]]. *)
Fixpoint overlap_filter (e_lower : list string) (ts : list json)
  : res (list string) :=
  match ts with
  | [] => Ok []
  | t :: ts' =>
      match t with
      | JStr s =>
          rest ← overlap_filter e_lower ts';
          Ok (if existsb (String.eqb (py_lower (py_strip s))) e_lower
              then s :: rest else rest)
      | _ => Raise AttributeError
      end
  end.

Definition topic_overlap (recipient_topics event_tags : json)
  : res (list string) :=
  rs ← py_iter recipient_topics;
  _ ← res_map norm_key rs;
  es ← py_iter event_tags;
  e_lower ← res_map norm_key es;
  kept ← overlap_filter e_lower rs;
  Ok (py_sorted kept).

(** The deadline step of [should_send_email]: [inl w] continues with the
    warnings [w], [inr tt] blocks. *)
Definition deadline_step (deadline : json) (now : Z) (warnings : list string)
  : list string + unit :=
  if truthy deadline then
    match is_deadline_passed deadline now with
    | (_, Some err) => inl (warnings ++ [err])
    | (true, None) => inr tt
    | (false, None) => inl warnings
    end
  else inl warnings.

Definition no_topic_match_warning (recipient event : dict)
    (overlap : list string) : string :=
  "Insufficient topic overlap. "
  +:+ "Recipient: " +:+ py_str (dict_get recipient "topics" (JList []))
  +:+ " | "
  +:+ "Event: " +:+ py_str (dict_get event "tags" (JList [])) +:+ " | "
  +:+ "Overlap: " +:+ py_str (jstrs overlap).

(** The "Check topic match" step, entered with the warnings so far. *)
Definition topic_step (recipient event : dict) (warnings : list string)
  : res (bool * string * list string) :=
  overlap ← topic_overlap (dict_get recipient "topics" (JList []))
                          (dict_get event "tags" (JList []));
  if (length overlap <? VALIDATION_RULES.topic_match_threshold_medium)%nat
  then Ok (false, "no_topic_match",
           [no_topic_match_warning recipient event overlap])
  else Ok (true, "approved", warnings).

Definition should_send_email (recipient event : dict) (now : Z)
  : res (bool * string * list string) :=
  let r_errors := validate_recipient recipient in
  e_errors ← validate_event event;
  let warnings := r_errors ++ e_errors in
  if negb (length r_errors =? 0)%nat || negb (length e_errors =? 0)%nat
  then Ok (false, "validation_failed", warnings)
  else if truthy (dict_get recipient "opt_out" (JBool false))
  then Ok (false, "opted_out", ["Recipient has opted out - DO NOT SEND"])
  else
    deadline ←
      py_get (dict_get event "metadata" (JDict ∅)) "application_deadline" JNull;
    match deadline_step deadline now warnings with
    | inr _ =>
        Ok (false, "deadline_passed",
            ["Application deadline has passed - DO NOT SEND"])
    | inl warnings' => topic_step recipient event warnings'
    end.

Definition tone_from_engagement (score : json) : res string :=
  match as_number score with
  | None => Raise TypeError
  | Some q =>
      if Qle_bool VALIDATION_RULES.engagement_thresholds_high q
      then Ok "enthusiastic"
      else if Qle_bool VALIDATION_RULES.engagement_thresholds_low q
      then Ok "professional"
      else Ok "gentle"
  end.

(** *** GroqEmailGenerator *)

Definition _generate_simple_body (recipient event : dict) (day_number : string)
  : res string :=
  let name := dict_get recipient "name" (JStr "there") in
  let title := dict_get event "title" (JStr "this opportunity") in
  let organizer := dict_get event "organizer" (JStr "the organizer") in
  amount ← py_get (dict_get event "metadata" (JDict ∅)) "amount_range"
                  (JStr "[amount]");
  deadline ← py_get (dict_get event "metadata" (JDict ∅))
                    "application_deadline" (JStr "[deadline]");
  Ok ("Hi " +:+ py_str name +:+ ",

I wanted to share " +:+ py_str title +:+ " organised by " +:+ py_str organizer +:+ ".

Grant amount: " +:+ py_str amount +:+ "
Application deadline: " +:+ py_str deadline +:+ "

This may be relevant for your work at "
      +:+ py_str (dict_get recipient "organization" (JStr "your organization"))
      +:+ ".

Best regards,

Priya Singh
Grants Coordinator
Funding Forward").

Definition _fallback_email (recipient event : dict) (day_number : string)
    (error : string) : res dict :=
  body ← _generate_simple_body recipient event day_number;
  Ok (<["internal_reasoning" :=
          JDict (<["email_type" := JStr "Fallback"]>
                 (<["error" := JStr error]>
                  (<["match_decision" := JStr "send"]> ∅)))]>
      (<["email" :=
          JDict (<["subject" :=
                    JStr (py_str (dict_get event "title" JNull)
                          +:+ " - Opportunity for "
                          +:+ py_str (dict_get recipient "organization" JNull))]>
                 (<["body" := JStr body]> ∅))]>
      (<["verification" :=
          JDict (<["all_data_from_json" := JBool true]>
                 (<["fallback_used" := JBool true]> ∅))]>
      (<["warnings" := jstrs ["Used fallback due to: " +:+ error]]> ∅)))).

(** [generate_email_content]: the reply when the [try] body succeeds, the
    fallback when it raises. *)
Definition generate_email_content (body : ai_outcome)
    (recipient event : dict) (day_number : string) : res json :=
  match body with
  | AiReply j => Ok j
  | AiJSONDecodeError e =>
      JDict <$> _fallback_email recipient event day_number
                  ("JSON parse error: " +:+ e)
  | AiException e =>
      JDict <$> _fallback_email recipient event day_number
                  ("API error: " +:+ e)
  end.

(** *** Per-pair generation *)

Definition pair_meta (recipient event : dict) (day_number : string)
  : dict :=
  <["recipient_id" := dict_get recipient "recipient_id" JNull]>
  (<["event_id" := dict_get event "event_id" JNull]>
  (<["day" := JStr day_number]> ∅)).

(** The record returned when the gate blocks. *)
Definition blocked_record (recipient event : dict) (day_number : string)
    (reason : string) (warnings : list string) : res dict :=
  overlap ← topic_overlap (dict_get recipient "topics" (JList []))
                          (dict_get event "tags" (JList []));
  Ok (<["meta" :=
          JDict (<["status" := JStr "blocked"]>
                 (<["reason" := JStr reason]>
                  (pair_meta recipient event day_number)))]>
      (<["internal_reasoning" :=
          JDict (<["email_type" := JStr "N/A"]>
                 (<["match_decision" := JStr reason]>
                 (<["recipient_topics" := dict_get recipient "topics" (JList [])]>
                 (<["event_tags" := dict_get event "tags" (JList [])]>
                 (<["topic_overlap" := jstrs overlap]> ∅)))))]>
      (<["email" := JNull]>
      (<["verification" := JNull]>
      (<["warnings" := jstrs warnings]> ∅))))).

(** "Add metadata": the two assignments into the generated [result]. *)
Definition add_metadata (w : pair_env) (recipient event : dict)
    (day_number : string) (warnings : list string) (result : json)
  : res dict :=
  tone ← tone_from_engagement
           (dict_get recipient "engagement_score" (JNum (5 # 10)));
  overlap ← topic_overlap (dict_get recipient "topics" (JList []))
                          (dict_get event "tags" (JList []));
  d ← as_dict result;
  let d1 :=
    <["meta" :=
        JDict (<["status" := JStr "generated"]>
               (<["generated_at" := JStr (now_iso w)]>
               (<["tone" := JStr tone]>
               (<["topic_overlap" := jstrs overlap]>
                (pair_meta recipient event day_number)))))]> d in
  ws ← list_concat warnings (dict_get d1 "warnings" (JList []));
  Ok (<["warnings" := ws]> d1).

(** [generate_email_for_pair]. The first component counts the calls of
    [generate_email_content] the run makes; [ai_generator] tells whether
    a generator object was passed. *)
Definition generate_email_for_pair (w : pair_env) (recipient event : dict)
    (day_number : string) (ai_generator use_ai : bool) : nat * res dict :=
  match should_send_email recipient event (now_utc w) with
  | Raise e => (0%nat, Raise e)
  | Ok (should_send, reason, warnings) =>
      if negb should_send
      then (0%nat, blocked_record recipient event day_number reason warnings)
      else if use_ai && ai_generator
      then
        (1%nat,
         result ←
           match generate_email_content (ai_body w) recipient event day_number
           with
           | Ok j => Ok j
           | Raise e =>
               JDict <$> _fallback_email recipient event day_number (exn_str e)
           end;
         add_metadata w recipient event day_number warnings result)
      else
        (0%nat,
         result ← JDict <$> _fallback_email recipient event day_number
                              "AI disabled";
         add_metadata w recipient event day_number warnings result)
  end.

(** *** Batch processing *)

Record stats : Type := mk_stats {
  total : nat;
  generated : nat;
  blocked : nat;
  by_reason : gmap string nat
}.

Definition stats0 : stats := mk_stats 0 0 0 ∅.

(** The "Update stats" block for one produced record. *)
Definition update_stats (st : stats) (result : dict) : res stats :=
  meta ← py_getitem (JDict result) "meta";
  status ← py_getitem meta "status";
  if is_str "generated" status
  then Ok (mk_stats (total st) (S (generated st)) (blocked st) (by_reason st))
  else
    reason ← py_getitem meta "reason";
    match reason with
    | JStr r =>
        Ok (mk_stats (total st) (generated st) (S (blocked st))
              (<[r := S (default 0%nat (by_reason st !! r))]> (by_reason st)))
    | _ => Raise TypeError
    end.

(** The loop state: the statistics and the records of the current day. *)
Definition batch_state : Type := stats * list dict.

(** The body of the innermost loop. [world n] is what the call for the
    pair numbered [n] (counting from 0 over the whole run) reads. *)
Definition pair_step (world : nat -> pair_env) (ai_generator use_ai : bool)
    (day : string) (recipient : dict) (acc : res batch_state) (event : dict)
  : res batch_state :=
  '(st, day_outputs) ← acc;
  let st1 := mk_stats (S (total st)) (generated st) (blocked st)
               (by_reason st) in
  result ← (generate_email_for_pair (world (total st)) recipient event day
              ai_generator use_ai).2;
  st2 ← update_stats st1 result;
  Ok (st2, day_outputs ++ [result]).

Definition recipient_step (world : nat -> pair_env)
    (ai_generator use_ai : bool) (day : string) (events : list dict)
    (acc : res batch_state) (recipient : dict) : res batch_state :=
  foldl (pair_step world ai_generator use_ai day recipient) acc events.

(** One iteration of the loop over the days: the statistics after the day
    and the day's saved records. *)
Definition day_step (world : nat -> pair_env) (ai_generator use_ai : bool)
    (recipients events : list dict)
    (acc : res (stats * list (string * list dict))) (day : string)
  : res (stats * list (string * list dict)) :=
  '(st, saved) ← acc;
  '(st', day_outputs) ←
    foldl (recipient_step world ai_generator use_ai day events)
          (Ok (st, [])) recipients;
  Ok (st', saved ++ [(day, day_outputs)]).

(** [generate_batch] on the loaded recipients and events: the returned
    statistics and, per day, the records written to the day's file.
    [api_key_set] tells whether a Groq API key is configured. *)
Definition generate_batch (world : nat -> pair_env)
    (api_key_set use_ai : bool) (recipients events : list dict)
    (days : list string) : res (stats * list (string * list dict)) :=
  (* without an API key the constructor raises and AI is switched off *)
  let ai_gen := use_ai && api_key_set in
  let use_ai := use_ai && api_key_set in
  foldl (day_step world ai_gen use_ai recipients events)
        (Ok (stats0, [])) days.
End Brain.
End Brain.

(** ** src/core/generator.py *)

Module Generator.
(** The part of [VALIDATION_RULES] and the [EMAIL_TYPES] table that
    [generator.py] imports from [src/templates/prompts.py]. *)
Record rules : Type := mk_rules {
  required_recipient_fields : list string;
  topic_match_threshold_medium : nat;
  EMAIL_TYPES : dict
}.

Section Generator.
Variable dateparse_parse : json -> parse_result.
Variable IST_utcoffset : Z -> Z.
Variable exn_str : exn -> string.
(** [str] of a set of strings, as the f-string of the warning prints it. *)
Variable py_set_str : gset string -> string.
(** [repr] of a JSON value, and [str.title]. *)
Variable py_repr : json -> string.
Variable py_title : string -> string.
Variable R : rules.

(** [str(x)], as an f-string formats its fields. *)
Definition py_str (j : json) : string :=
  match j with JStr s => s | _ => py_repr j end.

(** [t.lower()]. *)
Definition lower_key (t : json) : res string :=
  match t with
  | JStr s => Ok (py_lower s)
  | _ => Raise AttributeError
  end.

(** [{t.lower() for t in x}]. *)
Definition lower_set (x : json) : res (gset string) :=
  ts ← py_iter x;
  ks ← res_map lower_key ts;
  Ok (list_to_set ks).

(** The [try] block of the deadline check: [inr tt] returns
    "deadline_passed", [inl w] continues with the warnings [w]. *)
Definition deadline_check (deadline : json) (now : Z) (warnings : list string)
  : list string + unit :=
  if truthy deadline then
    match dateparse_parse deadline with
    | Parsed dt =>
        match to_utc IST_utcoffset dt with
        | Some instant => if instant <? now then inr tt else inl warnings
        | None => inl (warnings ++ ["Invalid deadline format"])
        end
    | ParseError _ => inl (warnings ++ ["Invalid deadline format"])
    end
  else inl warnings.

(** The "Topic Match" step, entered with the warnings so far. *)
Definition topic_check (recipient event : dict) (warnings : list string)
  : res (bool * string * list string) :=
  r_topics ← lower_set (dict_get recipient "topics" (JList []));
  e_tags ← lower_set (dict_get event "tags" (JList []));
  let overlap := r_topics ∩ e_tags in
  if (size overlap <? topic_match_threshold_medium R)%nat
  then Ok (false, "no_topic_match",
           ["Insufficient overlap: " +:+ py_set_str overlap])
  else Ok (true, "approved", warnings).

Definition _validate_request (recipient event : dict) (now : Z)
  : res (bool * string * list string) :=
  let warnings :=
    missing_fields "Missing recipient field: "
      (required_recipient_fields R) recipient in
  if truthy (dict_get recipient "opt_out" (JBool false))
  then Ok (false, "opted_out", ["Recipient opted out"])
  else
    deadline ←
      py_get (dict_get event "metadata" (JDict ∅)) "application_deadline" JNull;
    match deadline_check deadline now warnings with
    | inr _ => Ok (false, "deadline_passed", ["Deadline passed"])
    | inl warnings' => topic_check recipient event warnings'
    end.

Definition _create_metadata (w : pair_env) (recipient event : dict)
    (day status : string) (reason : json) : dict :=
  <["recipient_id" := dict_get recipient "recipient_id" JNull]>
  (<["event_id" := dict_get event "event_id" JNull]>
  (<["day" := JStr day]>
  (<["status" := JStr status]>
  (<["reason" := reason]>
  (<["generated_at" := JStr (now_iso w)]> ∅))))).

Definition _create_blocked_response (w : pair_env) (recipient event : dict)
    (day reason : string) (warnings : list string) : dict :=
  <["meta" := JDict (_create_metadata w recipient event day "blocked"
                       (JStr reason))]>
  (<["email" := JNull]>
  (<["warnings" := jstrs warnings]> ∅)).

(** [EMAIL_TYPES.get(str(day_number), EMAIL_TYPES.get("1"))]. *)
Definition email_config (day_number : string) : json :=
  dict_get (EMAIL_TYPES R) day_number (dict_get (EMAIL_TYPES R) "1" JNull).

(** [x.replace("_", " ").title()]: only a [str] has [replace]. *)
Definition title_case (x : json) : res string :=
  match x with
  | JStr s => Ok (py_title (py_replace_underscores s))
  | _ => Raise AttributeError
  end.

(** The table of subjects by day, built from the title and the topic. *)
Definition subjects (title topic : string) : gmap string string :=
  <["0" := "You're in! Here's what to expect - " +:+ title]>
  (<["1" := "The #1 mistake that kills 97% of " +:+ topic
            +:+ " applications"]>
  (<["3" := "Proof: Real organizations getting real grant money - "
            +:+ title]>
  (<["5" := "I get it... you're skeptical (but read this about "
            +:+ title +:+ ")"]>
  (<["6" := "⏰ Tomorrow: Your " +:+ topic +:+ " funding breakthrough"]>
  (<["7a" := "🔴 Going LIVE in 6 hours - " +:+ title]>
  (<["7b" := "⏰ Starting in 60 minutes (join now)"]> ∅)))))).

Definition _get_fallback_subject (r e : dict) (day : string) : res string :=
  let title := py_str (dict_get e "title" (JStr "")) in
  let topics := dict_get r "topics" (jstrs ["funding"]) in
  topic ← (if truthy topics
           then first ← py_first topics; title_case first
           else Ok "Funding");
  Ok (default (title +:+ " - Opportunity") (subjects title topic !! day)).

Definition _get_fallback_body (r e : dict) (day : string) : string :=
  "Hi " +:+ py_str (dict_get r "name" (JStr "there")) +:+ ",

This is a fallback email for Day " +:+ day +:+ " regarding "
  +:+ py_str (dict_get e "title" JNull) +:+ ".

Please check your API key configuration.

Best,
Priya".

Definition _generate_fallback (w : pair_env) (recipient event : dict)
    (day_number : string) (warnings : list string) (error : option string)
  : res dict :=
  let cfg := email_config day_number in
  subject ← _get_fallback_subject recipient event day_number;
  let body := _get_fallback_body recipient event day_number in
  email_type ← py_get cfg "type" (JStr "Custom");
  principle ← py_get cfg "principle" (JStr "Personalized outreach");
  let result : dict :=
    <["internal_reasoning" :=
        JDict (<["email_type" := email_type]>
               (<["error" := from_option JStr JNull error]>
               (<["match_decision" := JStr "send"]>
               (<["principle" := principle]> ∅))))]>
    (<["email" := JDict (<["subject" := JStr subject]>
                         (<["body" := JStr body]> ∅))]>
    (<["verification" :=
        JDict (<["all_data_from_json" := JBool true]>
               (<["fallback_used" := JBool true]>
               (<["personalization_fields" :=
                   JDict (<["name" := dict_get recipient "name" JNull]>
                          (<["email" := dict_get recipient "email" JNull]>
                          (<["organization" :=
                              dict_get recipient "organization" JNull]> ∅)))]>
                ∅)))]>
    (<["warnings" :=
        jstrs (warnings ++
               match error with
               | Some e => if String.eqb e "" then []
                           else ["Used fallback: " +:+ e]
               | None => []
               end)]> ∅))) in
  Ok (<["meta" := JDict (_create_metadata w recipient event day_number
                           "generated" JNull)]> result).

(** [_generate_with_ai]. The prompt is formatted from the day's
    configuration, then the model is invoked and its reply parsed. *)
Definition _generate_with_ai (w : pair_env) (recipient event : dict)
    (day_number : string) (warnings : list string) : res dict :=
  let cfg := email_config day_number in
  _ ← py_get cfg "type" (JStr "Custom");
  match ai_body w with
  | AiException msg => Raise (RuntimeError msg)
  | AiJSONDecodeError msg =>
      _generate_fallback w recipient event day_number warnings
        (Some ("JSON parse error: " +:+ msg))
  | AiReply j =>
      d ← as_dict j;
      let d1 := <["meta" := JDict (_create_metadata w recipient event
                                     day_number "generated" JNull)]> d in
      ws ← list_concat warnings (dict_get d1 "warnings" (JList []));
      Ok (<["warnings" := ws]> d1)
  end.

(** [generate_email]. [llm] tells whether the model client was created;
    the first component counts the runs of [_generate_with_ai]. *)
Definition generate_email (w : pair_env) (llm : bool)
    (recipient event : dict) (day_number : string) : nat * res dict :=
  match _validate_request recipient event (now_utc w) with
  | Raise e => (0%nat, Raise e)
  | Ok (should_send, reason, warnings) =>
      if negb should_send
      then (0%nat, Ok (_create_blocked_response w recipient event day_number
                         reason warnings))
      else if llm
      then (1%nat,
            match _generate_with_ai w recipient event day_number warnings with
            | Ok r => Ok r
            | Raise e =>
                _generate_fallback w recipient event day_number warnings
                  (Some (exn_str e))
            end)
      else (0%nat,
            _generate_fallback w recipient event day_number warnings
              (Some "AI disabled"))
  end.
End Generator.
End Generator.

(** ** main.py *)

Module Main.
(** One iteration of the loop of [prepare_emails_for_sending]: [None]
    when the item is passed over, the sendable entry otherwise. *)
Definition prepare_item (item : dict) : res (option dict) :=
  status ← py_get (dict_get item "meta" (JDict ∅)) "status" JNull;
  if negb (is_str "generated" status) then Ok None
  else
    let email_content := dict_get item "email" (JDict ∅) in
    let verification := dict_get item "verification" (JDict ∅) in
    personalization ← py_get verification "personalization_fields" (JDict ∅);
    if negb (truthy email_content) then Ok None
    else
      subject ← py_get email_content "subject" JNull;
      if negb (truthy subject) then Ok None
      else
        body ← py_get email_content "body" JNull;
        if negb (truthy body) then Ok None
        else
          recipient_email ← py_get personalization "email" JNull;
          recipient_name ← py_get personalization "name" JNull;
          Ok (Some (<["recipient_email" := recipient_email]>
                    (<["recipient_name" := recipient_name]>
                    (<["subject" := subject]>
                    (<["body" := body]>
                    (<["meta" := dict_get item "meta" JNull]> ∅)))))).

Fixpoint prepare_emails_for_sending (generated_emails : list dict)
  : res (list dict) :=
  match generated_emails with
  | [] => Ok []
  | item :: rest =>
      entry ← prepare_item item;
      sendable ← prepare_emails_for_sending rest;
      Ok (match entry with Some e => e :: sendable | None => sendable end)
  end.
End Main.

(** ** src/utils/config.py *)

(** [not v] for the value of an environment variable: unset or empty. *)
Definition env_unset (v : option string) : bool :=
  match v with
  | None => true
  | Some s => String.eqb s ""
  end.

Module Config.
(** [Config.validate_email_config], on the values of [EMAIL_USER] and
    [EMAIL_PASSWORD]. *)
Definition validate_email_config (EMAIL_USER EMAIL_PASSWORD : option string)
  : list string :=
  (if env_unset EMAIL_USER then ["EMAIL_USER not set"] else [])
  ++ (if env_unset EMAIL_PASSWORD then ["EMAIL_PASSWORD not set"] else []).
End Config.

(** ** src/core/sender.py *)

Module Sender.
(** The rate-limit and retry settings of [Config]. *)
Record config : Type := mk_config {
  RATE_LIMIT : Z;
  BATCH_SIZE : Z;
  BATCH_PAUSE : Z;
  MAX_RETRIES : Z;
  RETRY_DELAY : Z
}.

Record stats : Type := mk_stats {
  attempted : nat;
  sent : nat;
  failed : nat;
  skipped : nat
}.

(** [self.stats] as [__init__] sets it. *)
Definition stats0 : stats := mk_stats 0 0 0 0.

(** [EmailSender.__init__]: the counters of the new sender, or the
    [ValueError] of an invalid configuration. [EMAIL_USER] and
    [EMAIL_PASSWORD] are the values of the environment variables. *)
Definition __init__ (EMAIL_USER EMAIL_PASSWORD : option string)
    (dry_run : bool) : res stats :=
  if negb dry_run then
    if negb (length (Config.validate_email_config EMAIL_USER EMAIL_PASSWORD)
             =? 0)%nat
    then Raise ValueError
    else Ok stats0
  else Ok stats0.

(** [time.sleep(secs)] with an integer argument. *)
Definition sleep (secs : Z) : res unit :=
  if secs <? 0 then Raise ValueError else Ok tt.

Section Sender.
Variable C : config.
Variable exn_str : exn -> string.

(** The loop of [_send_single_with_retry] from attempt [attempt] on, with
    [fuel] attempts left. [send attempt] is what building and sending the
    message does at that attempt: [None] when it goes through, the
    exception otherwise. *)
Fixpoint retry_loop (send : Z -> option exn) (fuel : nat) (attempt : Z)
  : res (bool * option string) :=
  match fuel with
  | O => Ok (false, Some "Max retries exceeded")
  | S fuel' =>
      match send attempt with
      | None => Ok (true, None)
      | Some e =>
          if attempt <? MAX_RETRIES C
          then _ ← sleep (RETRY_DELAY C);
               retry_loop send fuel' (attempt + 1)
          else Ok (false, Some (exn_str e))
      end
  end.

Definition _send_single_with_retry (dry_run : bool) (send : Z -> option exn)
  : res (bool * option string) :=
  if dry_run then Ok (true, None)
  else retry_loop send (Z.to_nat (MAX_RETRIES C)) 1.

(** The "Rate Limiting" block after a send. *)
Definition rate_limit (dry_run : bool) (idx len : Z) : res unit :=
  if negb dry_run && (idx <? len) then
    if BATCH_SIZE C =? 0 then Raise ZeroDivisionError
    else if idx mod BATCH_SIZE C =? 0 then sleep (BATCH_PAUSE C)
    else Ok tt
  else Ok tt.

(** The body of the loop over the batch for the e-mail numbered [idx]. *)
Definition send_one (dry_run : bool) (smtp : Z -> Z -> option exn) (len : Z)
    (st : stats) (idx : Z) (email_data : dict) : res stats :=
  let st := mk_stats (S (attempted st)) (sent st) (failed st) (skipped st) in
  let to_email := dict_get email_data "recipient_email" JNull in
  let subject := dict_get email_data "subject" JNull in
  let body := dict_get email_data "body" JNull in
  if negb (truthy to_email) || negb (truthy subject) || negb (truthy body)
  then Ok (mk_stats (attempted st) (sent st) (failed st) (S (skipped st)))
  else
    '(success, _) ← _send_single_with_retry dry_run (smtp idx);
    let st :=
      if (success : bool)
      then mk_stats (attempted st) (S (sent st)) (failed st) (skipped st)
      else mk_stats (attempted st) (sent st) (S (failed st)) (skipped st) in
    _ ← rate_limit dry_run idx len;
    Ok st.

Fixpoint send_loop (dry_run : bool) (smtp : Z -> Z -> option exn) (len : Z)
    (st : stats) (idx : Z) (emails : list dict) : res stats :=
  match emails with
  | [] => Ok st
  | email_data :: rest =>
      st' ← send_one dry_run smtp len st idx email_data;
      send_loop dry_run smtp len st' (idx + 1) rest
  end.

(** [send_batch] on a sender whose counters are [st]. [connect] tells
    whether the SMTP connection can be made; [smtp idx attempt] is what
    the server does with attempt [attempt] for the e-mail numbered
    [idx]. *)
Definition send_batch (dry_run : bool) (st : stats) (connect : bool)
    (smtp : Z -> Z -> option exn) (emails : list dict) : res stats :=
  match emails with
  | [] => Ok st
  | _ =>
      if negb dry_run && negb connect then Ok st
      else send_loop dry_run smtp (Z.of_nat (length emails)) st 1 emails
  end.
End Sender.
End Sender.

(** ** email_sender.py *)

Module EmailSender.
(** The settings of [EmailConfig] the sender reads. *)
Record config : Type := mk_config {
  USER : option string;
  PASSWORD : option string;
  FROM_EMAIL : option string;
  RATE_LIMIT : Z;
  BATCH_SIZE : Z;
  BATCH_PAUSE : Z;
  MAX_RETRIES : Z;
  RETRY_DELAY : Z
}.

(** The three credentials as [EmailConfig] reads them from the
    environment: [EMAIL_FROM] defaults to [EMAIL_USER]. *)
Definition credentials (env : gmap string string)
  : option string * option string * option string :=
  let user := env !! "EMAIL_USER" in
  (user, env !! "EMAIL_PASSWORD",
   match env !! "EMAIL_FROM" with Some v => Some v | None => user end).

(** [EmailConfig.validate]. *)
Definition validate (c : config) : bool * list string :=
  let errors :=
    (if env_unset (USER c) then ["EMAIL_USER not set"] else [])
    ++ (if env_unset (PASSWORD c) then ["EMAIL_PASSWORD not set"] else [])
    ++ (if env_unset (FROM_EMAIL c) then ["EMAIL_FROM not set"] else []) in
  ((length errors =? 0)%nat, errors).

(** [EmailSender.__init__]. *)
Definition __init__ (c : config) (dry_run : bool) : res Sender.stats :=
  if negb dry_run then
    let '(is_valid, _) := validate c in
    if negb is_valid then Raise ValueError else Ok Sender.stats0
  else Ok Sender.stats0.

Section EmailSender.
Variable C : config.
Variable exn_str : exn -> string.

(** [send_single_email] on the connection of the batch: [attempt] is what
    building and sending the message does, [None] when it goes through. *)
Definition send_single_email (dry_run : bool) (attempt : option exn)
  : bool * option string :=
  if dry_run then (true, None)
  else match attempt with
       | None => (true, None)
       | Some e => (false, Some (exn_str e))
       end.

(** The loop of [send_with_retry] from attempt [attempt] on, with [fuel]
    attempts left. *)
Fixpoint retry_loop (dry_run : bool) (send : Z -> option exn) (fuel : nat)
    (attempt : Z) : res (bool * option string * Z) :=
  match fuel with
  | O => Ok (false, Some "Max retries exceeded", MAX_RETRIES C)
  | S fuel' =>
      let '(success, error) := send_single_email dry_run (send attempt) in
      if success then Ok (true, None, attempt)
      else if attempt <? MAX_RETRIES C
      then _ ← Sender.sleep (RETRY_DELAY C);
           retry_loop dry_run send fuel' (attempt + 1)
      else Ok (false, error, attempt)
  end.

(** [send_with_retry]: success, error message and number of attempts. *)
Definition send_with_retry (dry_run : bool) (send : Z -> option exn)
  : res (bool * option string * Z) :=
  retry_loop dry_run send (Z.to_nat (MAX_RETRIES C)) 1.

(** The "Rate limiting" block: it runs in a dry run too. The pause
    between two e-mails is a non-negative float and never raises. *)
Definition rate_limit (idx len : Z) : res unit :=
  if idx <? len then
    if BATCH_SIZE C =? 0 then Raise ZeroDivisionError
    else if idx mod BATCH_SIZE C =? 0 then Sender.sleep (BATCH_PAUSE C)
    else Ok tt
  else Ok tt.

(** The body of the loop of [send_batch] for the e-mail numbered [idx]. *)
Definition send_one (dry_run : bool) (smtp : Z -> Z -> option exn) (len : Z)
    (st : Sender.stats) (idx : Z) (email_data : dict) : res Sender.stats :=
  let st := Sender.mk_stats (S (Sender.attempted st)) (Sender.sent st)
              (Sender.failed st) (Sender.skipped st) in
  let to_email := dict_get email_data "recipient_email" JNull in
  let subject := dict_get email_data "subject" JNull in
  let body := dict_get email_data "body" JNull in
  if negb (truthy to_email) || negb (truthy subject) || negb (truthy body)
  then Ok (Sender.mk_stats (Sender.attempted st) (Sender.sent st)
             (Sender.failed st) (S (Sender.skipped st)))
  else
    '(success, _, _) ← send_with_retry dry_run (smtp idx);
    let st :=
      if (success : bool)
      then Sender.mk_stats (Sender.attempted st) (S (Sender.sent st))
             (Sender.failed st) (Sender.skipped st)
      else Sender.mk_stats (Sender.attempted st) (Sender.sent st)
             (S (Sender.failed st)) (Sender.skipped st) in
    _ ← rate_limit idx len;
    Ok st.

Fixpoint send_loop (dry_run : bool) (smtp : Z -> Z -> option exn) (len : Z)
    (st : Sender.stats) (idx : Z) (emails : list dict) : res Sender.stats :=
  match emails with
  | [] => Ok st
  | email_data :: rest =>
      st' ← send_one dry_run smtp len st idx email_data;
      send_loop dry_run smtp len st' (idx + 1) rest
  end.

(** [send_batch] on a sender whose counters are [st]. *)
Definition send_batch (dry_run : bool) (st : Sender.stats) (connect : bool)
    (smtp : Z -> Z -> option exn) (emails : list dict) : res Sender.stats :=
  match emails with
  | [] => Ok st
  | _ =>
      if negb dry_run && negb connect then Ok st
      else send_loop dry_run smtp (Z.of_nat (length emails)) st 1 emails
  end.
End EmailSender.

(** One iteration of the loop of [load_generated_emails]. *)
Definition load_item (item : json) : res (option dict) :=
  status ← (meta ← py_get item "meta" (JDict ∅); py_get meta "status" JNull);
  if negb (is_str "generated" status) then Ok None
  else
    email ← py_get item "email" JNull;
    if negb (truthy email) then Ok None
    else
      subject ← py_get email "subject" JNull;
      if negb (truthy subject) then Ok None
      else
        body ← py_get email "body" JNull;
        if negb (truthy body) then Ok None
        else
          verification ← py_get item "verification" (JDict ∅);
          personalization ←
            py_get verification "personalization_fields" (JDict ∅);
          recipient_email ← py_get personalization "email" (JStr "MISSING");
          recipient_name ← py_get personalization "name" (JStr "there");
          meta ← py_get item "meta" (JDict ∅);
          Ok (Some (<["recipient_email" := recipient_email]>
                    (<["recipient_name" := recipient_name]>
                    (<["subject" := subject]>
                    (<["body" := body]>
                    (<["meta" := meta]> ∅)))))).

Fixpoint load_items (items : list json) : res (list dict) :=
  match items with
  | [] => Ok []
  | item :: rest =>
      entry ← load_item item;
      emails ← load_items rest;
      Ok (match entry with Some e => e :: emails | None => emails end)
  end.

(** [load_generated_emails] on the content of the day's file. *)
Definition load_generated_emails (data : json) : res (list dict) :=
  emails ← py_get data "emails" (JList []);
  items ← py_iter emails;
  load_items items.
End EmailSender.

(** ** Reading the records *)

(** [record["meta"].get(k)]. *)
Definition meta_field (record : dict) (k : string) : json :=
  match record !! "meta" with
  | Some (JDict m) => dict_get m k JNull
  | _ => JNull
  end.

(** Whether [record["meta"]] has the key [k] at all. *)
Definition meta_has (record : dict) (k : string) : bool :=
  match record !! "meta" with
  | Some (JDict m) => has_key m k
  | _ => false
  end.

Definition is_null (j : json) : bool :=
  match j with JNull => true | _ => false end.

(** The sum of the counts of [stats["by_reason"]]. *)
Definition by_reason_sum (m : gmap string nat) : nat :=
  map_fold (λ _ v acc, (v + acc)%nat) 0%nat m.

(** The counters of [generate_batch] add up. *)
Definition counted (st : Brain.stats) : Prop :=
  Brain.total st = (Brain.generated st + Brain.blocked st)%nat
  ∧ by_reason_sum (Brain.by_reason st) = Brain.blocked st.

(** The counters of [send_batch] add up. *)
Definition balanced (st : Sender.stats) : Prop :=
  Sender.attempted st
  = (Sender.sent st + Sender.failed st + Sender.skipped st)%nat.

(** An e-mail of a batch has an address, a subject and a body: the
    test of [send_batch]'s loop, negated. *)
Definition has_required_fields (email_data : dict) : bool :=
  truthy (dict_get email_data "recipient_email" JNull)
  && truthy (dict_get email_data "subject" JNull)
  && truthy (dict_get email_data "body" JNull).

(** The pairs of a run in the order of the loops: recipient-major. *)
Definition cross_product (recipients events : list dict) : list (dict * dict) :=
  flat_map (λ r, (λ e, (r, e)) <$> events) recipients.

(** The record names the pair and the day it was made for. *)
Definition record_of_pair (day : string) (record : dict) (pair : dict * dict)
  : Prop :=
  meta_field record "recipient_id" = dict_get pair.1 "recipient_id" JNull
  ∧ meta_field record "event_id" = dict_get pair.2 "event_id" JNull
  ∧ meta_field record "day" = JStr day.

(** The entries of the two loaders, side by side. *)
Definition same_entry_up_to_defaults (e1 e2 : dict) : Prop :=
  (∀ k, k ≠ "recipient_email" → k ≠ "recipient_name" → e1 !! k = e2 !! k)
  ∧ (e1 !! "recipient_email" = e2 !! "recipient_email"
     ∨ e1 !! "recipient_email" = Some (JStr "MISSING")
       ∧ e2 !! "recipient_email" = Some JNull)
  ∧ (e1 !! "recipient_name" = e2 !! "recipient_name"
     ∨ e1 !! "recipient_name" = Some (JStr "there")
       ∧ e2 !! "recipient_name" = Some JNull).

(** An entry that [load_generated_emails] addressed to its default and
    that [send_batch] does not skip. *)
Definition addressed_to_MISSING (entry : dict) : Prop :=
  entry !! "recipient_email" = Some (JStr "MISSING")
  ∧ has_required_fields entry = true.

(** The model's reply, when it is a JSON object, has a non-null [email]. *)
Definition reply_has_email (body : ai_outcome) : Prop :=
  ∀ d, body = AiReply (JDict d) → is_null (dict_get d "email" JNull) = false.

(** The reason a gate decides on, when it returns. *)
Definition gate_reason (r : res (bool * string * list string)) : option string :=
  match r with
  | Ok (_, reason, _) => Some reason
  | Raise _ => None
  end.

(** The comparison key of a topic or tag. *)
Definition topic_key (s : string) : string := py_lower (py_strip s).

(** ** Collaborators used in the worked examples *)

Module Sample.
(** A parser that knows three dates (as seconds since the epoch, wall
    clock) and rejects everything else. *)
Definition parse (j : json) : parse_result :=
  match j with
  | JStr "2099-01-01" => Parsed (mk_datetime 4070908800 None)
  | JStr "2000-01-01" => Parsed (mk_datetime 946684800 None)
  | JStr "0001-01-01" => Parsed (mk_datetime (-62135596800) None)
  | JStr _ => ParseError "Unknown string format"
  | _ => ParseError "Parser must be a string or character stream"
  end.

(** Asia/Kolkata today: UTC+05:30. *)
Definition ist (_ : Z) : Z := 19800.

Fixpoint join (sep : string) (l : list string) : string :=
  match l with
  | [] => ""
  | [x] => x
  | x :: l' => x +:+ sep +:+ join sep l'
  end.

(** [repr] for the values the examples print: strings without quotes in
    them and flat lists of such strings. *)
Definition repr_atom (j : json) : string :=
  match j with
  | JNull => "None"
  | JBool true => "True"
  | JBool false => "False"
  | JStr s => "'" +:+ s +:+ "'"
  | _ => "..."
  end.

Definition repr (j : json) : string :=
  match j with
  | JList l => "[" +:+ join ", " (repr_atom <$> l) +:+ "]"
  | _ => repr_atom j
  end.

Definition exn_str (e : exn) : string :=
  match e with
  | RuntimeError msg => msg
  | TypeError => "TypeError"
  | AttributeError => "AttributeError"
  | KeyError => "KeyError"
  | IndexError => "IndexError"
  | ValueError => "ValueError"
  | ZeroDivisionError => "division by zero"
  end.

(** [str] of a set: the empty one, which is all the examples print. *)
Definition set_str (s : gset string) : string :=
  if decide (s = ∅) then "set()" else "{...}".

(** The rules of [templates.py] and a one-entry [EMAIL_TYPES] table. *)
Definition rules : Generator.rules :=
  Generator.mk_rules
    VALIDATION_RULES.required_recipient_fields
    VALIDATION_RULES.topic_match_threshold_medium
    (<["1" := JDict (<["type" := JStr "Indoctrination"]> ∅)]> ∅).

(** [str.title] on ASCII text: the first letter of each run of letters in
    upper case, the others in lower case. *)
Fixpoint title_from (in_word : bool) (s : string) : string :=
  match s with
  | EmptyString => EmptyString
  | String c s' =>
      let n := N_of_ascii c in
      let upper := ((65 <=? n)%N && (n <=? 90)%N) in
      let lower := ((97 <=? n)%N && (n <=? 122)%N) in
      String (if in_word
              then if upper then ascii_of_N (n + 32) else c
              else if lower then ascii_of_N (n - 32) else c)
             (title_from (upper || lower) s')
  end.

Definition title (s : string) : string := title_from false s.

(** A reply of the model whose [warnings] is a string, not a list. *)
Definition malformed_reply : json :=
  JDict (<["email" := JDict (<["subject" := JStr "Hello"]>
                             (<["body" := JStr "Text"]> ∅))]>
         (<["warnings" := JStr "none"]> ∅)).

(** 1 January 2025, 00:00 UTC. *)
Definition env (body : ai_outcome) : pair_env :=
  mk_pair_env 1735689600 "2025-01-01T05:30:00+05:30" body.

Definition recipient : dict :=
  <["recipient_id" := JStr "r1"]>
  (<["name" := JStr "Asha"]>
  (<["email" := JStr "asha@example.org"]>
  (<["organization" := JStr "Learn More"]>
  (<["topics" := jstrs ["education"]]>
  (<["engagement_score" := JNum (3 # 4)]>
  (<["opt_out" := JBool false]> ∅)))))).

Definition metadata (deadline : string) : dict :=
  <["amount_range" := JStr "$5,000 - $50,000"]>
  (<["application_deadline" := JStr deadline]> ∅).

Definition event (deadline : string) : dict :=
  <["event_id" := JStr "e1"]>
  (<["title" := JStr "Bright Futures Fund"]>
  (<["start_date" := JStr "2098-12-01"]>
  (<["tags" := jstrs ["education"]]>
  (<["organizer" := JStr "Edu Trust"]>
  (<["metadata" := JDict (metadata deadline)]> ∅))))).
End Sample.

(** * Properties *)

(** ** Facts about the helpers *)

Lemma is_ok_inv {A} (r : res A) : is_ok r = true → ∃ a, r = Ok a.
Proof. destruct r as [a|e]; [by exists a|done]. Qed.

Lemma res_map_jstrs (f : string -> string) (g : json -> res string)
    (l : list string) :
  (∀ s, g (JStr s) = Ok (f s)) ->
  res_map g (JStr <$> l) = Ok (f <$> l).
Proof.
  intros Hg. induction l as [|s l IH]; csimpl; [done|].
  rewrite Hg. csimpl. rewrite IH. done.
Qed.

Lemma overlap_filter_jstrs (e_lower rt : list string) :
  Brain.overlap_filter e_lower (JStr <$> rt)
  = Ok (List.filter (λ s, existsb (String.eqb (topic_key s)) e_lower) rt).
Proof.
  induction rt as [|s rt IH]; csimpl; [done|].
  rewrite IH. csimpl. unfold topic_key.
  destruct (existsb _ e_lower); done.
Qed.

Lemma existsb_eqb_elem_of (k : string) (l : list string) :
  existsb (String.eqb k) l = bool_decide (k ∈ l).
Proof.
  induction l as [|x l IH].
  - symmetry. apply bool_decide_eq_false_2, not_elem_of_nil.
  - cbn [existsb]. rewrite IH.
    destruct (String.eqb_spec k x) as [->|Hne]; cbn [orb].
    + symmetry. apply bool_decide_eq_true_2. left.
    + apply bool_decide_ext. rewrite elem_of_cons. naive_solver.
Qed.

Lemma List_filter_stdpp {A} (P : A -> Prop) `{!∀ x, Decision (P x)}
    (l : list A) :
  List.filter (λ x, bool_decide (P x)) l = filter P l.
Proof.
  induction l as [|x l IH]; simpl; [done|].
  rewrite filter_cons. rewrite IH. destruct (decide (P x)).
  - rewrite bool_decide_eq_true_2; done.
  - rewrite bool_decide_eq_false_2; done.
Qed.

(** [topic_overlap] on two lists of strings: the recipient's topics whose key
    is the key of some tag, sorted. *)
Lemma topic_overlap_jstrs (rt et : list string) :
  Brain.topic_overlap (jstrs rt) (jstrs et)
  = Ok (py_sorted (filter (λ t, topic_key t ∈ topic_key <$> et) rt)).
Proof.
  unfold Brain.topic_overlap, jstrs. csimpl.
  rewrite (res_map_jstrs topic_key) by done. csimpl.
  rewrite (res_map_jstrs topic_key) by done. csimpl.
  rewrite overlap_filter_jstrs. csimpl.
  f_equal. f_equal. rewrite <- List_filter_stdpp.
  apply List.filter_ext. intros t. apply existsb_eqb_elem_of.
Qed.

#[local] Instance str_le_total : Total str_le.
Proof. intros s1 s2. apply String.leb_total. Qed.

Lemma py_sorted_nil_iff (l : list string) : py_sorted l = [] ↔ l = [].
Proof.
  split.
  - intros H. apply Permutation_nil_r. rewrite <- H. symmetry.
    apply merge_sort_Permutation.
  - intros ->. reflexivity.
Qed.

Lemma py_sorted_length (l : list string) : length (py_sorted l) = length l.
Proof. apply Permutation_length, merge_sort_Permutation. Qed.

(** ** Topic overlap *)

(** C5, the claim as stated fails on its own example: the overlap of
    recipient topics ["Climate_Action", " health "] with event tags
    ["climate_action", "HEALTH"] is [" health ", "Climate_Action"], the
    untrimmed topics in code-point order, and not
    ["Climate_Action", "health"]. *)
Lemma topic_overlap_example_untrimmed :
  Brain.topic_overlap (jstrs ["Climate_Action"; " health "])
                      (jstrs ["climate_action"; "HEALTH"])
  = Ok [" health "; "Climate_Action"]
  ∧ Ok [" health "; "Climate_Action"]
    ≠@{res (list string)} Ok ["Climate_Action"; "health"].
Proof. split; [vm_compute; reflexivity | discriminate]. Qed.

(** C5 (amended): [topic_overlap] compares topics and tags by their trimmed,
    lower-cased keys and reports the matching recipient topics exactly as
    the recipient spells them (case and surrounding white space kept, once
    per occurrence), sorted by code point; on the example of the claim the
    result is [" health ", "Climate_Action"]. *)
Theorem topic_overlap_original_spelling_sorted (rt et : list string) :
  ∃ out,
    Brain.topic_overlap (jstrs rt) (jstrs et) = Ok out
    ∧ out ≡ₚ filter (λ t, topic_key t ∈ topic_key <$> et) rt
    ∧ Sorted str_le out
    ∧ (∀ t, t ∈ out ↔ t ∈ rt ∧ ∃ g, g ∈ et ∧ topic_key t = topic_key g)
    ∧ Brain.topic_overlap (jstrs ["Climate_Action"; " health "])
                          (jstrs ["climate_action"; "HEALTH"])
      = Ok [" health "; "Climate_Action"].
Proof.
  eexists. split; [apply topic_overlap_jstrs|].
  assert (Hp : py_sorted (filter (λ t, topic_key t ∈ topic_key <$> et) rt)
               ≡ₚ filter (λ t, topic_key t ∈ topic_key <$> et) rt)
    by apply merge_sort_Permutation.
  split; [exact Hp|]. split; [apply Sorted_merge_sort; apply _|].
  split; [|vm_compute; reflexivity].
  intros t. rewrite Hp. rewrite list_elem_of_filter.
  rewrite list_elem_of_fmap. naive_solver.
Qed.

(** ** The eligibility gate of brain.py *)

Section BrainGate.
Context (parse : json → parse_result) (ist : Z → Z) (repr : json → string).

Lemma length_eqb_0 {A} (l : list A) : (length l =? 0)%nat = true ↔ l = [].
Proof. destruct l; simpl; split; done. Qed.

(** Validation errors decide the gate before anything else is looked at. *)
Lemma should_send_email_invalid recipient event now e_errors :
  Brain.validate_event event = Ok e_errors →
  Brain.validate_recipient recipient ≠ [] ∨ e_errors ≠ [] →
  Brain.should_send_email parse ist repr recipient event now
  = Ok (false, "validation_failed",
        Brain.validate_recipient recipient ++ e_errors).
Proof.
  intros He Herr. unfold Brain.should_send_email. rewrite He. csimpl.
  destruct (Brain.validate_recipient recipient) as [|x r]; [|done].
  destruct e_errors as [|y e]; [|done].
  destruct Herr; done.
Qed.

(** With no validation errors the gate goes on to opt-out, deadline and
    topics, in that order. *)
Lemma should_send_email_valid recipient event now :
  Brain.validate_recipient recipient = [] →
  Brain.validate_event event = Ok [] →
  Brain.should_send_email parse ist repr recipient event now
  = if truthy (dict_get recipient "opt_out" (JBool false))
    then Ok (false, "opted_out", ["Recipient has opted out - DO NOT SEND"])
    else
      deadline ← py_get (dict_get event "metadata" (JDict ∅))
                        "application_deadline" JNull;
      match Brain.deadline_step parse ist deadline now [] with
      | inr _ => Ok (false, "deadline_passed",
                     ["Application deadline has passed - DO NOT SEND"])
      | inl ws => Brain.topic_step repr recipient event ws
      end.
Proof.
  intros Hr He. unfold Brain.should_send_email. rewrite Hr, He. done.
Qed.
End BrainGate.

(** ** The eligibility gate of src/core/generator.py *)

Section GeneratorGate.
Context (parse : json → parse_result) (ist : Z → Z)
        (set_str : gset string → string) (R : Generator.rules).

(** Opt-out is the first decision of [_validate_request]. *)
Lemma _validate_request_opted_out recipient event now :
  truthy (dict_get recipient "opt_out" (JBool false)) = true →
  Generator._validate_request parse ist set_str R recipient event now
  = Ok (false, "opted_out", ["Recipient opted out"]).
Proof. intros H. unfold Generator._validate_request. rewrite H. done. Qed.

(** [_validate_request] has no "validation_failed" outcome. *)
Lemma _validate_request_reasons recipient event now b reason ws :
  Generator._validate_request parse ist set_str R recipient event now
  = Ok (b, reason, ws) →
  reason = "opted_out" ∨ reason = "deadline_passed"
  ∨ reason = "no_topic_match" ∨ reason = "approved".
Proof.
  unfold Generator._validate_request, Generator.topic_check.
  destruct (truthy (dict_get recipient "opt_out" _)); [naive_solver|].
  destruct (py_get _ _ _) as [deadline|]; csimpl; [|done].
  destruct (Generator.deadline_check _ _ _ _ _) as [ws'|]; [|naive_solver].
  destruct (Generator.lower_set (dict_get recipient _ _)) as [r|];
    csimpl; [|done].
  destruct (Generator.lower_set _) as [e|]; csimpl; [|done].
  destruct (_ <? _)%nat; naive_solver.
Qed.
End GeneratorGate.

(** ** Order of the checks *)

(** C2, the claim as stated fails on [EmailGenerator._validate_request]: a
    recipient that fails validation (every field but [opt_out] is missing)
    and has opted out is blocked there with reason "opted_out", with the
    warning of the opt-out rule, not with "validation_failed". *)
Lemma generator_opt_out_precedes_validation :
  Brain.validate_recipient (<["opt_out" := JBool true]> ∅)
  = ["Missing recipient field: recipient_id"; "Missing recipient field: name";
     "Missing recipient field: email";
     "Missing recipient field: organization";
     "Missing recipient field: topics";
     "Missing recipient field: engagement_score"]
  ∧ Generator._validate_request Sample.parse Sample.ist Sample.set_str
      Sample.rules (<["opt_out" := JBool true]> ∅)
      (Sample.event "2099-01-01") 1735689600
    = Ok (false, "opted_out", ["Recipient opted out"]).
Proof. split; vm_compute; reflexivity. Qed.

(** C2 (amended): in [should_send_email] (brain.py) validation comes first:
    when [validate_recipient] or [validate_event] returns errors the
    decision is blocked with reason "validation_failed" and warnings the
    recipient errors followed by the event errors, whatever [opt_out], the
    deadline and the topics are. [EmailGenerator._validate_request]
    (generator.py) never decides "validation_failed": for the same pair it
    decides opt-out first, and an opted-out recipient is blocked there with
    reason "opted_out". *)
Theorem validation_first_in_brain_gate
    (parse : json → parse_result) (ist : Z → Z) (repr : json → string)
    (set_str : gset string → string) (R : Generator.rules)
    (recipient event : dict) (now : Z) (e_errors : list string) :
  Brain.validate_event event = Ok e_errors →
  Brain.validate_recipient recipient ≠ [] ∨ e_errors ≠ [] →
  Brain.should_send_email parse ist repr recipient event now
  = Ok (false, "validation_failed",
        Brain.validate_recipient recipient ++ e_errors)
  ∧ gate_reason (Generator._validate_request parse ist set_str R
                   recipient event now) ≠ Some "validation_failed"
  ∧ (truthy (dict_get recipient "opt_out" (JBool false)) = true →
     Generator._validate_request parse ist set_str R recipient event now
     = Ok (false, "opted_out", ["Recipient opted out"])).
Proof.
  intros He Herr. split; [by apply should_send_email_invalid|].
  split; [|apply _validate_request_opted_out].
  destruct (Generator._validate_request _ _ _ _ _ _ _)
    as [[[b reason] ws]|] eqn:Hg; [|done].
  apply _validate_request_reasons in Hg. simpl. naive_solver.
Qed.

Lemma validation_first_in_brain_gate_witness :
  Brain.should_send_email Sample.parse Sample.ist Sample.repr
    (<["opt_out" := JBool true]> ∅) (Sample.event "2099-01-01") 1735689600
  = Ok (false, "validation_failed",
        Brain.validate_recipient (<["opt_out" := JBool true]> ∅) ++ [])
  ∧ gate_reason (Generator._validate_request Sample.parse Sample.ist
                   Sample.set_str Sample.rules (<["opt_out" := JBool true]> ∅)
                   (Sample.event "2099-01-01") 1735689600)
    ≠ Some "validation_failed"
  ∧ (truthy (dict_get (<["opt_out" := JBool true]> ∅) "opt_out" (JBool false))
     = true →
     Generator._validate_request Sample.parse Sample.ist Sample.set_str
       Sample.rules (<["opt_out" := JBool true]> ∅)
       (Sample.event "2099-01-01") 1735689600
     = Ok (false, "opted_out", ["Recipient opted out"])).
Proof.
  apply (validation_first_in_brain_gate Sample.parse Sample.ist Sample.repr
           Sample.set_str Sample.rules (<["opt_out" := JBool true]> ∅)
           (Sample.event "2099-01-01") 1735689600 []).
  - vm_compute. reflexivity.
  - left. vm_compute. discriminate.
Defined.

(** ** Blocked records *)

Section BlockedRecords.
Context (parse : json → parse_result) (ist : Z → Z) (repr : json → string)
        (exn_str : exn → string).

Lemma truthy_opt_out (recipient : dict) :
  recipient !! "opt_out" = Some (JBool true) →
  truthy (dict_get recipient "opt_out" (JBool false)) = true.
Proof. intros H. unfold dict_get. rewrite H. done. Qed.

(** What a record built by [blocked_record] holds. *)
Lemma blocked_record_fields recipient event day reason ws rec :
  Brain.blocked_record recipient event day reason ws = Ok rec →
  meta_field rec "status" = JStr "blocked"
  ∧ meta_field rec "reason" = JStr reason
  ∧ meta_has rec "generated_at" = false
  ∧ meta_has rec "tone" = false
  ∧ rec !! "email" = Some JNull
  ∧ rec !! "warnings" = Some (jstrs ws).
Proof.
  unfold Brain.blocked_record.
  destruct (Brain.topic_overlap _ _) as [overlap|]; csimpl; [|done].
  intros [= <-]. repeat split; reflexivity.
Qed.

Lemma blocked_record_returns recipient event day reason ws overlap :
  Brain.topic_overlap (dict_get recipient "topics" (JList []))
                      (dict_get event "tags" (JList [])) = Ok overlap →
  is_ok (Brain.blocked_record recipient event day reason ws) = true.
Proof. intros H. unfold Brain.blocked_record. rewrite H. done. Qed.

(** The gate on an opted-out recipient. *)
Lemma should_send_email_opted_out recipient event now e_errors :
  truthy (dict_get recipient "opt_out" (JBool false)) = true →
  Brain.validate_event event = Ok e_errors →
  Brain.should_send_email parse ist repr recipient event now
  = if bool_decide (Brain.validate_recipient recipient = [] ∧ e_errors = [])
    then Ok (false, "opted_out", ["Recipient has opted out - DO NOT SEND"])
    else Ok (false, "validation_failed",
             Brain.validate_recipient recipient ++ e_errors).
Proof.
  intros Hopt He. case_bool_decide as Hv.
  - destruct Hv as [Hr ->].
    rewrite (should_send_email_valid _ _ _ _ _ _ Hr He), Hopt. done.
  - apply should_send_email_invalid; [done|].
    destruct (Brain.validate_recipient recipient); [|by left].
    destruct e_errors; [|by right]. destruct Hv; done.
Qed.

(** A blocked gate decision makes [generate_email_for_pair] return the
    blocked record without calling the generator. *)
Lemma generate_email_for_pair_blocked w recipient event day ai use_ai
    reason ws :
  Brain.should_send_email parse ist repr recipient event (now_utc w)
  = Ok (false, reason, ws) →
  Brain.generate_email_for_pair parse ist repr exn_str w recipient event day
    ai use_ai
  = (0%nat, Brain.blocked_record recipient event day reason ws).
Proof. intros H. unfold Brain.generate_email_for_pair. rewrite H. done. Qed.
End BlockedRecords.

(** ** Opt-out *)

(** C1, the claim as stated fails on [generate_email_for_pair] (brain.py):
    an opted-out recipient whose record lacks the [name] field is blocked
    with reason "validation_failed", not "opted_out". *)
Lemma opted_out_invalid_recipient_reason :
  delete "name" (<["opt_out" := JBool true]> Sample.recipient) !! "opt_out"
  = Some (JBool true)
  ∧ ∃ rec,
      (Brain.generate_email_for_pair Sample.parse Sample.ist Sample.repr
         Sample.exn_str (Sample.env (AiException "down"))
         (delete "name" (<["opt_out" := JBool true]> Sample.recipient))
         (Sample.event "2099-01-01") "1" true true).2 = Ok rec
      ∧ meta_field rec "status" = JStr "blocked"
      ∧ meta_field rec "reason" = JStr "validation_failed"
      ∧ rec !! "warnings" = Some (jstrs ["Missing recipient field: name"]).
Proof.
  split; [vm_compute; reflexivity|].
  rewrite (generate_email_for_pair_blocked Sample.parse Sample.ist Sample.repr
             Sample.exn_str _ _ _ "1" true true "validation_failed"
             ["Missing recipient field: name"])
    by (vm_compute; reflexivity).
  cbn [snd].
  destruct (Brain.blocked_record
              (delete "name" (<["opt_out" := JBool true]> Sample.recipient))
              (Sample.event "2099-01-01") "1" "validation_failed"
              ["Missing recipient field: name"]) as [rec|e] eqn:Hrec.
  - exists rec. split; [done|].
    apply blocked_record_fields in Hrec as (Hst & Hre & _ & _ & _ & Hws).
    done.
  - pose proof (blocked_record_returns
                  (delete "name" (<["opt_out" := JBool true]> Sample.recipient))
                  (Sample.event "2099-01-01") "1" "validation_failed"
                  ["Missing recipient field: name"] ["education"]) as Hok.
    rewrite Hrec in Hok. discriminate Hok. vm_compute. reflexivity.
Qed.

(** C1 (amended): for a recipient with [opt_out] true, every event and
    every day, [EmailGenerator.generate_email] returns a record with
    status "blocked" and reason "opted_out" without running the model;
    [generate_email_for_pair] never calls content generation and every
    record it returns has status "blocked" and a null e-mail, with reason
    "opted_out" when both validators return no errors and reason
    "validation_failed" when one of them returns errors; it returns such a
    record whenever [validate_event] and [topic_overlap] do not raise. *)
Theorem opted_out_recipient_is_blocked
    (parse : json → parse_result) (ist : Z → Z) (repr : json → string)
    (exn_str : exn → string) (set_str : gset string → string)
    (title : string → string) (R : Generator.rules)
    (w : pair_env) (recipient event : dict) (day : string)
    (ai use_ai llm : bool) :
  recipient !! "opt_out" = Some (JBool true) →
  (∃ rec,
     Generator.generate_email parse ist exn_str set_str repr title R w llm
       recipient event day = (0%nat, Ok rec)
     ∧ meta_field rec "status" = JStr "blocked"
     ∧ meta_field rec "reason" = JStr "opted_out"
     ∧ rec !! "email" = Some JNull)
  ∧ (Brain.generate_email_for_pair parse ist repr exn_str w recipient event
       day ai use_ai).1 = 0%nat
  ∧ (∀ rec,
       (Brain.generate_email_for_pair parse ist repr exn_str w recipient event
          day ai use_ai).2 = Ok rec →
       meta_field rec "status" = JStr "blocked"
       ∧ rec !! "email" = Some JNull
       ∧ ∃ e_errors,
           Brain.validate_event event = Ok e_errors
           ∧ meta_field rec "reason"
             = JStr (if bool_decide (Brain.validate_recipient recipient = []
                                     ∧ e_errors = [])
                     then "opted_out" else "validation_failed"))
  ∧ (∀ e_errors overlap,
       Brain.validate_event event = Ok e_errors →
       Brain.topic_overlap (dict_get recipient "topics" (JList []))
                           (dict_get event "tags" (JList [])) = Ok overlap →
       is_ok (Brain.generate_email_for_pair parse ist repr exn_str w recipient
                event day ai use_ai).2 = true).
Proof.
  intros Hopt. pose proof (truthy_opt_out _ Hopt) as Ht.
  split.
  { eexists. unfold Generator.generate_email.
    rewrite _validate_request_opted_out by done. cbn [negb].
    split; [reflexivity|]. repeat split; reflexivity. }
  destruct (Brain.validate_event event) as [e_errors|e] eqn:He.
  - pose proof (should_send_email_opted_out parse ist repr recipient event
                  (now_utc w) e_errors Ht He) as Hs.
    assert (∃ reason ws,
              Brain.should_send_email parse ist repr recipient event (now_utc w)
              = Ok (false, reason, ws)
              ∧ reason = if bool_decide (Brain.validate_recipient recipient = []
                                         ∧ e_errors = [])
                         then "opted_out" else "validation_failed")
      as (reason & ws & Hs' & Hreason).
    { rewrite Hs. case_bool_decide; eauto. }
    rewrite (generate_email_for_pair_blocked _ _ _ _ _ _ _ _ _ _ _ _ Hs').
    split; [done|]. split.
    + intros rec Hrec. cbn [snd] in Hrec.
      apply blocked_record_fields in Hrec as (Hst & Hre & _ & _ & Hem & _).
      split; [done|]. split; [done|].
      exists e_errors. split; [done|]. by rewrite Hre, Hreason.
    + intros e' overlap [= <-] Hov. cbn [snd].
      by eapply blocked_record_returns.
  - unfold Brain.generate_email_for_pair, Brain.should_send_email.
    rewrite He. csimpl. split; [done|]. split; [done|]. done.
Qed.

Lemma opted_out_recipient_is_blocked_witness :
  (∃ rec,
     Generator.generate_email Sample.parse Sample.ist Sample.exn_str
       Sample.set_str Sample.repr Sample.title
       Sample.rules (Sample.env (AiReply JNull)) true
       (<["opt_out" := JBool true]> Sample.recipient)
       (Sample.event "2099-01-01") "1" = (0%nat, Ok rec)
     ∧ meta_field rec "status" = JStr "blocked"
     ∧ meta_field rec "reason" = JStr "opted_out"
     ∧ rec !! "email" = Some JNull)
  ∧ (Brain.generate_email_for_pair Sample.parse Sample.ist Sample.repr
       Sample.exn_str (Sample.env (AiReply JNull))
       (<["opt_out" := JBool true]> Sample.recipient)
       (Sample.event "2099-01-01") "1" true true).1 = 0%nat
  ∧ is_ok (Brain.generate_email_for_pair Sample.parse Sample.ist Sample.repr
             Sample.exn_str (Sample.env (AiReply JNull))
             (<["opt_out" := JBool true]> Sample.recipient)
             (Sample.event "2099-01-01") "1" true true).2 = true.
Proof.
  destruct (opted_out_recipient_is_blocked Sample.parse Sample.ist Sample.repr
              Sample.exn_str Sample.set_str
              Sample.title Sample.rules (Sample.env (AiReply JNull))
              (<["opt_out" := JBool true]> Sample.recipient)
              (Sample.event "2099-01-01") "1" true true true)
    as (Hg & Hcalls & _ & Hret).
  - vm_compute. reflexivity.
  - split; [exact Hg|]. split; [exact Hcalls|].
    apply (Hret [] ["education"]); vm_compute; reflexivity.
Defined.

(** ** Deadline *)

Section Deadline.
Context (parse : json → parse_result) (ist : Z → Z) (repr : json → string)
        (set_str : gset string → string) (R : Generator.rules).

Lemma in_datetime_range_spec (z : Z) :
  in_datetime_range z = true ↔ datetime_min ≤ z ≤ datetime_max.
Proof. unfold in_datetime_range. rewrite andb_true_iff, !Z.leb_le. done. Qed.

Lemma in_datetime_range_false (z : Z) :
  in_datetime_range z = false ↔ ¬ (datetime_min ≤ z ≤ datetime_max).
Proof. rewrite <- in_datetime_range_spec. by destruct (in_datetime_range z). Qed.

(** When the conversion of a parsed deadline to UTC returns, and what. *)
Lemma to_utc_Some (dt : datetime) (z : Z) :
  to_utc ist dt = Some z
  ↔ z = wall dt - default (ist (wall dt)) (tzinfo dt)
    ∧ datetime_min ≤ z ≤ datetime_max
    ∧ (tzinfo dt = None →
       datetime_min + one_day ≤ wall dt ≤ datetime_max - one_day).
Proof.
  unfold to_utc, utc_instant.
  destruct (tzinfo dt) as [o|]; simpl.
  - destruct (in_datetime_range (wall dt - o)) eqn:Hr.
    + apply in_datetime_range_spec in Hr. split.
      * intros [= <-]. done.
      * intros (-> & _ & _). done.
    + apply in_datetime_range_false in Hr. split; [done|].
      intros (-> & Hz & _). done.
  - destruct (in_datetime_range (wall dt - one_day)) eqn:H1;
      destruct (in_datetime_range (wall dt + one_day)) eqn:H2; simpl.
    1: { apply in_datetime_range_spec in H1, H2.
         destruct (in_datetime_range (wall dt - ist (wall dt))) eqn:Hr.
         - apply in_datetime_range_spec in Hr. split.
           + intros [= <-]. split; [done|]. split; [done|]. intros _. lia.
           + intros (-> & _ & _). done.
         - apply in_datetime_range_false in Hr. split; [done|].
           intros (-> & Hz & _). done. }
    all: try apply in_datetime_range_false in H1;
      try apply in_datetime_range_false in H2;
      split; [done|]; intros (_ & _ & Hw); specialize (Hw eq_refl);
      unfold datetime_min, datetime_max, one_day in *; lia.
Qed.

(** The gate of brain.py once validation and opt-out are passed. *)
Lemma should_send_email_past_opt_out recipient event now md :
  Brain.validate_recipient recipient = [] →
  Brain.validate_event event = Ok [] →
  truthy (dict_get recipient "opt_out" (JBool false)) = false →
  event !! "metadata" = Some (JDict md) →
  Brain.should_send_email parse ist repr recipient event now
  = match Brain.deadline_step parse ist
            (dict_get md "application_deadline" JNull) now [] with
    | inr _ => Ok (false, "deadline_passed",
                   ["Application deadline has passed - DO NOT SEND"])
    | inl ws => Brain.topic_step repr recipient event ws
    end.
Proof.
  intros Hr He Hopt Hmd.
  rewrite (should_send_email_valid _ _ _ _ _ _ Hr He), Hopt.
  unfold dict_get at 1. rewrite Hmd. done.
Qed.

(** The gate of generator.py once opt-out is passed. *)
Lemma _validate_request_past_opt_out recipient event now md :
  truthy (dict_get recipient "opt_out" (JBool false)) = false →
  event !! "metadata" = Some (JDict md) →
  Generator._validate_request parse ist set_str R recipient event now
  = match Generator.deadline_check parse ist
            (dict_get md "application_deadline" JNull) now
            (missing_fields "Missing recipient field: "
               (Generator.required_recipient_fields R) recipient) with
    | inr _ => Ok (false, "deadline_passed", ["Deadline passed"])
    | inl ws => Generator.topic_check set_str R recipient event ws
    end.
Proof.
  intros Hopt Hmd. unfold Generator._validate_request. rewrite Hopt.
  unfold dict_get at 1. rewrite Hmd. done.
Qed.

Lemma topic_step_reason recipient event ws :
  gate_reason (Brain.topic_step repr recipient event ws)
  ≠ Some "deadline_passed".
Proof.
  unfold Brain.topic_step.
  destruct (Brain.topic_overlap _ _); csimpl; [|done].
  destruct (_ <? _)%nat; done.
Qed.

Lemma topic_check_reason recipient event ws :
  gate_reason (Generator.topic_check set_str R recipient event ws)
  ≠ Some "deadline_passed".
Proof.
  unfold Generator.topic_check.
  destruct (Generator.lower_set (dict_get recipient _ _)); csimpl; [|done].
  destruct (Generator.lower_set _); csimpl; [|done].
  destruct (_ <? _)%nat; done.
Qed.
End Deadline.

(** The claim as the specification states it fails on a deadline at the
    start of the range of [datetime]: "0001-01-01" parses, it is long
    past, the topics overlap in full, and both gates approve the pair,
    with a warning. [IST.localize] raises [OverflowError] on it, inside
    the [try] that also guards the parser. *)
Lemma parsed_past_deadline_is_approved :
  Sample.parse (JStr "0001-01-01") = Parsed (mk_datetime (-62135596800) None)
  ∧ -62135596800 - Sample.ist (-62135596800) < 1735689600
  ∧ Brain.topic_overlap (dict_get Sample.recipient "topics" JNull)
      (dict_get (Sample.event "0001-01-01") "tags" JNull)
    = Ok ["education"]
  ∧ Brain.should_send_email Sample.parse Sample.ist Sample.repr
      Sample.recipient (Sample.event "0001-01-01") 1735689600
    = Ok (true, "approved",
          ["Invalid deadline format: date value out of range"])
  ∧ Generator._validate_request Sample.parse Sample.ist Sample.set_str
      Sample.rules Sample.recipient (Sample.event "0001-01-01") 1735689600
    = Ok (true, "approved", ["Invalid deadline format"]).
Proof.
  split; [reflexivity|]. split; [reflexivity|].
  split; [vm_compute; reflexivity|].
  split; vm_compute; reflexivity.
Qed.

(** C6: for a pair that passes validation and opt-out (the event metadata
    being a dictionary), with [d] the value of [application_deadline]:
    when [d] is present but does not parse, both gates add a warning and go
    on to the topic check; when [d] is absent, null or empty they go on
    without a warning; the topic check never answers "deadline_passed";
    when [d] parses and its conversion to UTC (a naive value is taken as
    IST wall-clock time) stays within the years 1 to 9999 of [datetime],
    the gate blocks with reason "deadline_passed" exactly when the instant
    is strictly before now, whatever the topics and tags are; when [d]
    parses and the conversion leaves that range, both gates treat it like
    a deadline that does not parse. The conversion stays within the range
    when the instant does and, for a naive value, the wall-clock time is
    at least a day from both ends of the range. *)
Theorem deadline_rule
    (parse : json → parse_result) (ist : Z → Z) (repr : json → string)
    (set_str : gset string → string) (R : Generator.rules)
    (recipient event md : dict) (now : Z) :
  Brain.validate_recipient recipient = [] →
  Brain.validate_event event = Ok [] →
  truthy (dict_get recipient "opt_out" (JBool false)) = false →
  event !! "metadata" = Some (JDict md) →
  let d := dict_get md "application_deadline" JNull in
  let missing := missing_fields "Missing recipient field: "
                   (Generator.required_recipient_fields R) recipient in
  (∀ msg, truthy d = true → parse d = ParseError msg →
     Brain.should_send_email parse ist repr recipient event now
     = Brain.topic_step repr recipient event
         ["Invalid deadline format: " +:+ msg]
     ∧ Generator._validate_request parse ist set_str R recipient event now
       = Generator.topic_check set_str R recipient event
           (missing ++ ["Invalid deadline format"]))
  ∧ (truthy d = false →
     Brain.should_send_email parse ist repr recipient event now
     = Brain.topic_step repr recipient event []
     ∧ Generator._validate_request parse ist set_str R recipient event now
       = Generator.topic_check set_str R recipient event missing)
  ∧ (∀ ws, gate_reason (Brain.topic_step repr recipient event ws)
           ≠ Some "deadline_passed"
         ∧ gate_reason (Generator.topic_check set_str R recipient event ws)
           ≠ Some "deadline_passed")
  ∧ (∀ dt z, truthy d = true → parse d = Parsed dt →
     to_utc ist dt = Some z → z < now →
     Brain.should_send_email parse ist repr recipient event now
     = Ok (false, "deadline_passed",
           ["Application deadline has passed - DO NOT SEND"])
     ∧ Generator._validate_request parse ist set_str R recipient event now
       = Ok (false, "deadline_passed", ["Deadline passed"]))
  ∧ (∀ dt z, truthy d = true → parse d = Parsed dt →
     to_utc ist dt = Some z → now ≤ z →
     Brain.should_send_email parse ist repr recipient event now
     = Brain.topic_step repr recipient event []
     ∧ Generator._validate_request parse ist set_str R recipient event now
       = Generator.topic_check set_str R recipient event missing)
  ∧ (∀ dt, truthy d = true → parse d = Parsed dt →
     to_utc ist dt = None →
     Brain.should_send_email parse ist repr recipient event now
     = Brain.topic_step repr recipient event
         ["Invalid deadline format: date value out of range"]
     ∧ Generator._validate_request parse ist set_str R recipient event now
       = Generator.topic_check set_str R recipient event
           (missing ++ ["Invalid deadline format"]))
  ∧ (∀ dt z,
       to_utc ist dt = Some z
       ↔ z = wall dt - default (ist (wall dt)) (tzinfo dt)
         ∧ -62135596800 ≤ z ≤ 253402300799
         ∧ (tzinfo dt = None →
            -62135596800 + 86400 ≤ wall dt ≤ 253402300799 - 86400)).
Proof.
  intros Hr He Hopt Hmd d missing.
  rewrite (should_send_email_past_opt_out parse ist repr _ _ now md Hr He Hopt Hmd).
  rewrite (_validate_request_past_opt_out parse ist set_str R _ _ now md Hopt Hmd).
  fold d. fold missing.
  unfold Brain.deadline_step, Brain.is_deadline_passed,
    Generator.deadline_check.
  split; [|split; [|split; [|split; [|split; [|split]]]]].
  - intros msg Ht Hp. rewrite Ht, Hp. done.
  - intros Ht. rewrite Ht. done.
  - intros ws. split; [apply topic_step_reason|apply topic_check_reason].
  - intros dt z Ht Hp Hz Hlt. rewrite Ht, Hp, Hz.
    by rewrite (proj2 (Z.ltb_lt _ _) Hlt).
  - intros dt z Ht Hp Hz Hge. rewrite Ht, Hp, Hz.
    by rewrite (proj2 (Z.ltb_ge _ _) Hge).
  - intros dt Ht Hp Hz. rewrite Ht, Hp, Hz. done.
  - intros dt z. apply to_utc_Some.
Qed.

Lemma deadline_rule_witness :
  Brain.should_send_email Sample.parse Sample.ist Sample.repr
    Sample.recipient (Sample.event "2000-01-01") 1735689600
  = Ok (false, "deadline_passed",
        ["Application deadline has passed - DO NOT SEND"])
  ∧ Generator._validate_request Sample.parse Sample.ist Sample.set_str
      Sample.rules Sample.recipient (Sample.event "2000-01-01") 1735689600
    = Ok (false, "deadline_passed", ["Deadline passed"]).
Proof.
  destruct (deadline_rule Sample.parse Sample.ist Sample.repr Sample.set_str
              Sample.rules Sample.recipient (Sample.event "2000-01-01")
              (Sample.metadata "2000-01-01") 1735689600)
    as (_ & _ & _ & Hpassed & _).
  - vm_compute. reflexivity.
  - vm_compute. reflexivity.
  - vm_compute. reflexivity.
  - vm_compute. reflexivity.
  - apply (Hpassed (mk_datetime 946684800 None) 946665000).
    + vm_compute. reflexivity.
    + vm_compute. reflexivity.
    + vm_compute. reflexivity.
    + vm_compute. reflexivity.
Defined.

(** ** Topic match *)

(** C7: for a pair that reaches the topic check of [should_send_email]
    (validation and opt-out passed, deadline not passed, topics and tags
    lists of strings), the gate blocks with reason "no_topic_match" exactly
    when the number of overlapping terms is below the "medium" threshold,
    which is 1, that is when no recipient topic has the key (trimmed,
    lower-cased) of an event tag; otherwise it approves. The warning of
    the block prints the recipient's topics, the event's tags and the
    overlap. *)
Theorem topic_match_rule
    (parse : json → parse_result) (ist : Z → Z) (repr : json → string)
    (recipient event md : dict) (now : Z) (ws : list string)
    (rt et : list string) :
  Brain.validate_recipient recipient = [] →
  Brain.validate_event event = Ok [] →
  truthy (dict_get recipient "opt_out" (JBool false)) = false →
  event !! "metadata" = Some (JDict md) →
  Brain.deadline_step parse ist (dict_get md "application_deadline" JNull)
    now [] = inl ws →
  recipient !! "topics" = Some (jstrs rt) →
  event !! "tags" = Some (jstrs et) →
  ∃ overlap,
    Brain.topic_overlap (jstrs rt) (jstrs et) = Ok overlap
    ∧ VALIDATION_RULES.topic_match_threshold_medium = 1%nat
    ∧ Brain.should_send_email parse ist repr recipient event now
      = (if bool_decide (length overlap < 1)%nat
         then Ok (false, "no_topic_match",
                  ["Insufficient topic overlap. "
                   +:+ "Recipient: " +:+ Brain.py_str repr (jstrs rt) +:+ " | "
                   +:+ "Event: " +:+ Brain.py_str repr (jstrs et) +:+ " | "
                   +:+ "Overlap: " +:+ Brain.py_str repr (jstrs overlap)])
         else Ok (true, "approved", ws))
    ∧ ((length overlap < 1)%nat
       ↔ ∀ t, t ∈ rt → topic_key t ∉ topic_key <$> et).
Proof.
  intros Hr He Hopt Hmd Hdl Htopics Htags.
  eexists. split; [apply topic_overlap_jstrs|]. split; [reflexivity|].
  split.
  - rewrite (should_send_email_past_opt_out parse ist repr _ _ now md
               Hr He Hopt Hmd), Hdl.
    unfold Brain.topic_step, Brain.no_topic_match_warning, dict_get.
    rewrite Htopics, Htags. cbn [from_option]. unfold id.
    rewrite topic_overlap_jstrs. csimpl.
    unfold VALIDATION_RULES.topic_match_threshold_medium.
    case_bool_decide as Hlt.
    + by rewrite (proj2 (Nat.ltb_lt _ _) Hlt).
    + by rewrite (proj2 (Nat.ltb_ge _ _) (proj1 (Nat.nlt_ge _ _) Hlt)).
  - rewrite py_sorted_length.
    split.
    + intros Hlt t Hin Hkey.
      assert (Hf : filter (λ t, topic_key t ∈ topic_key <$> et) rt = [])
        by (apply length_zero_iff_nil; lia).
      assert (t ∈ filter (λ t, topic_key t ∈ topic_key <$> et) rt) as Hmem
        by (apply list_elem_of_filter; done).
      rewrite Hf in Hmem. by apply not_elem_of_nil in Hmem.
    + intros Hnone.
      destruct (filter (λ t, topic_key t ∈ topic_key <$> et) rt)
        as [|t l] eqn:Hf; [simpl; lia|].
      assert (t ∈ filter (λ t, topic_key t ∈ topic_key <$> et) rt) as Hmem
        by (rewrite Hf; left).
      apply list_elem_of_filter in Hmem as [Hkey Hin].
      by destruct (Hnone t Hin).
Qed.

Lemma topic_match_rule_witness :
  Brain.should_send_email Sample.parse Sample.ist Sample.repr
    (<["topics" := jstrs ["Health "]]> Sample.recipient)
    (Sample.event "2099-01-01") 1735689600
  = Ok (false, "no_topic_match",
        ["Insufficient topic overlap. Recipient: ['Health '] | Event: ['education'] | Overlap: []"]).
Proof.
  destruct (topic_match_rule Sample.parse Sample.ist Sample.repr
              (<["topics" := jstrs ["Health "]]> Sample.recipient)
              (Sample.event "2099-01-01") (Sample.metadata "2099-01-01")
              1735689600 [] ["Health "] ["education"])
    as (overlap & Hov & _ & Hs & _).
  - vm_compute. reflexivity.
  - vm_compute. reflexivity.
  - vm_compute. reflexivity.
  - vm_compute. reflexivity.
  - vm_compute. reflexivity.
  - vm_compute. reflexivity.
  - vm_compute. reflexivity.
  - vm_compute in Hov. injection Hov as <-. rewrite Hs. vm_compute. reflexivity.
Defined.

(** ** Generated records of brain.py *)

Section BrainRecords.
Context (parse : json → parse_result) (ist : Z → Z) (repr : json → string)
        (exn_str : exn → string).

(** What approval tells about the pair. *)
Lemma should_send_email_approved_inv recipient event now reason ws :
  Brain.should_send_email parse ist repr recipient event now
  = Ok (true, reason, ws) →
  reason = "approved"
  ∧ (∃ md, dict_get event "metadata" (JDict ∅) = JDict md)
  ∧ ∃ overlap,
      Brain.topic_overlap (dict_get recipient "topics" (JList []))
                          (dict_get event "tags" (JList [])) = Ok overlap
      ∧ (1 ≤ length overlap)%nat.
Proof.
  unfold Brain.should_send_email, Brain.topic_step.
  destruct (Brain.validate_event event) as [e_errors|]; csimpl; [|done].
  destruct (negb _ || negb _); [done|].
  destruct (truthy _); [done|].
  destruct (dict_get event "metadata" (JDict ∅)) as [| | | | |md]; csimpl;
    try done.
  destruct (Brain.deadline_step _ _ _ _ _); [|done].
  destruct (Brain.topic_overlap _ _) as [overlap|]; csimpl; [|done].
  destruct (length overlap <? _)%nat eqn:Hlen; [done|].
  intros [= <- <-]. split; [done|]. split; [by eexists|].
  exists overlap. split; [done|].
  apply Nat.ltb_ge in Hlen. exact Hlen.
Qed.

(** The fallback content never fails when the metadata is a dictionary. *)
Lemma _generate_simple_body_returns recipient event day md :
  dict_get event "metadata" (JDict ∅) = JDict md →
  ∃ body, Brain._generate_simple_body repr recipient event day = Ok body.
Proof.
  intros Hmd. unfold Brain._generate_simple_body. rewrite Hmd. csimpl.
  by eexists.
Qed.

Lemma _fallback_email_fields recipient event day error body :
  Brain._generate_simple_body repr recipient event day = Ok body →
  ∃ fb,
    Brain._fallback_email repr recipient event day error = Ok fb
    ∧ fb !! "email"
      = Some (JDict (<["subject" :=
                        JStr (Brain.py_str repr (dict_get event "title" JNull)
                              +:+ " - Opportunity for "
                              +:+ Brain.py_str repr
                                    (dict_get recipient "organization" JNull))]>
                     (<["body" := JStr body]> ∅)))
    ∧ fb !! "warnings" = Some (jstrs ["Used fallback due to: " +:+ error]).
Proof.
  intros Hb. unfold Brain._fallback_email. rewrite Hb. csimpl.
  eexists. split; [reflexivity|]. split; reflexivity.
Qed.

(** "Add metadata" on a dictionary whose [warnings] are a list. *)
Lemma add_metadata_returns w recipient event day ws d tone overlap l :
  Brain.tone_from_engagement
    (dict_get recipient "engagement_score" (JNum (5 # 10))) = Ok tone →
  Brain.topic_overlap (dict_get recipient "topics" (JList []))
                      (dict_get event "tags" (JList [])) = Ok overlap →
  dict_get d "warnings" (JList []) = JList l →
  ∃ rec,
    Brain.add_metadata w recipient event day ws (JDict d) = Ok rec
    ∧ meta_field rec "status" = JStr "generated"
    ∧ meta_field rec "generated_at" = JStr (now_iso w)
    ∧ meta_field rec "tone" = JStr tone
    ∧ rec !! "email" = d !! "email"
    ∧ rec !! "warnings" = Some (JList ((JStr <$> ws) ++ l)).
Proof.
  intros Ht Ho Hw. unfold Brain.add_metadata. rewrite Ht, Ho. csimpl.
  unfold dict_get at 1. rewrite lookup_insert_ne by done.
  fold (dict_get d "warnings" (JList [])). rewrite Hw. csimpl.
  eexists. split; [reflexivity|].
  unfold meta_field.
  rewrite lookup_insert_ne by done. rewrite lookup_insert_eq.
  repeat split; try reflexivity.
  - rewrite lookup_insert_ne by done. by rewrite lookup_insert_ne by done.
  - by rewrite lookup_insert_eq.
Qed.

(** Whatever "Add metadata" returns is a generated record made from a
    dictionary. *)
Lemma add_metadata_inv w recipient event day ws result rec :
  Brain.add_metadata w recipient event day ws result = Ok rec →
  ∃ d, result = JDict d
    ∧ meta_field rec "status" = JStr "generated"
    ∧ meta_field rec "reason" = JNull
    ∧ meta_has rec "generated_at" = true
    ∧ rec !! "email" = d !! "email".
Proof.
  unfold Brain.add_metadata.
  destruct (Brain.tone_from_engagement _) as [tone|]; csimpl; [|done].
  destruct (Brain.topic_overlap _ _) as [overlap|]; csimpl; [|done].
  destruct result as [| | | | |d]; csimpl; try done.
  destruct (list_concat _ _) as [wsj|]; csimpl; [|done].
  intros [= <-]. exists d. split; [done|].
  unfold meta_field, meta_has.
  rewrite lookup_insert_ne by done. rewrite lookup_insert_eq.
  repeat split; try reflexivity.
  rewrite lookup_insert_ne by done. by rewrite lookup_insert_ne by done.
Qed.
End BrainRecords.

(** ** Provider failure *)

(** The failures brain.py handles. For an approved pair whose engagement
    score is a number, when the model call raises or its reply is not
    JSON, [generate_email_content] does not raise: it returns the
    deterministic fallback, and [generate_email_for_pair] returns a record
    with status "generated", the fallback's subject and body as e-mail,
    and as warnings those of the gate followed by "Used fallback due to: "
    and the failure message. *)
Theorem handled_provider_failure_falls_back
    (parse : json → parse_result) (ist : Z → Z) (repr : json → string)
    (exn_str : exn → string) (w : pair_env) (recipient event : dict)
    (day reason msg : string) (gate_ws : list string) (q : Q) :
  Brain.should_send_email parse ist repr recipient event (now_utc w)
  = Ok (true, reason, gate_ws) →
  as_number (dict_get recipient "engagement_score" (JNum (5 # 10))) = Some q →
  ai_body w = AiJSONDecodeError msg ∨ ai_body w = AiException msg →
  ∃ error body fb rec,
    (ai_body w = AiJSONDecodeError msg ∧ error = "JSON parse error: " +:+ msg
     ∨ ai_body w = AiException msg ∧ error = "API error: " +:+ msg)
    ∧ Brain._generate_simple_body repr recipient event day = Ok body
    ∧ Brain.generate_email_content repr (ai_body w) recipient event day
      = Ok (JDict fb)
    ∧ Brain.generate_email_for_pair parse ist repr exn_str w recipient event
        day true true = (1%nat, Ok rec)
    ∧ meta_field rec "status" = JStr "generated"
    ∧ rec !! "email"
      = Some (JDict (<["subject" :=
                        JStr (Brain.py_str repr (dict_get event "title" JNull)
                              +:+ " - Opportunity for "
                              +:+ Brain.py_str repr
                                    (dict_get recipient "organization" JNull))]>
                     (<["body" := JStr body]> ∅)))
    ∧ rec !! "warnings"
      = Some (jstrs (gate_ws ++ ["Used fallback due to: " +:+ error])).
Proof.
  intros Happ Hscore Hfail.
  destruct (should_send_email_approved_inv _ _ _ _ _ _ _ _ Happ)
    as (_ & [md Hmd] & overlap & Hov & _).
  destruct (_generate_simple_body_returns repr recipient event day md Hmd)
    as [body Hbody].
  set (error := match ai_body w with
                | AiJSONDecodeError m => "JSON parse error: " +:+ m
                | AiException m => "API error: " +:+ m
                | AiReply _ => ""
                end).
  destruct (_fallback_email_fields repr recipient event day error body Hbody)
    as (fb & Hfb & Hemail & Hwarn).
  assert (Hcontent : Brain.generate_email_content repr (ai_body w) recipient
                       event day = Ok (JDict fb)).
  { unfold Brain.generate_email_content. subst error.
    destruct Hfail as [Hf|Hf]; rewrite Hf in *; by rewrite Hfb. }
  assert (Htone : ∃ tone, Brain.tone_from_engagement
            (dict_get recipient "engagement_score" (JNum (5 # 10))) = Ok tone).
  { unfold Brain.tone_from_engagement. rewrite Hscore.
    destruct (Qle_bool _ q); [by eexists|].
    destruct (Qle_bool _ q); by eexists. }
  destruct Htone as [tone Htone].
  destruct (add_metadata_returns w recipient event day gate_ws fb tone overlap
              [JStr ("Used fallback due to: " +:+ error)] Htone Hov)
    as (rec & Hrec & Hst & _ & _ & Hem & Hws).
  { unfold dict_get. by rewrite Hwarn. }
  exists error, body, fb, rec.
  split.
  { subst error. destruct Hfail as [Hf|Hf]; rewrite Hf; [left|right]; done. }
  split; [done|]. split; [done|]. split.
  { unfold Brain.generate_email_for_pair. rewrite Happ. cbn [negb andb].
    rewrite Hcontent. csimpl. by rewrite Hrec. }
  split; [done|]. split; [by rewrite Hem|].
  rewrite Hws. unfold jstrs. by rewrite fmap_app.
Qed.

Lemma handled_provider_failure_falls_back_witness :
  ∃ error body fb rec,
    (ai_body (Sample.env (AiException "connection reset"))
     = AiJSONDecodeError "connection reset"
     ∧ error = "JSON parse error: " +:+ "connection reset"
     ∨ ai_body (Sample.env (AiException "connection reset"))
       = AiException "connection reset"
       ∧ error = "API error: " +:+ "connection reset")
    ∧ Brain._generate_simple_body Sample.repr Sample.recipient
        (Sample.event "2099-01-01") "1" = Ok body
    ∧ Brain.generate_email_content Sample.repr
        (ai_body (Sample.env (AiException "connection reset")))
        Sample.recipient (Sample.event "2099-01-01") "1" = Ok (JDict fb)
    ∧ Brain.generate_email_for_pair Sample.parse Sample.ist Sample.repr
        Sample.exn_str (Sample.env (AiException "connection reset"))
        Sample.recipient (Sample.event "2099-01-01") "1" true true
      = (1%nat, Ok rec)
    ∧ meta_field rec "status" = JStr "generated"
    ∧ rec !! "email"
      = Some (JDict (<["subject" :=
                        JStr (Brain.py_str Sample.repr
                                (dict_get (Sample.event "2099-01-01") "title"
                                   JNull)
                              +:+ " - Opportunity for "
                              +:+ Brain.py_str Sample.repr
                                    (dict_get Sample.recipient "organization"
                                       JNull))]>
                     (<["body" := JStr body]> ∅)))
    ∧ rec !! "warnings"
      = Some (jstrs ([] ++ ["Used fallback due to: " +:+ error])).
Proof.
  apply (handled_provider_failure_falls_back Sample.parse Sample.ist Sample.repr
           Sample.exn_str (Sample.env (AiException "connection reset"))
           Sample.recipient (Sample.event "2099-01-01") "1" "approved"
           "connection reset" [] (3 # 4)).
  - vm_compute. reflexivity.
  - vm_compute. reflexivity.
  - right. reflexivity.
Defined.

(** C4: the failure brain.py does not handle. On an approved pair the
    model replies with a JSON object whose [warnings] is a string, not a
    list: [generate_email_content] returns the reply as it is, and
    [generate_email_for_pair] raises [TypeError] at
    [warnings + result.get("warnings", [])], after the model was called,
    so that no record is produced and the exception leaves content
    generation. [EmailGenerator.generate_email] of src/core/generator.py,
    whose [try] covers the same two assignments, returns the fallback
    record on that reply, with the marker among its warnings. *)
Theorem malformed_reply_escapes_brain_fallback :
  Brain.should_send_email Sample.parse Sample.ist Sample.repr
    Sample.recipient (Sample.event "2099-01-01") 1735689600
  = Ok (true, "approved", [])
  ∧ Brain.generate_email_content Sample.repr (AiReply Sample.malformed_reply)
      Sample.recipient (Sample.event "2099-01-01") "1"
    = Ok Sample.malformed_reply
  ∧ Brain.generate_email_for_pair Sample.parse Sample.ist Sample.repr
      Sample.exn_str (Sample.env (AiReply Sample.malformed_reply))
      Sample.recipient (Sample.event "2099-01-01") "1" true true
    = (1%nat, Raise TypeError)
  ∧ ∃ rec,
      Generator.generate_email Sample.parse Sample.ist Sample.exn_str
        Sample.set_str Sample.repr Sample.title Sample.rules
        (Sample.env (AiReply Sample.malformed_reply)) true
        Sample.recipient (Sample.event "2099-01-01") "1"
      = (1%nat, Ok rec)
      ∧ meta_field rec "status" = JStr "generated"
      ∧ rec !! "warnings" = Some (jstrs ["Used fallback: TypeError"]).
Proof.
  split; [vm_compute; reflexivity|]. split; [reflexivity|].
  split; [vm_compute; reflexivity|].
  assert (Hok : is_ok (Generator.generate_email Sample.parse Sample.ist
                         Sample.exn_str Sample.set_str Sample.repr
                         Sample.title Sample.rules
                         (Sample.env (AiReply Sample.malformed_reply)) true
                         Sample.recipient (Sample.event "2099-01-01") "1").2
                = true) by (vm_compute; reflexivity).
  apply is_ok_inv in Hok as [rec Hrec].
  destruct (Generator.generate_email _ _ _ _ _ _ _ _ _ _ _ _) as [n r] eqn:Hrun.
  cbn [snd] in Hrec. subst r.
  assert (Hn : (Generator.generate_email Sample.parse Sample.ist
                  Sample.exn_str Sample.set_str Sample.repr Sample.title
                  Sample.rules (Sample.env (AiReply Sample.malformed_reply))
                  true Sample.recipient (Sample.event "2099-01-01") "1").1
               = 1%nat) by (vm_compute; reflexivity).
  assert (Hst : match (Generator.generate_email Sample.parse Sample.ist
                  Sample.exn_str Sample.set_str Sample.repr Sample.title
                  Sample.rules (Sample.env (AiReply Sample.malformed_reply))
                  true Sample.recipient (Sample.event "2099-01-01") "1").2
                with
                | Ok rec => meta_field rec "status" = JStr "generated"
                            ∧ rec !! "warnings"
                              = Some (jstrs ["Used fallback: TypeError"])
                | Raise _ => False
                end) by (vm_compute; split; reflexivity).
  rewrite Hrun in Hn, Hst. cbn [fst snd] in Hn, Hst. subst n.
  exists rec. split; [reflexivity|]. exact Hst.
Qed.

(** ** Records of src/core/generator.py *)

Section GeneratorRecords.
Context (parse : json → parse_result) (ist : Z → Z) (exn_str : exn → string)
        (set_str : gset string → string) (repr : json → string)
        (title : string → string) (R : Generator.rules).

Lemma _create_blocked_response_fields w recipient event day reason ws :
  let rec := Generator._create_blocked_response w recipient event day
               reason ws in
  meta_field rec "status" = JStr "blocked"
  ∧ meta_field rec "reason" = JStr reason
  ∧ meta_field rec "generated_at" = JStr (now_iso w)
  ∧ rec !! "email" = Some JNull.
Proof. repeat split; reflexivity. Qed.

Lemma _generate_fallback_inv w recipient event day ws error rec :
  Generator._generate_fallback repr title R w recipient event day ws error
  = Ok rec →
  meta_field rec "status" = JStr "generated"
  ∧ meta_field rec "reason" = JNull
  ∧ meta_field rec "generated_at" = JStr (now_iso w)
  ∧ is_null (dict_get rec "email" JNull) = false.
Proof.
  unfold Generator._generate_fallback.
  destruct (Generator._get_fallback_subject _ _ _ _ _); csimpl; [|done].
  destruct (py_get _ "type" _); csimpl; [|done].
  destruct (py_get _ "principle" _); csimpl; [|done].
  intros [= <-]. repeat split; reflexivity.
Qed.

Lemma _generate_with_ai_inv w recipient event day ws rec :
  Generator._generate_with_ai repr title R w recipient event day ws
  = Ok rec →
  meta_field rec "status" = JStr "generated"
  ∧ meta_field rec "reason" = JNull
  ∧ meta_field rec "generated_at" = JStr (now_iso w)
  ∧ (reply_has_email (ai_body w) →
     is_null (dict_get rec "email" JNull) = false).
Proof.
  unfold Generator._generate_with_ai.
  destruct (py_get _ "type" _); csimpl; [|done].
  destruct (ai_body w) as [j|msg|msg] eqn:Hbody; [| |done].
  - destruct j as [| | | | |d]; csimpl; try done.
    destruct (list_concat _ _) as [wsj|]; csimpl; [|done].
    intros [= <-]. unfold meta_field.
    rewrite lookup_insert_ne by done. rewrite lookup_insert_eq.
    repeat split; try reflexivity.
    intros Hreply. unfold dict_get.
    rewrite lookup_insert_ne by done. rewrite lookup_insert_ne by done.
    by apply Hreply.
  - intros Hfb. apply _generate_fallback_inv in Hfb. naive_solver.
Qed.
End GeneratorRecords.

(** ** Field presence *)

(** C3, the claim as stated fails on [EmailGenerator.generate_email]: the
    record of a blocked pair carries a [generated_at] timestamp. *)
Lemma generator_blocked_record_has_generated_at :
  ∃ rec,
    (Generator.generate_email Sample.parse Sample.ist Sample.exn_str
       Sample.set_str Sample.repr Sample.title
       Sample.rules (Sample.env (AiReply JNull)) true
       (<["opt_out" := JBool true]> Sample.recipient)
       (Sample.event "2099-01-01") "1").2 = Ok rec
    ∧ meta_field rec "status" = JStr "blocked"
    ∧ meta_has rec "generated_at" = true
    ∧ meta_field rec "generated_at" = JStr "2025-01-01T05:30:00+05:30".
Proof.
  unfold Generator.generate_email.
  rewrite _validate_request_opted_out by (vm_compute; reflexivity).
  cbn [negb snd]. eexists. split; [reflexivity|].
  split; [reflexivity|]. split; reflexivity.
Qed.

Section GeneratedShape.
Context (parse : json → parse_result) (ist : Z → Z) (repr : json → string)
        (exn_str : exn → string).

(** A record generated from the fallback content. *)
Lemma fallback_record_shape w recipient event day ws error txt rec :
  Brain._generate_simple_body repr recipient event day = Ok txt →
  (r ← JDict <$> Brain._fallback_email repr recipient event day error;
   Brain.add_metadata w recipient event day ws r) = Ok rec →
  meta_field rec "status" = JStr "generated"
  ∧ meta_field rec "reason" = JNull
  ∧ meta_has rec "generated_at" = true
  ∧ is_null (dict_get rec "email" JNull) = false.
Proof.
  intros Htxt.
  destruct (_fallback_email_fields repr recipient event day error txt Htxt)
    as (fb & Hfb & Hemail & _).
  rewrite Hfb. csimpl. intros Hadd.
  apply add_metadata_inv in Hadd as (d & [= <-] & Hst & Hre & Hga & Hem).
  repeat split; try done. unfold dict_get. by rewrite Hem, Hemail.
Qed.

(** A record [generate_email_for_pair] returns for an approved pair. *)
Lemma approved_record_shape w recipient event day ai use_ai reason ws rec :
  Brain.should_send_email parse ist repr recipient event (now_utc w)
  = Ok (true, reason, ws) →
  (Brain.generate_email_for_pair parse ist repr exn_str w recipient event
     day ai use_ai).2 = Ok rec →
  meta_field rec "status" = JStr "generated"
  ∧ meta_field rec "reason" = JNull
  ∧ meta_has rec "generated_at" = true
  ∧ (reply_has_email (ai_body w) →
     is_null (dict_get rec "email" JNull) = false).
Proof.
  intros Hgate.
  destruct (should_send_email_approved_inv _ _ _ _ _ _ _ _ Hgate)
    as (_ & [md Hmd] & _).
  destruct (_generate_simple_body_returns repr recipient event day md Hmd)
    as [txt Htxt].
  unfold Brain.generate_email_for_pair. rewrite Hgate. cbn [negb].
  destruct (use_ai && ai); cbn [snd].
  - unfold Brain.generate_email_content.
    destruct (ai_body w) as [j|msg|msg] eqn:Hbody.
    + csimpl. intros Hrec.
      apply add_metadata_inv in Hrec as (d & -> & Hst & Hre & Hga & Hem).
      repeat split; try done.
      intros Hreply. unfold dict_get. rewrite Hem. by apply Hreply.
    + destruct (_fallback_email_fields repr recipient event day
                  ("JSON parse error: " +:+ msg) txt Htxt) as (fb & Hfb & _).
      intros Hrec.
      destruct (fallback_record_shape w recipient event day ws
                  ("JSON parse error: " +:+ msg) txt rec Htxt)
        as (? & ? & ? & ?); [|done].
      rewrite Hfb in Hrec |- *. exact Hrec.
    + destruct (_fallback_email_fields repr recipient event day
                  ("API error: " +:+ msg) txt Htxt) as (fb & Hfb & _).
      intros Hrec.
      destruct (fallback_record_shape w recipient event day ws
                  ("API error: " +:+ msg) txt rec Htxt)
        as (? & ? & ? & ?); [|done].
      rewrite Hfb in Hrec |- *. exact Hrec.
  - intros Hrec.
    destruct (fallback_record_shape w recipient event day ws "AI disabled"
                txt rec Htxt Hrec) as (? & ? & ? & ?).
    done.
Qed.
End GeneratedShape.

(** C3 (amended): every record the per-pair functions return has status
    "blocked" or "generated"; its reason is non-null exactly when it is
    blocked; a blocked record has a null e-mail; a generated record has a
    non-null e-mail provided that the model's reply, when it is a JSON
    object, carries one. In [generate_email_for_pair] (brain.py)
    [generated_at] is present exactly on the generated records;
    [EmailGenerator.generate_email] (generator.py) writes [generated_at]
    into every record, blocked ones included. *)
Theorem record_field_presence
    (parse : json → parse_result) (ist : Z → Z) (repr : json → string)
    (exn_str : exn → string) (set_str : gset string → string)
    (title : string → string) (R : Generator.rules)
    (w : pair_env) (recipient event : dict) (day : string)
    (ai use_ai llm : bool) :
  (∀ rec,
     (Brain.generate_email_for_pair parse ist repr exn_str w recipient event
        day ai use_ai).2 = Ok rec →
     (meta_field rec "status" = JStr "blocked"
      ∨ meta_field rec "status" = JStr "generated")
     ∧ (is_null (meta_field rec "reason") = false
        ↔ meta_field rec "status" = JStr "blocked")
     ∧ (meta_has rec "generated_at" = true
        ↔ meta_field rec "status" = JStr "generated")
     ∧ (meta_field rec "status" = JStr "blocked" →
        is_null (dict_get rec "email" JNull) = true)
     ∧ (reply_has_email (ai_body w) →
        meta_field rec "status" = JStr "generated" →
        is_null (dict_get rec "email" JNull) = false))
  ∧ (∀ rec,
       (Generator.generate_email parse ist exn_str set_str repr title R w
          llm recipient event day).2 = Ok rec →
       (meta_field rec "status" = JStr "blocked"
        ∨ meta_field rec "status" = JStr "generated")
       ∧ (is_null (meta_field rec "reason") = false
          ↔ meta_field rec "status" = JStr "blocked")
       ∧ meta_field rec "generated_at" = JStr (now_iso w)
       ∧ (meta_field rec "status" = JStr "blocked" →
          is_null (dict_get rec "email" JNull) = true)
       ∧ (reply_has_email (ai_body w) →
          meta_field rec "status" = JStr "generated" →
          is_null (dict_get rec "email" JNull) = false)).
Proof.
  split.
  - intros rec Hrec.
    destruct (Brain.should_send_email parse ist repr recipient event
                (now_utc w)) as [[[should_send reason] ws]|] eqn:Hgate.
    + destruct should_send.
      * destruct (approved_record_shape parse ist repr exn_str w recipient
                    event day ai use_ai reason ws rec Hgate Hrec)
          as (Hst & Hre & Hga & Hem).
        rewrite Hst, Hre, Hga. cbn [is_null].
        split; [by right|]. split; [split; done|]. split; [done|].
        split; [done|]. intros Hreply _. by apply Hem.
      * rewrite (generate_email_for_pair_blocked _ _ _ _ _ _ _ _ _ _ _ _
                   Hgate) in Hrec. cbn [snd] in Hrec.
        apply blocked_record_fields in Hrec as (Hst & Hre & Hga & _ & Hem & _).
        unfold dict_get. rewrite Hst, Hre, Hga, Hem.
        cbn [is_null from_option].
        split; [by left|]. split; [done|]. split; [split; done|].
        split; done.
    + unfold Brain.generate_email_for_pair in Hrec. rewrite Hgate in Hrec.
      done.
  - intros rec. unfold Generator.generate_email.
    destruct (Generator._validate_request _ _ _ _ _ _ _)
      as [[[should_send reason] ws]|] eqn:Hgate; [|done].
    destruct should_send; cbn [negb].
    + intros Hrec.
      assert (meta_field rec "status" = JStr "generated"
              ∧ meta_field rec "reason" = JNull
              ∧ meta_field rec "generated_at" = JStr (now_iso w)
              ∧ (reply_has_email (ai_body w) →
                 is_null (dict_get rec "email" JNull) = false))
        as (Hst & Hre & Hga & Hem).
      { destruct llm; cbn [snd] in Hrec.
        - destruct (Generator._generate_with_ai _ _ _ _ _ _ _ _) eqn:Hai.
          + injection Hrec as <-. by eapply _generate_with_ai_inv.
          + apply _generate_fallback_inv in Hrec. naive_solver.
        - apply _generate_fallback_inv in Hrec. naive_solver. }
      rewrite Hst, Hre, Hga. cbn [is_null].
      split; [by right|]. split; [split; done|]. split; [done|].
      split; [done|]. intros Hreply _. by apply Hem.
    + cbn [snd]. intros [= <-].
      split; [by left|]. split; [split; done|]. split; [done|].
      split; done.
Qed.

(** ** Batch statistics *)

Lemma by_reason_sum_incr (m : gmap string nat) (r : string) :
  by_reason_sum (<[r := S (default 0%nat (m !! r))]> m) = S (by_reason_sum m).
Proof.
  unfold by_reason_sum.
  assert (Hcomm : ∀ (m' : gmap string nat) (j1 j2 : string) (z1 z2 y : nat),
            j1 ≠ j2 → m' !! j1 = Some z1 → m' !! j2 = Some z2 →
            (z1 + (z2 + y) = z2 + (z1 + y))%nat) by (intros; lia).
  destruct (m !! r) as [v|] eqn:Hr; cbn [from_option id].
  - rewrite <- (insert_delete_eq m r (S v)).
    rewrite map_fold_insert_L; [|by apply Hcomm|by rewrite lookup_delete_eq].
    rewrite (map_fold_delete_L _ _ r v m); [|by apply Hcomm|done].
    done.
  - rewrite map_fold_insert_L; [done|by apply Hcomm|done].
Qed.

Lemma meta_field_str (rec : dict) (k s : string) :
  meta_field rec k = JStr s →
  ∃ m, rec !! "meta" = Some (JDict m) ∧ m !! k = Some (JStr s).
Proof.
  unfold meta_field, dict_get.
  destruct (rec !! "meta") as [[| | | | |m]|]; try done.
  destruct (m !! k) as [v|] eqn:Hk; cbn [from_option id]; [|done].
  intros ->. by exists m.
Qed.

(** The "Update stats" block keeps the counters adding up, and counts the
    record in exactly one of [generated] and [blocked]. *)
Lemma update_stats_counted (st st' : Brain.stats) (rec : dict) :
  Brain.update_stats st rec = Ok st' →
  Brain.total st' = Brain.total st
  ∧ (Brain.generated st' + Brain.blocked st'
     = S (Brain.generated st + Brain.blocked st))%nat
  ∧ (by_reason_sum (Brain.by_reason st) = Brain.blocked st →
     by_reason_sum (Brain.by_reason st') = Brain.blocked st').
Proof.
  unfold Brain.update_stats.
  destruct (py_getitem (JDict rec) "meta") as [meta|]; csimpl; [|done].
  destruct (py_getitem meta "status") as [status|]; csimpl; [|done].
  destruct (is_str "generated" status).
  - intros [= <-]. cbn. split; [done|]. split; [lia|done].
  - destruct (py_getitem meta "reason") as [reason|]; csimpl; [|done].
    destruct reason as [| | |r| |]; try done.
    intros [= <-]. cbn. split; [done|]. split; [lia|].
    intros Hsum. by rewrite by_reason_sum_incr, Hsum.
Qed.

Lemma update_stats_returns (st : Brain.stats) (rec : dict) :
  (∃ r, meta_field rec "status" = JStr "blocked"
        ∧ meta_field rec "reason" = JStr r)
  ∨ meta_field rec "status" = JStr "generated" →
  is_ok (Brain.update_stats st rec) = true.
Proof.
  unfold Brain.update_stats.
  intros [(r & Hst & Hre)|Hst].
  - apply meta_field_str in Hst as (m & Hm & Hst).
    apply meta_field_str in Hre as (m' & Hm' & Hre).
    assert (m' = m) as -> by congruence.
    cbn. rewrite Hm. csimpl. rewrite Hst. csimpl. rewrite Hre. done.
  - apply meta_field_str in Hst as (m & Hm & Hst).
    cbn. rewrite Hm. csimpl. rewrite Hst. done.
Qed.

Section Batch.
Context (parse : json → parse_result) (ist : Z → Z) (repr : json → string)
        (exn_str : exn → string) (world : nat → pair_env)
        (ai use_ai : bool).

#[local] Abbreviation pair_step :=
  (Brain.pair_step parse ist repr exn_str world ai use_ai).
#[local] Abbreviation recipient_step :=
  (Brain.recipient_step parse ist repr exn_str world ai use_ai).
#[local] Abbreviation day_step :=
  (Brain.day_step parse ist repr exn_str world ai use_ai).

(** Every returned record can be counted. *)
Lemma pair_record_countable w recipient event day rec :
  (Brain.generate_email_for_pair parse ist repr exn_str w recipient event
     day ai use_ai).2 = Ok rec →
  (∃ r, meta_field rec "status" = JStr "blocked"
        ∧ meta_field rec "reason" = JStr r)
  ∨ meta_field rec "status" = JStr "generated".
Proof.
  intros Hrec.
  destruct (Brain.should_send_email parse ist repr recipient event
              (now_utc w)) as [[[should_send reason] ws]|] eqn:Hgate.
  - destruct should_send.
    + right.
      by destruct (approved_record_shape parse ist repr exn_str w recipient
                     event day ai use_ai reason ws rec Hgate Hrec).
    + left. exists reason.
      rewrite (generate_email_for_pair_blocked _ _ _ _ _ _ _ _ _ _ _ _
                 Hgate) in Hrec. cbn [snd] in Hrec.
      by apply blocked_record_fields in Hrec as (? & ? & _).
  - unfold Brain.generate_email_for_pair in Hrec. rewrite Hgate in Hrec.
    done.
Qed.

(** One pair: [total] goes up by one, and so does exactly one of
    [generated] and [blocked]. *)
Lemma pair_step_counted day recipient event st outs st' outs' :
  pair_step day recipient (Ok (st, outs)) event = Ok (st', outs') →
  Brain.total st' = S (Brain.total st)
  ∧ (Brain.generated st' + Brain.blocked st'
     = S (Brain.generated st + Brain.blocked st))%nat
  ∧ (by_reason_sum (Brain.by_reason st) = Brain.blocked st →
     by_reason_sum (Brain.by_reason st') = Brain.blocked st')
  ∧ length outs' = S (length outs).
Proof.
  unfold Brain.pair_step. csimpl.
  destruct (Brain.generate_email_for_pair _ _ _ _ _ _ _ _ _ _).2
    as [result|]; csimpl; [|done].
  destruct (Brain.update_stats _ result) as [st2|] eqn:Hup; csimpl; [|done].
  intros [= <- <-].
  apply update_stats_counted in Hup as (Ht & Hgb & Hsum). cbn in *.
  rewrite length_app. cbn. split; [done|]. split; [done|].
  split; [done|lia].
Qed.

Lemma pair_step_returns day recipient event st outs :
  is_ok (Brain.generate_email_for_pair parse ist repr exn_str
           (world (Brain.total st)) recipient event day ai use_ai).2 = true →
  is_ok (pair_step day recipient (Ok (st, outs)) event) = true.
Proof.
  unfold Brain.pair_step. csimpl.
  destruct (Brain.generate_email_for_pair _ _ _ _ _ _ _ _ _ _).2
    as [result|] eqn:Hres; [|done].
  intros _. csimpl.
  pose proof (update_stats_returns
                (Brain.mk_stats (S (Brain.total st)) (Brain.generated st)
                   (Brain.blocked st) (Brain.by_reason st)) result
                (pair_record_countable _ _ _ _ _ Hres)) as Hup.
  destruct (Brain.update_stats _ result); [done|done].
Qed.

Lemma pair_step_raise day recipient event e :
  pair_step day recipient (Raise e) event = Raise e.
Proof. done. Qed.

Lemma foldl_pair_step_raise day recipient events e :
  foldl (pair_step day recipient) (Raise e) events = Raise e.
Proof. induction events as [|ev events IH]; [done|]. cbn. exact IH. Qed.

(** The loop over the events for one recipient. *)
Lemma events_loop_counted day recipient events st outs st' outs' :
  foldl (pair_step day recipient) (Ok (st, outs)) events = Ok (st', outs') →
  Brain.total st' = (Brain.total st + length events)%nat
  ∧ (Brain.generated st' + Brain.blocked st'
     = Brain.generated st + Brain.blocked st + length events)%nat
  ∧ (by_reason_sum (Brain.by_reason st) = Brain.blocked st →
     by_reason_sum (Brain.by_reason st') = Brain.blocked st')
  ∧ length outs' = (length outs + length events)%nat.
Proof.
  revert st outs. induction events as [|ev events IH]; intros st outs.
  - cbn. intros [= <- <-]. repeat split; (done || lia).
  - cbn [foldl].
    destruct (pair_step day recipient (Ok (st, outs)) ev)
      as [[st1 outs1]|e] eqn:Hstep.
    + intros Hrest. apply IH in Hrest as (Ht & Hgb & Hsum & Hlen).
      apply pair_step_counted in Hstep as (Ht1 & Hgb1 & Hsum1 & Hlen1).
      cbn [length]. split; [lia|]. split; [lia|]. split; [auto|lia].
    + by rewrite foldl_pair_step_raise.
Qed.

Lemma foldl_recipient_step_raise day events recipients e :
  foldl (recipient_step day events) (Raise e) recipients = Raise e.
Proof.
  induction recipients as [|r recipients IH]; [done|]. cbn [foldl].
  unfold Brain.recipient_step at 2. by rewrite foldl_pair_step_raise.
Qed.

(** The loop over the recipients for one day. *)
Lemma recipients_loop_counted day events recipients st outs st' outs' :
  foldl (recipient_step day events) (Ok (st, outs)) recipients
  = Ok (st', outs') →
  Brain.total st' = (Brain.total st + length recipients * length events)%nat
  ∧ (Brain.generated st' + Brain.blocked st'
     = Brain.generated st + Brain.blocked st
       + length recipients * length events)%nat
  ∧ (by_reason_sum (Brain.by_reason st) = Brain.blocked st →
     by_reason_sum (Brain.by_reason st') = Brain.blocked st')
  ∧ length outs' = (length outs + length recipients * length events)%nat.
Proof.
  revert st outs. induction recipients as [|r recipients IH]; intros st outs.
  - cbn. intros [= <- <-]. repeat split; (done || lia).
  - cbn [foldl]. unfold Brain.recipient_step at 2.
    destruct (foldl (pair_step day r) (Ok (st, outs)) events)
      as [[st1 outs1]|e] eqn:Hev.
    + intros Hrest. apply IH in Hrest as (Ht & Hgb & Hsum & Hlen).
      apply events_loop_counted in Hev as (Ht1 & Hgb1 & Hsum1 & Hlen1).
      cbn [length]. split; [lia|]. split; [lia|]. split; [auto|lia].
    + by rewrite foldl_recipient_step_raise.
Qed.

Lemma foldl_day_step_raise recipients events days e :
  foldl (day_step recipients events) (Raise e) days = Raise e.
Proof. induction days as [|d days IH]; [done|]. cbn. exact IH. Qed.

(** The loop over the days. *)
Lemma days_loop_counted recipients events days st saved st' saved' :
  foldl (day_step recipients events) (Ok (st, saved)) days
  = Ok (st', saved') →
  Brain.total st'
  = (Brain.total st + length days * (length recipients * length events))%nat
  ∧ (Brain.generated st' + Brain.blocked st'
     = Brain.generated st + Brain.blocked st
       + length days * (length recipients * length events))%nat
  ∧ (by_reason_sum (Brain.by_reason st) = Brain.blocked st →
     by_reason_sum (Brain.by_reason st') = Brain.blocked st')
  ∧ saved'.*1 = saved.*1 ++ days
  ∧ (Forall (λ p, length p.2 = (length recipients * length events)%nat) saved →
     Forall (λ p, length p.2 = (length recipients * length events)%nat) saved').
Proof.
  revert st saved. induction days as [|d days IH]; intros st saved.
  - cbn. intros [= <- <-]. rewrite app_nil_r.
    repeat split; (done || lia).
  - cbn [foldl]. unfold Brain.day_step at 2. csimpl.
    destruct (foldl (recipient_step d events) (Ok (st, [])) recipients)
      as [[st1 outs1]|e] eqn:Hday; csimpl.
    + intros Hrest. apply IH in Hrest as (Ht & Hgb & Hsum & Hdays & Hlen).
      apply recipients_loop_counted in Hday as (Ht1 & Hgb1 & Hsum1 & Hlen1).
      cbn [length] in *. split; [lia|]. split; [lia|]. split; [auto|].
      split.
      * rewrite Hdays, fmap_app. cbn. by rewrite <- app_assoc.
      * intros Hall. apply Hlen. apply Forall_app. split; [done|].
        apply Forall_singleton. cbn. lia.
    + by rewrite foldl_day_step_raise.
Qed.

(** The loops return when every per-pair call returns. *)
Lemma events_loop_returns day recipient events :
  (∀ n event, event ∈ events →
     is_ok (Brain.generate_email_for_pair parse ist repr exn_str (world n)
              recipient event day ai use_ai).2 = true) →
  ∀ st outs,
    is_ok (foldl (pair_step day recipient) (Ok (st, outs)) events) = true.
Proof.
  induction events as [|ev events IH]; intros Hok st outs; [done|].
  cbn [foldl].
  pose proof (pair_step_returns day recipient ev st outs
                (Hok _ ev ltac:(left))) as Hstep.
  destruct (pair_step day recipient (Ok (st, outs)) ev) as [[st1 outs1]|];
    [|done].
  apply IH. intros n event Hin. apply Hok. by right.
Qed.

Lemma recipients_loop_returns day events recipients :
  (∀ n recipient event, recipient ∈ recipients → event ∈ events →
     is_ok (Brain.generate_email_for_pair parse ist repr exn_str (world n)
              recipient event day ai use_ai).2 = true) →
  ∀ st outs,
    is_ok (foldl (recipient_step day events) (Ok (st, outs)) recipients)
    = true.
Proof.
  induction recipients as [|r recipients IH]; intros Hok st outs; [done|].
  cbn [foldl]. unfold Brain.recipient_step at 2.
  pose proof (events_loop_returns day r events
                (λ n event Hin, Hok n r event ltac:(left) Hin) st outs)
    as Hev.
  destruct (foldl (pair_step day r) (Ok (st, outs)) events)
    as [[st1 outs1]|]; [|done].
  apply IH. intros n recipient event Hin. apply Hok. by right.
Qed.

Lemma days_loop_returns recipients events days :
  (∀ n recipient event day,
     recipient ∈ recipients → event ∈ events → day ∈ days →
     is_ok (Brain.generate_email_for_pair parse ist repr exn_str (world n)
              recipient event day ai use_ai).2 = true) →
  ∀ st saved,
    is_ok (foldl (day_step recipients events) (Ok (st, saved)) days) = true.
Proof.
  induction days as [|d days IH]; intros Hok st saved; [done|].
  cbn [foldl]. unfold Brain.day_step at 2. csimpl.
  pose proof (recipients_loop_returns d events recipients
                (λ n recipient event Hr He,
                   Hok n recipient event d Hr He ltac:(left)) st [])
    as Hday.
  destruct (foldl (recipient_step d events) (Ok (st, [])) recipients)
    as [[st1 outs1]|]; [|done].
  csimpl. apply IH. intros n recipient event day Hr He Hd.
  apply Hok; [done|done|by right].
Qed.
End Batch.

(** C8: when [generate_batch] returns, its statistics count every pair of
    every day ([total] is the number of days times the number of
    recipients times the number of events), [total] is [generated] plus
    [blocked], and the counts of [by_reason] add up to [blocked]; every
    day's file holds one record per pair, in the order of the days. It
    returns whenever every per-pair call returns. *)
Theorem batch_statistics
    (parse : json → parse_result) (ist : Z → Z) (repr : json → string)
    (exn_str : exn → string) (world : nat → pair_env)
    (api_key_set use_ai : bool) (recipients events : list dict)
    (days : list string) :
  (∀ st saved,
     Brain.generate_batch parse ist repr exn_str world api_key_set use_ai
       recipients events days = Ok (st, saved) →
     Brain.total st
     = (length days * length recipients * length events)%nat
     ∧ Brain.total st = (Brain.generated st + Brain.blocked st)%nat
     ∧ by_reason_sum (Brain.by_reason st) = Brain.blocked st
     ∧ saved.*1 = days
     ∧ Forall (λ p, length p.2 = (length recipients * length events)%nat)
         saved)
  ∧ ((∀ n recipient event day,
        recipient ∈ recipients → event ∈ events → day ∈ days →
        is_ok (Brain.generate_email_for_pair parse ist repr exn_str (world n)
                 recipient event day (use_ai && api_key_set)
                 (use_ai && api_key_set)).2 = true) →
     is_ok (Brain.generate_batch parse ist repr exn_str world api_key_set
              use_ai recipients events days) = true).
Proof.
  unfold Brain.generate_batch. split.
  - intros st saved Hrun.
    apply days_loop_counted in Hrun as (Ht & Hgb & Hsum & Hdays & Hlen).
    cbn in Ht, Hgb, Hsum, Hdays.
    split; [lia|]. split; [lia|]. split; [by apply Hsum|].
    split; [done|]. by apply Hlen.
  - intros Hok. by apply days_loop_returns.
Qed.

(** The statistics of a run of [generate_batch], projected. *)
Lemma batch_statistics_witness :
  let run :=
    Brain.generate_batch Sample.parse Sample.ist Sample.repr Sample.exn_str
      (λ _, Sample.env (AiException "down")) false false
      [Sample.recipient;
       <["opt_out" := JBool true]> Sample.recipient;
       <["topics" := jstrs ["health"]]> Sample.recipient]
      [Sample.event "2099-01-01";
       <["tags" := jstrs ["arts"]]> (Sample.event "2099-01-01")]
      ["1"] in
  ∃ st saved,
    run = Ok (st, saved)
    ∧ Brain.total st = 6%nat
    ∧ Brain.generated st = 1%nat
    ∧ Brain.blocked st = 5%nat
    ∧ Brain.by_reason st !! "opted_out" = Some 2%nat
    ∧ Brain.by_reason st !! "no_topic_match" = Some 3%nat
    ∧ by_reason_sum (Brain.by_reason st) = 5%nat.
Proof.
  intros run.
  assert (Hgen : (λ r, match r with
                       | Ok (st, _) =>
                           Some (Brain.generated st,
                                 Brain.by_reason st !! "opted_out",
                                 Brain.by_reason st !! "no_topic_match")
                       | Raise _ => None
                       end) run = Some (1%nat, Some 2%nat, Some 3%nat))
    by (vm_compute; reflexivity).
  destruct (batch_statistics Sample.parse Sample.ist Sample.repr
              Sample.exn_str (λ _, Sample.env (AiException "down")) false
              false
              [Sample.recipient;
               <["opt_out" := JBool true]> Sample.recipient;
               <["topics" := jstrs ["health"]]> Sample.recipient]
              [Sample.event "2099-01-01";
               <["tags" := jstrs ["arts"]]> (Sample.event "2099-01-01")]
              ["1"]) as [Hinv _].
  fold run in Hinv. cbn beta in Hgen.
  destruct run as [[st saved]|]; [|discriminate Hgen].
  injection Hgen as Hg Ho Hn.
  destruct (Hinv st saved eq_refl) as (Htotal & Hsplit & Hsum & _).
  cbn [length Nat.mul Nat.add] in Htotal.
  exists st, saved. split; [done|]. split; [done|]. split; [done|].
  split; [lia|]. split; [done|]. split; [done|]. rewrite Hsum. lia.
Defined.

(** ** Delivery counters *)

Section SendBatch.
Context (C : Sender.config) (exn_str : exn → string).

(** One e-mail of the batch: [attempted] goes up by one and so does
  exactly one of [sent], [failed] and [skipped]; a dry run never
  counts a failure. *)
Lemma send_one_counted dry_run smtp len st idx email_data st' :
Sender.send_one C exn_str dry_run smtp len st idx email_data = Ok st' →
Sender.attempted st' = S (Sender.attempted st)
∧ (st' = Sender.mk_stats (S (Sender.attempted st)) (S (Sender.sent st))
           (Sender.failed st) (Sender.skipped st)
   ∨ st' = Sender.mk_stats (S (Sender.attempted st)) (Sender.sent st)
             (S (Sender.failed st)) (Sender.skipped st)
   ∨ st' = Sender.mk_stats (S (Sender.attempted st)) (Sender.sent st)
             (Sender.failed st) (S (Sender.skipped st)))
∧ (dry_run = true → Sender.failed st' = Sender.failed st).
Proof.
unfold Sender.send_one.
destruct (negb _ || negb _ || negb _).
- intros [= <-]. cbn. split; [done|]. split; [by right; right|done].
- unfold Sender._send_single_with_retry.
  destruct dry_run.
  + csimpl. intros [= <-]. cbn. split; [done|]. split; [by left|done].
  + destruct (Sender.retry_loop _ _ _ _ _) as [[success err]|];
      csimpl; [|done].
    destruct (Sender.rate_limit _ _ _ _) as [[]|]; csimpl; [|done].
    intros [= <-].
    destruct success; cbn; (split; [done|]); (split; [|done]).
    * by left.
    * by right; left.
Qed.

Lemma send_loop_counted dry_run smtp len emails st idx st' :
Sender.send_loop C exn_str dry_run smtp len st idx emails = Ok st' →
Sender.attempted st' = (Sender.attempted st + length emails)%nat
∧ (balanced st → balanced st')
∧ (dry_run = true → Sender.failed st' = Sender.failed st).
Proof.
revert st idx. induction emails as [|e emails IH]; intros st idx.
- cbn. intros [= <-]. split; [lia|done].
- cbn [Sender.send_loop].
  destruct (Sender.send_one _ _ _ _ _ _ _ e) as [st1|] eqn:Hone;
    csimpl; [|done].
  intros Hrest. apply IH in Hrest as (Hatt & Hbal & Hdry).
  apply send_one_counted in Hone as (Hatt1 & Hcase & Hdry1).
  cbn [length]. split; [lia|]. split.
  + intros Hst. apply Hbal. unfold balanced in *.
    destruct Hcase as [->|[->| ->]]; cbn; lia.
  + intros Hd. rewrite (Hdry Hd). by apply Hdry1.
Qed.

(** A dry run never raises. *)
Lemma send_loop_dry_run_returns smtp len emails st idx :
is_ok (Sender.send_loop C exn_str true smtp len st idx emails) = true.
Proof.
revert st idx. induction emails as [|e emails IH]; intros st idx; [done|].
cbn [Sender.send_loop]. unfold Sender.send_one.
destruct (negb _ || negb _ || negb _); csimpl; apply IH.
Qed.

Lemma retry_loop_returns send fuel attempt :
0 ≤ Sender.RETRY_DELAY C →
is_ok (Sender.retry_loop C exn_str send fuel attempt) = true.
Proof.
intros Hdelay. revert attempt.
induction fuel as [|fuel IH]; intros attempt; [done|].
cbn [Sender.retry_loop]. destruct (send attempt); [|done].
destruct (attempt <? Sender.MAX_RETRIES C); [|done].
unfold Sender.sleep. rewrite (proj2 (Z.ltb_ge _ _) Hdelay). csimpl.
apply IH.
Qed.

(** A real run returns when the pauses are not negative and the batch
  size is not zero. *)
Lemma send_loop_returns dry_run smtp len emails st idx :
0 ≤ Sender.RETRY_DELAY C → 0 ≤ Sender.BATCH_PAUSE C →
Sender.BATCH_SIZE C ≠ 0 →
is_ok (Sender.send_loop C exn_str dry_run smtp len st idx emails) = true.
Proof.
intros Hdelay Hpause Hsize. revert st idx.
induction emails as [|e emails IH]; intros st idx; [done|].
cbn [Sender.send_loop]. unfold Sender.send_one.
destruct (negb _ || negb _ || negb _); csimpl; [apply IH|].
unfold Sender._send_single_with_retry.
destruct dry_run; csimpl; [apply IH|].
pose proof (retry_loop_returns (smtp idx)
              (Z.to_nat (Sender.MAX_RETRIES C)) 1 Hdelay) as Hretry.
destruct (Sender.retry_loop _ _ _ _ _) as [[success err]|]; [|done].
csimpl. unfold Sender.rate_limit, Sender.sleep. cbn [negb andb].
destruct (idx <? len); csimpl; [|apply IH].
rewrite (proj2 (Z.eqb_neq _ _) Hsize).
destruct (_ mod _ =? 0); csimpl; [|apply IH].
rewrite (proj2 (Z.ltb_ge _ _) Hpause). csimpl. apply IH.
Qed.
End SendBatch.

(** C10: [send_batch] keeps the counters adding up: from counters with
    [attempted = sent + failed + skipped] (those of a new sender are all
    zero) every return of [send_batch], in a dry run, in a real run and
    when the SMTP connection cannot be made, leaves counters that add up;
    when the loop runs it counts every e-mail of the batch once in
    [attempted]; a dry run leaves [failed] as it was, so 0 on a sender
    made for dry runs. A dry run always returns. *)
Theorem send_batch_partition
    (C : Sender.config) (exn_str : exn → string) (dry_run connect : bool)
    (smtp : Z → Z → option exn) (emails : list dict)
    (st st' : Sender.stats) :
  balanced st →
  Sender.send_batch C exn_str dry_run st connect smtp emails = Ok st' →
  balanced st'
  ∧ (dry_run = true →
     Sender.failed st' = Sender.failed st
     ∧ Sender.attempted st' = (Sender.attempted st + length emails)%nat)
  ∧ (dry_run = false → connect = false → st' = st)
  ∧ (dry_run = false → connect = true →
     Sender.attempted st' = (Sender.attempted st + length emails)%nat)
  ∧ balanced Sender.stats0
  ∧ Sender.failed Sender.stats0 = 0%nat
  ∧ (∀ st0 smtp0 emails0,
       is_ok (Sender.send_batch C exn_str true st0 connect smtp0 emails0)
       = true).
Proof.
  intros Hbal Hrun.
  assert (Hdry : ∀ st0 smtp0 emails0,
            is_ok (Sender.send_batch C exn_str true st0 connect smtp0 emails0)
            = true).
  { intros st0 smtp0 emails0. unfold Sender.send_batch.
    destruct emails0; [done|]. cbn [negb andb].
    apply send_loop_dry_run_returns. }
  unfold Sender.send_batch in Hrun.
  destruct emails as [|e emails].
  - injection Hrun as <-. cbn [length].
    repeat split; try done; lia.
  - destruct dry_run; cbn [negb andb] in Hrun.
    + apply send_loop_counted in Hrun as (Hatt & Hb & Hf).
      split; [by apply Hb|]. split; [intros _; split; [by apply Hf|done]|].
      split; [done|]. split; [done|]. done.
    + destruct connect; cbn [negb] in Hrun.
      * apply send_loop_counted in Hrun as (Hatt & Hb & Hf).
        split; [by apply Hb|]. split; [done|]. split; [done|].
        split; [done|]. done.
      * injection Hrun as <-.
        split; [done|]. split; [done|]. split; [done|]. split; [done|]. done.
Qed.

Lemma send_batch_partition_witness :
  balanced (Sender.mk_stats 2 1 0 1)
  ∧ Sender.failed (Sender.mk_stats 2 1 0 1) = 0%nat
  ∧ Sender.attempted (Sender.mk_stats 2 1 0 1) = 2%nat.
Proof.
  destruct (send_batch_partition
              (Sender.mk_config 10 50 60 3 5) Sample.exn_str true false
              (λ _ _, Some (RuntimeError "refused"))
              [<["recipient_email" := JStr "asha@example.org"]>
               (<["subject" := JStr "Hello"]> (<["body" := JStr "Text"]> ∅));
               <["recipient_email" := JNull]>
               (<["subject" := JStr "Hello"]> (<["body" := JStr "Text"]> ∅))]
              Sender.stats0 (Sender.mk_stats 2 1 0 1))
    as (Hbal & Hdry & _).
  - vm_compute. reflexivity.
  - vm_compute. reflexivity.
  - destruct (Hdry eq_refl) as [Hfailed Hattempted].
    split; [exact Hbal|]. split; [exact Hfailed|exact Hattempted].
Defined.

(** ** Delivery hand-off *)



(** * Further properties of the code *)

(** ** Tone *)

(** X1: [tone_from_engagement] is a step function of the exact value of a
    numeric score, with the floats 0.7 and 0.5 for steps: "enthusiastic"
    from the double of 0.7 up, which is 3152519739159347 / 2^52 and lies
    a little below 7/10, "professional" from 0.5 up to that double
    excluded, "gentle" below 0.5; a score that is not a number (a string,
    null, a list, a dictionary) raises [TypeError]. *)
Theorem tone_from_engagement_steps (q : Q) (score : json) :
  (3152519739159347 # 4503599627370496 < 7 # 10)%Q
  ∧ 4503599627370496 = 2 ^ 52
  ∧ (Brain.tone_from_engagement (JNum q) = Ok "enthusiastic"
     ↔ (3152519739159347 # 4503599627370496 <= q)%Q)
  ∧ (Brain.tone_from_engagement (JNum q) = Ok "professional"
     ↔ (5 # 10 <= q)%Q ∧ (q < 3152519739159347 # 4503599627370496)%Q)
  ∧ (Brain.tone_from_engagement (JNum q) = Ok "gentle" ↔ (q < 5 # 10)%Q)
  ∧ (Brain.tone_from_engagement score = Raise TypeError
     ↔ as_number score = None).
Proof.
  unfold Brain.tone_from_engagement,
    VALIDATION_RULES.engagement_thresholds_high,
    VALIDATION_RULES.engagement_thresholds_low.
  cbn [as_number].
  split; [reflexivity|]. split; [reflexivity|].
  assert (Hlow_high : ∀ x : Q, (3152519739159347 # 4503599627370496 <= x)%Q → (5 # 10 <= x)%Q).
  { intros x Hx. eapply Qle_trans; [|exact Hx]. discriminate. }
  destruct (Qle_bool (3152519739159347 # 4503599627370496) q) eqn:Hhigh.
  - apply Qle_bool_iff in Hhigh.
    split; [done|]. split.
    + split; [done|]. intros [_ Hlt]. by apply Qlt_not_le in Hlt.
    + split.
      * split; [done|]. intros Hlt.
        apply Qlt_not_le in Hlt. by destruct Hlt; apply Hlow_high.
      * destruct (as_number score) as [x|]; [|done].
        split; [|done].
        destruct (Qle_bool _ x); [done|]. by destruct (Qle_bool _ x).
  - assert (Hnot : ¬ (3152519739159347 # 4503599627370496 <= q)%Q).
    { intros H. apply Qle_bool_iff in H. congruence. }
    apply Qnot_le_lt in Hnot.
    destruct (Qle_bool (5 # 10) q) eqn:Hlow.
    + apply Qle_bool_iff in Hlow.
      split; [split; [done|intros H; by apply Qlt_not_le in Hnot]|].
      split; [done|]. split.
      * split; [done|]. intros Hlt. by apply Qlt_not_le in Hlt.
      * destruct (as_number score) as [x|]; [|done].
        split; [|done].
        destruct (Qle_bool _ x); [done|]. by destruct (Qle_bool _ x).
    + assert (Hnot' : ¬ (5 # 10 <= q)%Q).
      { intros H. apply Qle_bool_iff in H. congruence. }
      apply Qnot_le_lt in Hnot'.
      split; [split; [done|intros H; by apply Qlt_not_le in Hnot]|].
      split; [split; [done|intros [H _]; by apply Qlt_not_le in Hnot']|].
      split; [done|].
      destruct (as_number score) as [x|]; [|done].
      split; [|done].
      destruct (Qle_bool _ x); [done|]. by destruct (Qle_bool _ x).
Qed.

(** ** Validation *)

Lemma has_key_is_Some (d : dict) (k : string) :
  has_key d k = true ↔ is_Some (d !! k).
Proof.
  unfold has_key. destruct (d !! k); split; done.
Qed.

(** The loop over the required fields reports the missing ones, in the
    order of the list. *)
Lemma missing_fields_nil (pre : string) (fields : list string) (d : dict) :
  missing_fields pre fields d = [] ↔ Forall (λ f, is_Some (d !! f)) fields.
Proof.
  unfold missing_fields. induction fields as [|f fields IH]; cbn.
  - split; [constructor|done].
  - destruct (has_key d f) eqn:Hf; cbn.
    + rewrite IH. rewrite Forall_cons. apply has_key_is_Some in Hf. tauto.
    + split; [done|]. intros H. apply Forall_cons in H as [Hs _].
      apply has_key_is_Some in Hs. congruence.
Qed.

(** X2: [validate_recipient] returns no error exactly when the record has
    the seven required fields and its [topics] is a list; it never looks
    at the type of any other field. *)
Theorem validate_recipient_passes_iff (recipient : dict) :
  Brain.validate_recipient recipient = []
  ↔ Forall (λ f, is_Some (recipient !! f))
      ["recipient_id"; "name"; "email"; "organization"; "topics";
       "engagement_score"; "opt_out"]
    ∧ ∃ l, recipient !! "topics" = Some (JList l).
Proof.
  unfold Brain.validate_recipient. rewrite app_nil. rewrite missing_fields_nil.
  unfold VALIDATION_RULES.required_recipient_fields.
  split.
  - intros [Hall Htopics]. split; [done|].
    assert (is_Some (recipient !! "topics")) as [v Hv].
    { rewrite Forall_forall in Hall. apply Hall.
      do 4 right. left. }
    rewrite Hv in Htopics |- *. destruct v; try done. by eexists.
  - intros [Hall [l Hl]]. split; [done|]. by rewrite Hl.
Qed.

(** X3: [validate_event] raises exactly when [metadata] is present and is
    not a container (null, a boolean or a number): the test
    [m not in event["metadata"]] is then a [TypeError]. *)
Theorem validate_event_raises_iff (event : dict) (e : exn) :
  Brain.validate_event event = Raise e
  ↔ e = TypeError
    ∧ ∃ md, event !! "metadata" = Some md
            ∧ (md = JNull ∨ (∃ b, md = JBool b) ∨ ∃ q, md = JNum q).
Proof.
  unfold Brain.validate_event.
  destruct (event !! "metadata") as [md|]; csimpl.
  - unfold VALIDATION_RULES.required_metadata_fields. cbn.
    destruct md as [|b|q|s|l|d]; csimpl.
    + split; [intros [= <-]|]; naive_solver.
    + split; [intros [= <-]|]; naive_solver.
    + split; [intros [= <-]|]; naive_solver.
    + split; [done|]. intros (_ & md & [= <-] & [?|[[? ?]|[? ?]]]); done.
    + split; [done|]. intros (_ & md & [= <-] & [?|[[? ?]|[? ?]]]); done.
    + split; [done|]. intros (_ & md & [= <-] & [?|[[? ?]|[? ?]]]); done.
  - split; [done|]. intros (_ & md & ? & _). done.
Qed.

(** X4: [validate_event] does not require [metadata] to be a dictionary:
    a list or a string that mentions both field names passes. For such
    an event, a valid recipient who has not opted out makes
    [should_send_email] raise [AttributeError] (on [.get] of the
    metadata), and [generate_email_for_pair] raises with it without
    calling the generator. *)
Theorem gate_raises_on_non_dict_metadata
    (parse : json → parse_result) (ist : Z → Z) (repr : json → string)
    (exn_str : exn → string) (w : pair_env)
    (recipient event : dict) (md : json) (day : string) (ai use_ai : bool) :
  Brain.validate_recipient recipient = [] →
  Brain.validate_event event = Ok [] →
  truthy (dict_get recipient "opt_out" (JBool false)) = false →
  event !! "metadata" = Some md →
  (∀ d, md ≠ JDict d) →
  Brain.should_send_email parse ist repr recipient event (now_utc w)
  = Raise AttributeError
  ∧ Brain.generate_email_for_pair parse ist repr exn_str w recipient event
      day ai use_ai = (0%nat, Raise AttributeError).
Proof.
  intros Hr He Hopt Hmd Hnot.
  assert (Hgate : Brain.should_send_email parse ist repr recipient event
                    (now_utc w) = Raise AttributeError).
  { rewrite (should_send_email_valid _ _ _ _ _ _ Hr He), Hopt.
    unfold dict_get at 1. rewrite Hmd. cbn [from_option id].
    destruct md as [| | | | |d]; try done. by destruct (Hnot d). }
  split; [done|]. unfold Brain.generate_email_for_pair. by rewrite Hgate.
Qed.

Lemma gate_raises_on_non_dict_metadata_witness :
  Brain.should_send_email Sample.parse Sample.ist Sample.repr
    Sample.recipient
    (<["metadata" := jstrs ["amount_range"; "application_deadline"]]>
       (Sample.event "2099-01-01")) 1735689600
  = Raise AttributeError
  ∧ Brain.generate_email_for_pair Sample.parse Sample.ist Sample.repr
      Sample.exn_str (Sample.env (AiReply JNull)) Sample.recipient
      (<["metadata" := jstrs ["amount_range"; "application_deadline"]]>
         (Sample.event "2099-01-01")) "1" true true
    = (0%nat, Raise AttributeError).
Proof.
  apply (gate_raises_on_non_dict_metadata Sample.parse Sample.ist Sample.repr
           Sample.exn_str (Sample.env (AiReply JNull)) Sample.recipient
           (<["metadata" := jstrs ["amount_range"; "application_deadline"]]>
              (Sample.event "2099-01-01"))
           (jstrs ["amount_range"; "application_deadline"]) "1" true true).
  - vm_compute. reflexivity.
  - vm_compute. reflexivity.
  - vm_compute. reflexivity.
  - vm_compute. reflexivity.
  - intros d. discriminate.
Defined.

(** ** Shape of the gate's decision *)

(** X5: whenever [should_send_email] returns, [should_send] is true
    exactly when the reason is "approved"; the reason is one of
    "validation_failed", "opted_out", "deadline_passed", "no_topic_match"
    and "approved"; the three business blocks carry exactly one warning
    (the validation warnings and a deadline-parse warning are dropped),
    and an approval carries no warning or the one deadline-parse
    warning. *)
Theorem should_send_email_decision_shape
    (parse : json → parse_result) (ist : Z → Z) (repr : json → string)
    (recipient event : dict) (now : Z)
    (should_send : bool) (reason : string) (ws : list string) :
  Brain.should_send_email parse ist repr recipient event now
  = Ok (should_send, reason, ws) →
  (should_send = true ↔ reason = "approved")
  ∧ (reason = "validation_failed" ∧ ws ≠ []
     ∨ reason = "opted_out" ∧ ws = ["Recipient has opted out - DO NOT SEND"]
     ∨ reason = "deadline_passed"
       ∧ ws = ["Application deadline has passed - DO NOT SEND"]
     ∨ reason = "no_topic_match" ∧ length ws = 1%nat
     ∨ reason = "approved"
       ∧ (ws = [] ∨ ∃ msg, ws = ["Invalid deadline format: " +:+ msg])).
Proof.
  unfold Brain.should_send_email.
  destruct (Brain.validate_event event) as [e_errors|]; csimpl; [|done].
  destruct (Brain.validate_recipient recipient) as [|r rs] eqn:Hr; cbn.
  - destruct e_errors as [|e es]; cbn.
    + destruct (truthy _).
      { intros [= <- <- <-]. split; [done|]. right. by left. }
      destruct (py_get _ _ _) as [deadline|]; csimpl; [|done].
      assert (Hstep : (∃ ws', Brain.deadline_step parse ist deadline now []
                              = inl ws'
                              ∧ (ws' = []
                                 ∨ ∃ msg, ws' = ["Invalid deadline format: "
                                                 +:+ msg]))
                      ∨ Brain.deadline_step parse ist deadline now [] = inr tt).
      { unfold Brain.deadline_step, Brain.is_deadline_passed.
        destruct (truthy deadline); [|left; eexists; split; [done|by left]].
        destruct (parse deadline) as [dt|msg].
        - destruct (to_utc ist dt) as [instant|].
          + destruct (_ <? _); [by right|].
            left; eexists; split; [done|by left].
          + left. eexists. split; [done|]. right. by eexists.
        - left. eexists. split; [done|]. right. by eexists. }
      destruct Hstep as [(ws' & -> & Hws')| ->].
      * unfold Brain.topic_step.
        destruct (Brain.topic_overlap _ _) as [overlap|]; csimpl; [|done].
        destruct (_ <? _)%nat.
        -- intros [= <- <- <-]. split; [done|]. do 3 right. by left.
        -- intros [= <- <- <-]. split; [done|]. do 4 right. done.
      * intros [= <- <- <-]. split; [done|]. do 2 right. by left.
    + intros [= <- <- <-]. split; [done|]. by left.
  - intros [= <- <- <-]. split; [done|]. by left.
Qed.

Lemma should_send_email_decision_shape_witness :
  ∃ should_send reason ws,
    Brain.should_send_email Sample.parse Sample.ist Sample.repr
      (<["topics" := jstrs ["Health "]]> Sample.recipient)
      (Sample.event "2099-01-01") 1735689600 = Ok (should_send, reason, ws)
    ∧ (should_send = true ↔ reason = "approved")
    ∧ reason = "no_topic_match" ∧ length ws = 1%nat.
Proof.
  exists false, "no_topic_match",
    ["Insufficient topic overlap. Recipient: ['Health '] | Event: ['education'] | Overlap: []"].
  split; [vm_compute; reflexivity|].
  split; [|done].
  apply (should_send_email_decision_shape Sample.parse Sample.ist Sample.repr
           (<["topics" := jstrs ["Health "]]> Sample.recipient)
           (Sample.event "2099-01-01") 1735689600 false "no_topic_match"
           ["Insufficient topic overlap. Recipient: ['Health '] | Event: ['education'] | Overlap: []"]).
  vm_compute. reflexivity.
Defined.

(** ** Ill-typed topics *)

Lemma res_map_norm_key_raises (l : list json) :
  Exists (λ x, ∀ s, x ≠ JStr s) l →
  res_map Brain.norm_key l = Raise AttributeError.
Proof.
  induction 1 as [x l Hx|x l Hex IH]; csimpl.
  - destruct x as [| | |s| |]; try done. by destruct (Hx s).
  - rewrite IH. destruct x as [| | |s| |]; done.
Qed.

Lemma res_map_norm_key_strings (l : list json) :
  Forall (λ x, ∃ s, x = JStr s) l →
  ∃ ks, res_map Brain.norm_key l = Ok ks.
Proof.
  induction 1 as [|x l [s ->] Hall [ks IH]]; csimpl; [by eexists|].
  rewrite IH. csimpl. by eexists.
Qed.

(** X6: [topic_overlap] does not skip what is not a string: a list of
    topics with an element that is not a string raises [AttributeError]
    whatever the tags are; so does a list of tags with such an element
    when the topics are strings; topics that are null, a boolean or a
    number raise [TypeError]. *)
Theorem topic_overlap_ill_typed (topics tags : list json) (other : json) :
  (Exists (λ x, ∀ s, x ≠ JStr s) topics →
   Brain.topic_overlap (JList topics) other = Raise AttributeError)
  ∧ (Forall (λ x, ∃ s, x = JStr s) topics →
     Exists (λ x, ∀ s, x ≠ JStr s) tags →
     Brain.topic_overlap (JList topics) (JList tags) = Raise AttributeError)
  ∧ (other = JNull ∨ (∃ b, other = JBool b) ∨ (∃ q, other = JNum q) →
     Brain.topic_overlap other (JList tags) = Raise TypeError).
Proof.
  unfold Brain.topic_overlap. split; [|split].
  - intros Hex. csimpl. by rewrite (res_map_norm_key_raises _ Hex).
  - intros Hall Hex. csimpl.
    destruct (res_map_norm_key_strings _ Hall) as [ks ->]. csimpl.
    by rewrite (res_map_norm_key_raises _ Hex).
  - intros [->|[[b ->]|[q ->]]]; done.
Qed.

(** ** Calls of the generator *)

(** X7: [generate_email_for_pair] calls [generate_email_content] once when
    the gate approves and both [use_ai] and a generator are given, and
    not at all otherwise: a blocked pair, a raising gate, [use_ai] off or
    no generator never reach the model. *)
Theorem generator_called_iff_approved_and_enabled
    (parse : json → parse_result) (ist : Z → Z) (repr : json → string)
    (exn_str : exn → string) (w : pair_env) (recipient event : dict)
    (day : string) (ai use_ai : bool) :
  let calls := (Brain.generate_email_for_pair parse ist repr exn_str w
                  recipient event day ai use_ai).1 in
  (calls = 0%nat ∨ calls = 1%nat)
  ∧ (calls = 1%nat
     ↔ (∃ ws, Brain.should_send_email parse ist repr recipient event
                (now_utc w) = Ok (true, "approved", ws))
       ∧ use_ai = true ∧ ai = true).
Proof.
  cbn zeta. unfold Brain.generate_email_for_pair.
  destruct (Brain.should_send_email _ _ _ _ _ _)
    as [[[should_send reason] ws]|] eqn:Hgate.
  - destruct should_send; cbn [negb].
    + destruct (should_send_email_approved_inv _ _ _ _ _ _ _ _ Hgate)
        as (-> & _).
      destruct use_ai, ai; cbn [andb fst]; (split; [auto|]);
        split; try done; try (intros (_ & ? & ?); done).
      intros _. split; [by eexists|done].
    + cbn [fst]. split; [by left|]. split; [done|].
      intros ([ws' [=]] & _).
  - cbn [fst]. split; [by left|]. split; [done|]. intros ([ws' [=]] & _).
Qed.

(** ** Replies of the model *)

Lemma tone_from_engagement_returns (score : json) (q : Q) :
  as_number score = Some q → ∃ tone, Brain.tone_from_engagement score = Ok tone.
Proof.
  intros Hq. unfold Brain.tone_from_engagement. rewrite Hq.
  destruct (Qle_bool _ q); [by eexists|].
  destruct (Qle_bool _ q); by eexists.
Qed.

(** X8: brain.py trusts the shape of a reply that parses: for an approved
    pair, a reply that is valid JSON but not an object (a list, a string,
    a number, null), or an object whose [warnings] is not a list, makes
    [generate_email_for_pair] raise [TypeError] after the model was
    called; no fallback is used. *)
Theorem unusable_reply_raises_in_brain
    (parse : json → parse_result) (ist : Z → Z) (repr : json → string)
    (exn_str : exn → string) (w : pair_env) (recipient event : dict)
    (day reason : string) (gate_ws : list string) (q : Q) (j : json) :
  Brain.should_send_email parse ist repr recipient event (now_utc w)
  = Ok (true, reason, gate_ws) →
  as_number (dict_get recipient "engagement_score" (JNum (5 # 10))) = Some q →
  ai_body w = AiReply j →
  (∀ d, j ≠ JDict d)
  ∨ (∃ d, j = JDict d ∧ ∀ l, dict_get d "warnings" (JList []) ≠ JList l) →
  Brain.generate_email_for_pair parse ist repr exn_str w recipient event day
    true true = (1%nat, Raise TypeError).
Proof.
  intros Hgate Hscore Hbody Hbad.
  destruct (should_send_email_approved_inv _ _ _ _ _ _ _ _ Hgate)
    as (_ & _ & overlap & Hov & _).
  destruct (tone_from_engagement_returns _ _ Hscore) as [tone Htone].
  unfold Brain.generate_email_for_pair. rewrite Hgate. cbn [negb andb].
  unfold Brain.generate_email_content. rewrite Hbody. csimpl.
  unfold Brain.add_metadata. rewrite Htone, Hov. csimpl.
  destruct Hbad as [Hnot|(d & -> & Hws)].
  - destruct j as [| | | | |d]; try done. by destruct (Hnot d).
  - csimpl. unfold dict_get at 1. rewrite lookup_insert_ne by done.
    fold (dict_get d "warnings" (JList [])).
    destruct (dict_get d "warnings" (JList [])) as [| | | |l|] eqn:Hw;
      try done.
    by destruct (Hws l).
Qed.

Lemma unusable_reply_raises_in_brain_witness :
  Brain.generate_email_for_pair Sample.parse Sample.ist Sample.repr
    Sample.exn_str (Sample.env (AiReply (JList []))) Sample.recipient
    (Sample.event "2099-01-01") "1" true true = (1%nat, Raise TypeError).
Proof.
  apply (unusable_reply_raises_in_brain Sample.parse Sample.ist Sample.repr
           Sample.exn_str (Sample.env (AiReply (JList []))) Sample.recipient
           (Sample.event "2099-01-01") "1" "approved" [] (3 # 4) (JList [])).
  - vm_compute. reflexivity.
  - vm_compute. reflexivity.
  - reflexivity.
  - left. intros d. discriminate.
Defined.

(** X9: for an approved pair, a reply that is an object with a list of
    warnings (or none) is returned as the record itself: every key other
    than [meta] and [warnings] is the reply's, the warnings are the gate's
    followed by the reply's, and [meta] carries status "generated", the
    tone of the engagement score and the (non-empty) topic overlap. *)
Theorem usable_reply_is_kept_in_brain
    (parse : json → parse_result) (ist : Z → Z) (repr : json → string)
    (exn_str : exn → string) (w : pair_env) (recipient event d : dict)
    (day reason : string) (gate_ws : list string) (q : Q) (l : list json) :
  Brain.should_send_email parse ist repr recipient event (now_utc w)
  = Ok (true, reason, gate_ws) →
  as_number (dict_get recipient "engagement_score" (JNum (5 # 10))) = Some q →
  ai_body w = AiReply (JDict d) →
  dict_get d "warnings" (JList []) = JList l →
  ∃ rec tone overlap,
    Brain.generate_email_for_pair parse ist repr exn_str w recipient event
      day true true = (1%nat, Ok rec)
    ∧ (∀ k, k ≠ "meta" → k ≠ "warnings" → rec !! k = d !! k)
    ∧ rec !! "warnings" = Some (JList ((JStr <$> gate_ws) ++ l))
    ∧ meta_field rec "status" = JStr "generated"
    ∧ Brain.tone_from_engagement
        (dict_get recipient "engagement_score" (JNum (5 # 10))) = Ok tone
    ∧ meta_field rec "tone" = JStr tone
    ∧ Brain.topic_overlap (dict_get recipient "topics" (JList []))
                          (dict_get event "tags" (JList [])) = Ok overlap
    ∧ overlap ≠ []
    ∧ meta_field rec "topic_overlap" = jstrs overlap
    ∧ meta_field rec "recipient_id" = dict_get recipient "recipient_id" JNull
    ∧ meta_field rec "event_id" = dict_get event "event_id" JNull
    ∧ meta_field rec "day" = JStr day.
Proof.
  intros Hgate Hscore Hbody Hws.
  destruct (should_send_email_approved_inv _ _ _ _ _ _ _ _ Hgate)
    as (_ & _ & overlap & Hov & Hlen).
  destruct (tone_from_engagement_returns _ _ Hscore) as [tone Htone].
  unfold Brain.generate_email_for_pair. rewrite Hgate. cbn [negb andb].
  unfold Brain.generate_email_content. rewrite Hbody. csimpl.
  unfold Brain.add_metadata. rewrite Htone, Hov. csimpl.
  unfold dict_get at 1. rewrite lookup_insert_ne by done.
  fold (dict_get d "warnings" (JList [])). rewrite Hws. csimpl.
  eexists _, tone, overlap. split; [reflexivity|].
  split.
  { intros k Hmeta Hwarn. rewrite lookup_insert_ne by done.
    by rewrite lookup_insert_ne by done. }
  split; [by rewrite lookup_insert_eq|].
  unfold meta_field. rewrite lookup_insert_ne by done. rewrite lookup_insert_eq.
  repeat split; try reflexivity.
  intros ->. cbn in Hlen. lia.
Qed.

Lemma usable_reply_is_kept_in_brain_witness :
  ∃ rec tone overlap,
    Brain.generate_email_for_pair Sample.parse Sample.ist Sample.repr
      Sample.exn_str
      (Sample.env (AiReply (JDict (<["email" := JStr "text"]> ∅))))
      Sample.recipient (Sample.event "2099-01-01") "1" true true
    = (1%nat, Ok rec)
    ∧ rec !! "email" = Some (JStr "text")
    ∧ rec !! "warnings" = Some (JList [])
    ∧ tone = "enthusiastic" ∧ overlap = ["education"]
    ∧ meta_field rec "tone" = JStr tone
    ∧ meta_field rec "topic_overlap" = jstrs overlap.
Proof.
  destruct (usable_reply_is_kept_in_brain Sample.parse Sample.ist Sample.repr
              Sample.exn_str
              (Sample.env (AiReply (JDict (<["email" := JStr "text"]> ∅))))
              Sample.recipient (Sample.event "2099-01-01")
              (<["email" := JStr "text"]> ∅) "1" "approved" [] (3 # 4) [])
    as (rec & tone & overlap & Hrun & Hkeys & Hws & _ & Htone & Hmt & Hov & _
        & Hmo & _).
  - vm_compute. reflexivity.
  - vm_compute. reflexivity.
  - reflexivity.
  - vm_compute. reflexivity.
  - exists rec, tone, overlap. split; [exact Hrun|].
    split; [rewrite Hkeys by done; reflexivity|].
    split; [exact Hws|].
    vm_compute in Htone. injection Htone as <-.
    vm_compute in Hov. injection Hov as <-.
    done.
Defined.

(** ** The fallback of src/core/generator.py *)

Lemma append_nonempty_r (s t : string) : t ≠ "" → s +:+ t ≠ "".
Proof. intros Ht. destruct s; [done|discriminate]. Qed.

Lemma append_nonempty_l (s t : string) : s ≠ "" → s +:+ t ≠ "".
Proof. intros Hs. destruct s; [done|discriminate]. Qed.

Section GeneratorReturns.
Context (parse : json → parse_result) (ist : Z → Z) (exn_str : exn → string)
        (set_str : gset string → string) (repr : json → string)
        (title : string → string) (R : Generator.rules).

(** No subject of the table is empty, nor is the default one. *)
Lemma subjects_nonempty (ttl topic day : string) :
  default (ttl +:+ " - Opportunity") (Generator.subjects ttl topic !! day)
  ≠ "".
Proof.
  unfold Generator.subjects.
  repeat match goal with
         | |- context [ <[?k := _]> _ !! day ] =>
             destruct (decide (k = day)) as [<-|?];
             [rewrite lookup_insert_eq; cbn [default from_option id];
              first [by apply append_nonempty_l | discriminate]
             |rewrite lookup_insert_ne by done]
         end.
  rewrite lookup_empty. cbn. by apply append_nonempty_r.
Qed.

(** [_get_fallback_subject] returns exactly when [topics] is false, a
    string, or a list that starts with a string. *)
Lemma _get_fallback_subject_returns recipient event day :
  let topics := dict_get recipient "topics" (jstrs ["funding"]) in
  truthy topics = false
  ∨ (∃ t ts, topics = JList (JStr t :: ts))
  ∨ (∃ s, topics = JStr s) →
  ∃ subject,
    Generator._get_fallback_subject repr title recipient event day
    = Ok subject
    ∧ subject ≠ "".
Proof.
  intros topics Hshape. unfold Generator._get_fallback_subject.
  fold topics.
  assert (Htopic : ∃ topic,
            (if truthy topics
             then first ← py_first topics; Generator.title_case title first
             else Ok "Funding") = Ok topic).
  { destruct Hshape as [->|[(t & ts & ->)|(s & ->)]].
    - by eexists.
    - by eexists.
    - destruct s as [|c s]; by eexists. }
  destruct Htopic as [topic ->]. csimpl.
  eexists. split; [reflexivity|]. apply subjects_nonempty.
Qed.

Lemma _get_fallback_subject_raises recipient event day :
  let topics := dict_get recipient "topics" (jstrs ["funding"]) in
  ¬ (truthy topics = false
     ∨ (∃ t ts, topics = JList (JStr t :: ts))
     ∨ (∃ s, topics = JStr s)) →
  ∃ e, Generator._get_fallback_subject repr title recipient event day
       = Raise e.
Proof.
  intros topics Hshape. unfold Generator._get_fallback_subject.
  fold topics.
  destruct topics as [|b|q|s|l|d] eqn:Ht.
  - destruct Hshape. by left.
  - destruct b; [by eexists|]. destruct Hshape. by left.
  - cbn [truthy]. destruct (Qeq_bool q 0) eqn:Hq; cbn [negb].
    + destruct Hshape. left. cbn. by rewrite Hq.
    + by eexists.
  - destruct Hshape. right. right. by eexists.
  - destruct l as [|v l]; [destruct Hshape; by left|].
    destruct v; try by eexists.
    destruct Hshape. right. left. by eexists _, _.
  - cbn [truthy]. destruct (size d =? 0)%nat eqn:Hd; cbn [negb].
    + destruct Hshape. left. cbn. by rewrite Hd.
    + by eexists.
Qed.

(** A dictionary for [topics] that is not empty: [topics[0]] raises. *)
Lemma _get_fallback_subject_dict recipient event day d :
  recipient !! "topics" = Some (JDict d) → d ≠ ∅ →
  Generator._get_fallback_subject repr title recipient event day
  = Raise KeyError.
Proof.
  intros Ht Hd. unfold Generator._get_fallback_subject, dict_get.
  rewrite Ht. cbn [default from_option id truthy].
  destruct (size d =? 0)%nat eqn:Hsize; [|done].
  apply Nat.eqb_eq, map_size_empty_iff in Hsize. done.
Qed.

Lemma _get_fallback_body_nonempty recipient event day :
  Generator._get_fallback_body repr recipient event day ≠ "".
Proof. discriminate. Qed.

Lemma _generate_fallback_returns w recipient event day ws error cfg subject :
  Generator.email_config R day = JDict cfg →
  Generator._get_fallback_subject repr title recipient event day
  = Ok subject →
  ∃ rec,
    Generator._generate_fallback repr title R w recipient event day ws error
    = Ok rec
    ∧ rec !! "warnings"
      = Some (jstrs (ws ++ match error with
                           | Some e => if String.eqb e "" then []
                                       else ["Used fallback: " +:+ e]
                           | None => []
                           end))
    ∧ rec !! "email"
      = Some (JDict (<["subject" := JStr subject]>
                     (<["body" :=
                         JStr (Generator._get_fallback_body repr recipient
                                 event day)]> ∅)))
    ∧ (∃ ver pf,
         rec !! "verification" = Some (JDict ver)
         ∧ ver !! "personalization_fields" = Some (JDict pf)
         ∧ pf !! "email" = Some (dict_get recipient "email" JNull)
         ∧ pf !! "name" = Some (dict_get recipient "name" JNull)).
Proof.
  intros Hcfg Hsubject. unfold Generator._generate_fallback.
  rewrite Hsubject, Hcfg. csimpl.
  eexists. split; [reflexivity|]. split; [reflexivity|].
  split; [reflexivity|]. eexists _, _. repeat split; reflexivity.
Qed.

Lemma _generate_fallback_raises w recipient event day ws error e :
  Generator._get_fallback_subject repr title recipient event day = Raise e →
  Generator._generate_fallback repr title R w recipient event day ws error
  = Raise e.
Proof.
  intros Hsubject. unfold Generator._generate_fallback.
  by rewrite Hsubject.
Qed.

(** The topics of an approved pair: every element is a string. *)
Lemma lower_set_list_strings (l : list json) (r : gset string) v :
  Generator.lower_set (JList l) = Ok r → v ∈ l → ∃ t, v = JStr t.
Proof.
  unfold Generator.lower_set. cbn [py_iter]. csimpl.
  destruct (res_map Generator.lower_key l) as [ks|] eqn:Hks; csimpl; [|done].
  intros _. revert ks Hks. induction l as [|x l IH]; intros ks Hks Hv.
  - by apply elem_of_nil in Hv.
  - cbn in Hks. destruct x as [| | |t| |]; try done. csimpl.
    destruct (res_map Generator.lower_key l) as [ks'|]; csimpl; [|done].
    apply elem_of_cons in Hv as [->|Hv]; [by eexists|].
    by apply (IH ks').
Qed.

Lemma approved_topics recipient event now reason ws :
  Generator._validate_request parse ist set_str R recipient event now
  = Ok (true, reason, ws) →
  ∃ r, Generator.lower_set (dict_get recipient "topics" (JList [])) = Ok r.
Proof.
  unfold Generator._validate_request.
  destruct (truthy (dict_get recipient "opt_out" _)); [done|].
  destruct (py_get _ _ _) as [deadline|]; csimpl; [|done].
  destruct (Generator.deadline_check _ _ _ _ _) as [ws'|]; [|done].
  unfold Generator.topic_check.
  destruct (Generator.lower_set (dict_get recipient _ _)) as [r|];
    csimpl; [|done].
  intros _. by exists r.
Qed.

(** The subject of an approved pair whose topics are not a dictionary
    with entries. *)
Lemma _get_fallback_subject_approved recipient event now reason ws day :
  Generator._validate_request parse ist set_str R recipient event now
  = Ok (true, reason, ws) →
  (∀ d, recipient !! "topics" = Some (JDict d) → d = ∅) →
  ∃ subject,
    Generator._get_fallback_subject repr title recipient event day
    = Ok subject
    ∧ subject ≠ "".
Proof.
  intros Hgate Hdict. apply approved_topics in Hgate as [r Hr].
  apply _get_fallback_subject_returns.
  unfold dict_get in *. destruct (recipient !! "topics") as [v|] eqn:Hv;
    cbn [default from_option id] in *.
  - destruct v as [| | |s|l|d]; try done.
    + right. right. by eexists.
    + destruct l as [|x l]; [by left|].
      destruct (lower_set_list_strings _ _ x Hr) as [t ->];
        [apply elem_of_cons; by left|].
      right. left. by eexists _, _.
    + rewrite (Hdict d eq_refl). by left.
  - right. left. by eexists _, _.
Qed.
End GeneratorReturns.

(** X10: [EmailGenerator.generate_email] returns a generated record for
    every approved pair whose [topics] is not a JSON object with entries,
    whatever the model does, as long as the day has a configuration in
    [EMAIL_TYPES] (or day "1" has one): an exception of the model, a reply
    that is not JSON, a reply that is not an object or whose [warnings] is
    not a list all end in the fallback record, whose e-mail is the subject
    of [_get_fallback_subject], which is not empty, and the body of
    [_get_fallback_body]. When [topics] is an object with entries, which
    the gate approves on its keys, the same failures, and a missing
    model, make [generate_email] raise [KeyError] from [topics[0]]. *)
Theorem generator_returns_for_every_approved_pair
    (parse : json → parse_result) (ist : Z → Z) (exn_str : exn → string)
    (set_str : gset string → string) (repr : json → string)
    (title : string → string) (R : Generator.rules)
    (w : pair_env) (llm : bool) (recipient event cfg : dict)
    (day reason : string) (ws : list string) :
  Generator._validate_request parse ist set_str R recipient event (now_utc w)
  = Ok (true, reason, ws) →
  Generator.email_config R day = JDict cfg →
  let fails :=
    llm = false
    ∨ (∃ msg, ai_body w = AiException msg ∨ ai_body w = AiJSONDecodeError msg)
    ∨ (∃ j, ai_body w = AiReply j ∧ ∀ d, j ≠ JDict d)
    ∨ (∃ d, ai_body w = AiReply (JDict d)
            ∧ ∀ l, dict_get d "warnings" (JList []) ≠ JList l) in
  ((∀ d, recipient !! "topics" = Some (JDict d) → d = ∅) →
   ∃ rec subject,
     (Generator.generate_email parse ist exn_str set_str repr title R w llm
        recipient event day).2 = Ok rec
     ∧ meta_field rec "status" = JStr "generated"
     ∧ Generator._get_fallback_subject repr title recipient event day
       = Ok subject
     ∧ subject ≠ ""
     ∧ (fails →
        rec !! "email"
        = Some (JDict (<["subject" := JStr subject]>
                       (<["body" :=
                           JStr (Generator._get_fallback_body repr recipient
                                   event day)]> ∅)))))
  ∧ (∀ d, recipient !! "topics" = Some (JDict d) → d ≠ ∅ → fails →
     (Generator.generate_email parse ist exn_str set_str repr title R w llm
        recipient event day).2 = Raise KeyError).
Proof.
  intros Hgate Hcfg fails. unfold Generator.generate_email. rewrite Hgate.
  cbn [negb]. split.
  - intros Hdict.
    destruct (_get_fallback_subject_approved parse ist set_str repr title R
                recipient event (now_utc w) reason ws day Hgate Hdict)
      as (subject & Hsubject & Hne).
    assert (Hfb : ∀ error,
              ∃ rec, Generator._generate_fallback repr title R w recipient
                       event day ws error = Ok rec
                     ∧ meta_field rec "status" = JStr "generated"
                     ∧ rec !! "email"
                       = Some (JDict (<["subject" := JStr subject]>
                                      (<["body" :=
                                          JStr (Generator._get_fallback_body
                                                  repr recipient event day)]>
                                       ∅)))).
    { intros error.
      destruct (_generate_fallback_returns repr title R w recipient event day
                  ws error cfg subject Hcfg Hsubject)
        as (rec & Hrec & _ & Hemail & _).
      exists rec. split; [done|]. split; [|done].
      by apply _generate_fallback_inv in Hrec as (? & _). }
    destruct llm; cbn [snd].
    + unfold Generator._generate_with_ai. rewrite Hcfg. csimpl.
      destruct (ai_body w) as [j|msg|msg] eqn:Hbody.
      * destruct j as [| | | | |d]; csimpl;
          try (destruct (Hfb (Some (exn_str TypeError)))
                 as (rec & -> & ? & ?); by exists rec, subject).
        unfold dict_get at 1. rewrite lookup_insert_ne by done.
        fold (dict_get d "warnings" (JList [])).
        destruct (dict_get d "warnings" (JList [])) as [| | | |l|] eqn:Hw;
          csimpl;
          try (destruct (Hfb (Some (exn_str TypeError)))
                 as (rec & -> & ? & ?); by exists rec, subject).
        eexists _, subject. split; [reflexivity|]. split.
        { unfold meta_field. rewrite lookup_insert_ne by done.
          by rewrite lookup_insert_eq. }
        split; [done|]. split; [done|].
        intros [?|[[msg [?|?]]|[(j & [= <-] & Hnot)|(d' & [= <-] & Hnot)]]];
          try done.
        -- by destruct (Hnot d).
        -- by destruct (Hnot l).
      * destruct (Hfb (Some ("JSON parse error: " +:+ msg)))
          as (rec & -> & ? & ?).
        by exists rec, subject.
      * destruct (Hfb (Some (exn_str (RuntimeError msg))))
          as (rec & -> & ? & ?).
        by exists rec, subject.
    + destruct (Hfb (Some "AI disabled")) as (rec & -> & ? & ?).
      by exists rec, subject.
  - intros d Ht Hd Hfails.
    pose proof (_get_fallback_subject_dict repr title recipient event day d
                  Ht Hd) as Hsubject.
    assert (Hfb : ∀ error,
              Generator._generate_fallback repr title R w recipient event day
                ws error = Raise KeyError).
    { intros error. by apply _generate_fallback_raises. }
    destruct llm; cbn [snd]; [|apply Hfb].
    unfold Generator._generate_with_ai. rewrite Hcfg. csimpl.
    destruct Hfails as [?|[[msg [Hb|Hb]]|[(j & Hb & Hnot)|(d' & Hb & Hnot)]]];
      try done; rewrite Hb.
    + apply Hfb.
    + rewrite Hfb. apply Hfb.
    + destruct j as [| | | | |dj]; csimpl; try apply Hfb.
      by destruct (Hnot dj).
    + csimpl. unfold dict_get at 1. rewrite lookup_insert_ne by done.
      fold (dict_get d' "warnings" (JList [])).
      destruct (dict_get d' "warnings" (JList [])) as [| | | |l|] eqn:Hw;
        csimpl; try apply Hfb.
      by destruct (Hnot l).
Qed.

Lemma generator_returns_for_every_approved_pair_witness :
  (∃ rec,
     (Generator.generate_email Sample.parse Sample.ist Sample.exn_str
        Sample.set_str Sample.repr Sample.title
        Sample.rules (Sample.env (AiException "timeout")) true
        Sample.recipient (Sample.event "2099-01-01") "1").2 = Ok rec
     ∧ meta_field rec "status" = JStr "generated"
     ∧ rec !! "email"
       = Some (JDict (<["subject" :=
                         JStr "The #1 mistake that kills 97% of Education applications"]>
                      (<["body" :=
                          JStr (Generator._get_fallback_body Sample.repr
                                  Sample.recipient (Sample.event "2099-01-01")
                                  "1")]> ∅))))
  ∧ (Generator.generate_email Sample.parse Sample.ist Sample.exn_str
       Sample.set_str Sample.repr Sample.title
       Sample.rules (Sample.env (AiException "timeout")) true
       (<["topics" := JDict (<["education" := JNum 1]> ∅)]> Sample.recipient)
       (Sample.event "2099-01-01") "1").2 = Raise KeyError.
Proof.
  split.
  - destruct (generator_returns_for_every_approved_pair Sample.parse
                Sample.ist Sample.exn_str Sample.set_str Sample.repr
                Sample.title Sample.rules
                (Sample.env (AiException "timeout")) true Sample.recipient
                (Sample.event "2099-01-01")
                (<["type" := JStr "Indoctrination"]> ∅) "1" "approved" [])
      as (Hreturns & _).
    + vm_compute. reflexivity.
    + vm_compute. reflexivity.
    + destruct Hreturns as (rec & subject & Hrec & Hst & Hsubject & _ & Hemail).
      { intros d Hd. vm_compute in Hd. discriminate Hd. }
      exists rec. split; [exact Hrec|]. split; [exact Hst|].
      assert (Hs : subject
                   = "The #1 mistake that kills 97% of Education applications").
      { vm_compute in Hsubject. by injection Hsubject as <-. }
      rewrite <- Hs.
      apply Hemail. right. left. exists "timeout". by left.
  - destruct (generator_returns_for_every_approved_pair Sample.parse
                Sample.ist Sample.exn_str Sample.set_str Sample.repr
                Sample.title Sample.rules
                (Sample.env (AiException "timeout")) true
                (<["topics" := JDict (<["education" := JNum 1]> ∅)]>
                   Sample.recipient)
                (Sample.event "2099-01-01")
                (<["type" := JStr "Indoctrination"]> ∅) "1" "approved" [])
      as (_ & Hraises).
    + vm_compute. reflexivity.
    + vm_compute. reflexivity.
    + apply (Hraises (<["education" := JNum 1]> ∅)).
      * vm_compute. reflexivity.
      * intros H. apply (f_equal size) in H. vm_compute in H. discriminate H.
      * right. left. exists "timeout". by left.
Defined.

(** ** Retries *)

Section Retry.
Context (C : Sender.config) (exn_str : exn → string).

(** The loop from attempt [a] on, when some attempt up to [MAX_RETRIES]
    goes through. *)
Lemma retry_loop_succeeds send fuel a k :
  0 ≤ Sender.RETRY_DELAY C →
  Z.of_nat fuel = Sender.MAX_RETRIES C + 1 - a →
  a ≤ k ≤ Sender.MAX_RETRIES C →
  send k = None →
  (∀ i, a ≤ i < k → send i ≠ None) →
  Sender.retry_loop C exn_str send fuel a = Ok (true, None).
Proof.
  intros Hdelay. revert a.
  induction fuel as [|fuel IH]; intros a Hfuel Hk Hsend Hbefore; [lia|].
  cbn [Sender.retry_loop].
  destruct (send a) as [e|] eqn:Ha; [|done].
  assert (a ≠ k) by congruence.
  rewrite (proj2 (Z.ltb_lt a (Sender.MAX_RETRIES C))) by lia.
  unfold Sender.sleep. rewrite (proj2 (Z.ltb_ge _ _) Hdelay). csimpl.
  apply IH; [lia|lia|done|]. intros i Hi. apply Hbefore. lia.
Qed.

(** The loop from attempt [a] on, when every attempt up to [MAX_RETRIES]
    fails: the message is the one of the last attempt. *)
Lemma retry_loop_exhausts send fuel a :
  0 ≤ Sender.RETRY_DELAY C →
  Z.of_nat fuel = Sender.MAX_RETRIES C + 1 - a →
  a ≤ Sender.MAX_RETRIES C →
  (∀ i, a ≤ i ≤ Sender.MAX_RETRIES C → send i ≠ None) →
  ∃ e, send (Sender.MAX_RETRIES C) = Some e
       ∧ Sender.retry_loop C exn_str send fuel a
         = Ok (false, Some (exn_str e)).
Proof.
  intros Hdelay. revert a.
  induction fuel as [|fuel IH]; intros a Hfuel Ha Hfail; [lia|].
  cbn [Sender.retry_loop].
  destruct (send a) as [e|] eqn:Hsend; [|by destruct (Hfail a ltac:(lia))].
  destruct (a <? Sender.MAX_RETRIES C) eqn:Hlt.
  - apply Z.ltb_lt in Hlt.
    unfold Sender.sleep. rewrite (proj2 (Z.ltb_ge _ _) Hdelay). csimpl.
    apply IH; [lia|lia|]. intros i Hi. apply Hfail. lia.
  - apply Z.ltb_ge in Hlt. assert (a = Sender.MAX_RETRIES C) as -> by lia.
    by exists e.
Qed.
End Retry.

(** X11: [_send_single_with_retry] of a real run with a non-negative retry
    delay tries the attempts 1, 2, ... in turn: it returns success at
    the first attempt that goes through, if there is one among the first
    [MAX_RETRIES]; when all [MAX_RETRIES] attempts fail it returns the
    message of the last one; with [MAX_RETRIES] zero or negative it sends
    nothing and returns "Max retries exceeded". A dry run returns success
    without an attempt. *)
Theorem send_single_with_retry_outcomes
    (C : Sender.config) (exn_str : exn → string) (send : Z → option exn) :
  0 ≤ Sender.RETRY_DELAY C →
  (∀ k, 1 ≤ k ≤ Sender.MAX_RETRIES C → send k = None →
        (∀ i, 1 ≤ i < k → send i ≠ None) →
        Sender._send_single_with_retry C exn_str false send = Ok (true, None))
  ∧ (1 ≤ Sender.MAX_RETRIES C →
     (∀ i, 1 ≤ i ≤ Sender.MAX_RETRIES C → send i ≠ None) →
     ∃ e, send (Sender.MAX_RETRIES C) = Some e
          ∧ Sender._send_single_with_retry C exn_str false send
            = Ok (false, Some (exn_str e)))
  ∧ (Sender.MAX_RETRIES C ≤ 0 →
     Sender._send_single_with_retry C exn_str false send
     = Ok (false, Some "Max retries exceeded"))
  ∧ Sender._send_single_with_retry C exn_str true send = Ok (true, None).
Proof.
  intros Hdelay. unfold Sender._send_single_with_retry.
  split; [|split; [|split; [|done]]].
  - intros k Hk Hsend Hbefore.
    apply (retry_loop_succeeds C exn_str send _ 1 k); try done. lia.
  - intros Hn Hfail. apply retry_loop_exhausts; try done. lia.
  - intros Hn. by rewrite Z2Nat.nonpos.
Qed.

Lemma send_single_with_retry_outcomes_witness :
  Sender._send_single_with_retry (Sender.mk_config 10 50 60 3 5)
    Sample.exn_str false
    (λ k, if k <? 3 then Some (RuntimeError "busy") else None)
  = Ok (true, None)
  ∧ ∃ e, (λ _ : Z, Some (RuntimeError "refused")) 3 = Some e
         ∧ Sender._send_single_with_retry (Sender.mk_config 10 50 60 3 5)
             Sample.exn_str false (λ _, Some (RuntimeError "refused"))
           = Ok (false, Some (Sample.exn_str e)).
Proof.
  split.
  - apply (proj1 (send_single_with_retry_outcomes
                    (Sender.mk_config 10 50 60 3 5) Sample.exn_str
                    (λ k, if k <? 3 then Some (RuntimeError "busy") else None)
                    ltac:(cbn; lia)) 3).
    + cbn. lia.
    + reflexivity.
    + intros i Hi. rewrite (proj2 (Z.ltb_lt i 3)) by lia. discriminate.
  - apply (proj1 (proj2 (send_single_with_retry_outcomes
                           (Sender.mk_config 10 50 60 3 5) Sample.exn_str
                           (λ _, Some (RuntimeError "refused"))
                           ltac:(cbn; lia)))).
    + cbn. lia.
    + intros i Hi. discriminate.
Defined.

(** ** What a batch counts *)

Section BatchCounts.
Context (C : Sender.config) (exn_str : exn → string).

Lemma send_one_incomplete dry_run smtp len st idx email_data :
  has_required_fields email_data = false →
  Sender.send_one C exn_str dry_run smtp len st idx email_data
  = Ok (Sender.mk_stats (S (Sender.attempted st)) (Sender.sent st)
          (Sender.failed st) (S (Sender.skipped st))).
Proof.
  unfold has_required_fields, Sender.send_one. intros H.
  destruct (truthy (dict_get email_data "recipient_email" JNull));
    destruct (truthy (dict_get email_data "subject" JNull));
    destruct (truthy (dict_get email_data "body" JNull)); done.
Qed.

Lemma send_one_complete dry_run smtp len st idx email_data st' :
  has_required_fields email_data = true →
  Sender.send_one C exn_str dry_run smtp len st idx email_data = Ok st' →
  Sender.skipped st' = Sender.skipped st
  ∧ (Sender.sent st' + Sender.failed st'
     = S (Sender.sent st + Sender.failed st))%nat
  ∧ (dry_run = true → Sender.sent st' = S (Sender.sent st)).
Proof.
  unfold has_required_fields, Sender.send_one. intros H.
  destruct (truthy (dict_get email_data "recipient_email" JNull)); [|done].
  destruct (truthy (dict_get email_data "subject" JNull)); [|done].
  destruct (truthy (dict_get email_data "body" JNull)); [|done].
  cbn [negb orb]. unfold Sender._send_single_with_retry.
  destruct dry_run.
  - csimpl. intros [= <-]. cbn. split; [done|]. split; [lia|done].
  - destruct (Sender.retry_loop _ _ _ _ _) as [[success err]|]; csimpl;
      [|done].
    destruct (Sender.rate_limit _ _ _ _) as [[]|]; csimpl; [|done].
    intros [= <-]. destruct success; cbn; (split; [done|]); split; (lia||done).
Qed.

Lemma send_loop_counts dry_run smtp len emails st idx st' :
  Sender.send_loop C exn_str dry_run smtp len st idx emails = Ok st' →
  Sender.skipped st'
  = (Sender.skipped st
     + length (List.filter (λ e, negb (has_required_fields e)) emails))%nat
  ∧ (Sender.sent st' + Sender.failed st'
     = Sender.sent st + Sender.failed st
       + length (List.filter has_required_fields emails))%nat
  ∧ (dry_run = true →
     Sender.sent st'
     = (Sender.sent st + length (List.filter has_required_fields emails))%nat).
Proof.
  revert st idx. induction emails as [|e emails IH]; intros st idx.
  - cbn. intros [= <-]. repeat split; lia.
  - cbn [Sender.send_loop List.filter].
    destruct (Sender.send_one _ _ _ _ _ _ _ e) as [st1|] eqn:Hone;
      csimpl; [|done].
    intros Hrest. apply IH in Hrest as (Hsk & Hsf & Hdry).
    destruct (has_required_fields e) eqn:He; cbn [negb length].
    + apply (send_one_complete _ _ _ _ _ _ _ He) in Hone as (Hsk1 & Hsf1 & Hd1).
      split; [lia|]. split; [lia|]. intros Hd.
      rewrite (Hdry Hd), (Hd1 Hd). lia.
    + rewrite (send_one_incomplete _ _ _ _ _ _ He) in Hone.
      injection Hone as <-. cbn in *. split; [lia|]. split; [lia|].
      intros Hd. rewrite (Hdry Hd). lia.
Qed.
End BatchCounts.

(** X12: when [send_batch] runs its loop (a dry run, or a real run that
    connected) and returns, [skipped] has grown by the number of e-mails
    that lack an address, a subject or a body, and [sent] plus [failed]
    by the number of the others; in a dry run all of those are counted
    as sent. *)
Theorem send_batch_counts
    (C : Sender.config) (exn_str : exn → string) (dry_run connect : bool)
    (smtp : Z → Z → option exn) (emails : list dict) (st st' : Sender.stats) :
  dry_run = true ∨ connect = true →
  Sender.send_batch C exn_str dry_run st connect smtp emails = Ok st' →
  Sender.attempted st' = (Sender.attempted st + length emails)%nat
  ∧ Sender.skipped st'
    = (Sender.skipped st
       + length (List.filter (λ e, negb (has_required_fields e)) emails))%nat
  ∧ (Sender.sent st' + Sender.failed st'
     = Sender.sent st + Sender.failed st
       + length (List.filter has_required_fields emails))%nat
  ∧ (dry_run = true →
     Sender.sent st'
     = (Sender.sent st + length (List.filter has_required_fields emails))%nat
     ∧ Sender.failed st' = Sender.failed st).
Proof.
  intros Hloop Hrun. unfold Sender.send_batch in Hrun.
  destruct emails as [|e emails].
  - injection Hrun as <-. cbn. repeat split; lia.
  - assert (negb dry_run && negb connect = false) as Hb
      by (destruct dry_run, connect; destruct Hloop; done).
    rewrite Hb in Hrun.
    pose proof (send_loop_counted _ _ _ _ _ _ _ _ _ Hrun) as (Hatt & _ & Hf).
    pose proof (send_loop_counts _ _ _ _ _ _ _ _ _ Hrun) as (Hsk & Hsf & Hd).
    split; [done|]. split; [done|]. split; [done|].
    intros Hdry. split; [by apply Hd|by apply Hf].
Qed.

Lemma send_batch_counts_witness :
  Sender.attempted (Sender.mk_stats 2 1 0 1) = (0 + 2)%nat
  ∧ Sender.skipped (Sender.mk_stats 2 1 0 1) = (0 + 1)%nat.
Proof.
  destruct (send_batch_counts
              (Sender.mk_config 10 50 60 3 5) Sample.exn_str true false
              (λ _ _, None)
              [<["recipient_email" := JStr "asha@example.org"]>
               (<["subject" := JStr "Hello"]> (<["body" := JStr "Text"]> ∅));
               <["recipient_email" := JStr ""]>
               (<["subject" := JStr "Hello"]> (<["body" := JStr "Text"]> ∅))]
              Sender.stats0 (Sender.mk_stats 2 1 0 1))
    as (Hatt & Hsk & _).
  - by left.
  - vm_compute. reflexivity.
  - split; [exact Hatt|exact Hsk].
Defined.

Lemma send_one_zero_batch_size (C : Sender.config) (exn_str : exn → string)
    (smtp : Z → Z → option exn) (len idx : Z) (st : Sender.stats)
    (email_data : dict) :
  Sender.BATCH_SIZE C = 0 →
  0 ≤ Sender.RETRY_DELAY C →
  idx < len →
  has_required_fields email_data = true →
  Sender.send_one C exn_str false smtp len st idx email_data
  = Raise ZeroDivisionError.
Proof.
  intros Hsize Hdelay Hidx Hfields.
  unfold has_required_fields in Hfields. unfold Sender.send_one.
  destruct (truthy (dict_get email_data "recipient_email" JNull)); [|done].
  destruct (truthy (dict_get email_data "subject" JNull)); [|done].
  destruct (truthy (dict_get email_data "body" JNull)); [|done].
  cbn [negb orb]. unfold Sender._send_single_with_retry.
  pose proof (retry_loop_returns C exn_str (smtp idx)
                (Z.to_nat (Sender.MAX_RETRIES C)) 1 Hdelay) as Hretry.
  destruct (Sender.retry_loop _ _ _ _ _) as [[success err]|]; [|done].
  csimpl. unfold Sender.rate_limit. cbn [negb andb].
  rewrite (proj2 (Z.ltb_lt idx len) Hidx), Hsize. done.
Qed.

(** X13: a batch size of zero stops a real run: with [BATCH_SIZE] 0, a
    connection, and a batch of two or more e-mails whose first has its
    address, subject and body, [send_batch] raises [ZeroDivisionError] at
    the rate-limit step after the first e-mail, before the second is
    looked at. *)
Theorem zero_batch_size_aborts_real_run
    (C : Sender.config) (exn_str : exn → string)
    (smtp : Z → Z → option exn) (first second : dict) (rest : list dict)
    (st : Sender.stats) :
  Sender.BATCH_SIZE C = 0 →
  0 ≤ Sender.RETRY_DELAY C →
  has_required_fields first = true →
  Sender.send_batch C exn_str false st true smtp (first :: second :: rest)
  = Raise ZeroDivisionError.
Proof.
  intros Hsize Hdelay Hfirst. unfold Sender.send_batch. cbn [negb andb].
  cbn [Sender.send_loop].
  rewrite send_one_zero_batch_size; [done|done|done| |done].
  cbn [length]. lia.
Qed.

Lemma zero_batch_size_aborts_real_run_witness :
  Sender.send_batch (Sender.mk_config 10 0 60 3 5) Sample.exn_str false
    Sender.stats0 true (λ _ _, None)
    [<["recipient_email" := JStr "asha@example.org"]>
     (<["subject" := JStr "Hello"]> (<["body" := JStr "Text"]> ∅));
     <["recipient_email" := JStr "ravi@example.org"]>
     (<["subject" := JStr "Hello"]> (<["body" := JStr "Text"]> ∅))]
  = Raise ZeroDivisionError.
Proof.
  apply (zero_batch_size_aborts_real_run (Sender.mk_config 10 0 60 3 5)
           Sample.exn_str (λ _ _, None)).
  - reflexivity.
  - cbn. lia.
  - vm_compute. reflexivity.
Defined.

(** A result that is not an exception holds a value. *)
(** ** What is handed to delivery *)

Lemma prepare_item_inv (item entry : dict) :
  Main.prepare_item item = Ok (Some entry) →
  truthy (dict_get entry "subject" JNull) = true
  ∧ truthy (dict_get entry "body" JNull) = true
  ∧ meta_field entry "status" = JStr "generated"
  ∧ has_required_fields entry
    = truthy (dict_get entry "recipient_email" JNull).
Proof.
  unfold Main.prepare_item.
  destruct (dict_get item "meta" (JDict ∅)) as [| | | | |meta] eqn:Hmeta;
    csimpl; try done.
  destruct (dict_get meta "status" JNull) as [| | |status| |] eqn:Hstatus;
    cbn [is_str negb]; try done.
  destruct (String.eqb_spec "generated" status) as [<-|]; cbn [negb]; [|done].
  destruct (py_get (dict_get item "verification" (JDict ∅)) _ _)
    as [personalization|]; csimpl; [|done].
  destruct (truthy (dict_get item "email" (JDict ∅))); cbn [negb]; [|done].
  destruct (py_get (dict_get item "email" (JDict ∅)) "subject" JNull)
    as [subject|]; csimpl; [|done].
  destruct (truthy subject) eqn:Hsubject; cbn [negb]; [|done].
  destruct (py_get (dict_get item "email" (JDict ∅)) "body" JNull)
    as [body|]; csimpl; [|done].
  destruct (truthy body) eqn:Hbody; cbn [negb]; [|done].
  destruct (py_get personalization "email" JNull) as [address|]; csimpl;
    [|done].
  destruct (py_get personalization "name" JNull) as [name|]; csimpl; [|done].
  intros [= <-].
  assert (Hm : dict_get item "meta" JNull = JDict meta).
  { unfold dict_get in Hmeta |- *.
    destruct (item !! "meta") as [v|]; cbn in *; [done|].
    injection Hmeta as <-. unfold dict_get in Hstatus.
    by rewrite lookup_empty in Hstatus. }
  unfold has_required_fields, meta_field, dict_get.
  repeat (rewrite lookup_insert_ne by done).
  repeat (rewrite lookup_insert_eq || rewrite lookup_insert_ne by done).
  cbn [from_option id]. rewrite Hsubject, Hbody.
  fold (dict_get item "meta" JNull). rewrite Hm.
  fold (dict_get meta "status" JNull). rewrite Hstatus.
  split; [done|]. split; [done|]. split; [done|].
  by rewrite !andb_true_r.
Qed.

(** X14: every entry that [prepare_emails_for_sending] hands over comes
    from a record with status "generated" and has a non-empty subject and
    body, and there are no more entries than records; so [send_batch]
    skips a prepared entry exactly when its address is missing or empty. *)
Theorem prepared_entries_are_sendable (items sendable : list dict) :
  Main.prepare_emails_for_sending items = Ok sendable →
  (length sendable ≤ length items)%nat
  ∧ Forall (λ entry,
              truthy (dict_get entry "subject" JNull) = true
              ∧ truthy (dict_get entry "body" JNull) = true
              ∧ meta_field entry "status" = JStr "generated"
              ∧ has_required_fields entry
                = truthy (dict_get entry "recipient_email" JNull))
      sendable.
Proof.
  revert sendable. induction items as [|item items IH]; intros sendable.
  - cbn. intros [= <-]. split; [done|constructor].
  - cbn [Main.prepare_emails_for_sending].
    destruct (Main.prepare_item item) as [entry|] eqn:Hitem; csimpl; [|done].
    destruct (Main.prepare_emails_for_sending items) as [rest|]; csimpl;
      [|done].
    destruct (IH rest eq_refl) as [Hlen Hall].
    intros [= <-]. destruct entry as [entry|]; cbn [length].
    + split; [lia|]. constructor; [|done].
      exact (prepare_item_inv item entry Hitem).
    + split; [lia|done].
Qed.

Lemma prepared_entries_are_sendable_witness :
  ∃ sendable,
    Main.prepare_emails_for_sending
      [<["meta" := JDict (<["status" := JStr "blocked"]> ∅)]>
       (<["email" := JNull]> ∅);
       <["meta" := JDict (<["status" := JStr "generated"]> ∅)]>
       (<["email" := JDict (<["subject" := JStr "Hello"]>
                            (<["body" := JStr "Text"]> ∅))]> ∅)]
    = Ok sendable
    ∧ length sendable = 1%nat
    ∧ Forall (λ entry, has_required_fields entry
                       = truthy (dict_get entry "recipient_email" JNull))
        sendable.
Proof.
  assert (Hok : is_ok (Main.prepare_emails_for_sending
              [<["meta" := JDict (<["status" := JStr "blocked"]> ∅)]>
               (<["email" := JNull]> ∅);
               <["meta" := JDict (<["status" := JStr "generated"]> ∅)]>
               (<["email" := JDict (<["subject" := JStr "Hello"]>
                                    (<["body" := JStr "Text"]> ∅))]> ∅)]) = true)
    by (vm_compute; reflexivity).
  assert (Hlen : match Main.prepare_emails_for_sending
              [<["meta" := JDict (<["status" := JStr "blocked"]> ∅)]>
               (<["email" := JNull]> ∅);
               <["meta" := JDict (<["status" := JStr "generated"]> ∅)]>
               (<["email" := JDict (<["subject" := JStr "Hello"]>
                                    (<["body" := JStr "Text"]> ∅))]> ∅)]
                 with Ok l => length l | Raise _ => 0%nat end = 1%nat)
    by (vm_compute; reflexivity).
  destruct (is_ok_inv _ Hok) as [sendable Hrun].
  rewrite Hrun in Hlen.
  exists sendable. split; [exact Hrun|]. split; [exact Hlen|].
  destruct (prepared_entries_are_sendable _ _ Hrun) as [_ Hall].
  eapply Forall_impl; [exact Hall|]. intros entry (_ & _ & _ & H). exact H.
Defined.

(** What [prepare_emails_for_sending] makes of a generated record with a
    subject and a body. *)
Lemma prepare_item_generated (item meta em ver pf : dict) :
  item !! "meta" = Some (JDict meta) →
  meta !! "status" = Some (JStr "generated") →
  item !! "email" = Some (JDict em) →
  truthy (dict_get em "subject" JNull) = true →
  truthy (dict_get em "body" JNull) = true →
  dict_get item "verification" (JDict ∅) = JDict ver →
  dict_get ver "personalization_fields" (JDict ∅) = JDict pf →
  Main.prepare_item item
  = Ok (Some (<["recipient_email" := dict_get pf "email" JNull]>
              (<["recipient_name" := dict_get pf "name" JNull]>
              (<["subject" := dict_get em "subject" JNull]>
              (<["body" := dict_get em "body" JNull]>
              (<["meta" := JDict meta]> ∅)))))).
Proof.
  intros Hmeta Hstatus Hemail Hsubject Hbody Hver Hpf.
  assert (Hm : dict_get item "meta" (JDict ∅) = JDict meta)
    by (unfold dict_get; by rewrite Hmeta).
  assert (Hm' : dict_get item "meta" JNull = JDict meta)
    by (unfold dict_get; by rewrite Hmeta).
  assert (Hs : dict_get meta "status" JNull = JStr "generated")
    by (unfold dict_get; by rewrite Hstatus).
  assert (He : dict_get item "email" (JDict ∅) = JDict em)
    by (unfold dict_get; by rewrite Hemail).
  assert (Hnonempty : truthy (JDict em) = true).
  { cbn [truthy]. destruct (size em =? 0)%nat eqn:Hsize; [|done].
    apply Nat.eqb_eq, map_size_empty_iff in Hsize. subst em.
    unfold dict_get in Hsubject. by rewrite lookup_empty in Hsubject. }
  unfold Main.prepare_item.
  rewrite Hm. cbn [py_get]. rewrite Hs. csimpl.
  rewrite Hver. cbn [py_get]. rewrite Hpf. csimpl.
  rewrite He, Hnonempty. cbn [negb py_get]. csimpl.
  rewrite Hsubject. cbn [negb]. rewrite Hbody. cbn [negb].
  by rewrite Hm'.
Qed.

(** X15: with a configuration for the day, [_generate_fallback] of
    [EmailGenerator] returns exactly when the recipient's [topics] (by
    default a list with "funding") is false, a string, or a list that
    starts with a string. Its record then carries the recipient's own
    [email] and [name] as personalization fields, and
    [prepare_emails_for_sending] makes of it an entry addressed to them
    with the subject of [_get_fallback_subject], which is not empty, and
    the body of [_get_fallback_body]; [send_batch] skips that entry only
    when the recipient has no (or an empty) [email]. Otherwise
    [topics[0].replace] raises out of [_generate_fallback]: [KeyError] on
    an object with entries, [AttributeError] on a list that starts with
    something else than a string, [TypeError] on a number that is not
    zero and on [true]. *)
Theorem fallback_record_is_addressed_to_recipient
    (repr : json → string) (title : string → string) (R : Generator.rules)
    (w : pair_env) (recipient event cfg : dict) (day : string)
    (ws : list string) (error : option string) :
  Generator.email_config R day = JDict cfg →
  let topics := dict_get recipient "topics" (jstrs ["funding"]) in
  (truthy topics = false
   ∨ (∃ t ts, topics = JList (JStr t :: ts))
   ∨ (∃ s, topics = JStr s) →
   ∃ rec entry subject,
     Generator._get_fallback_subject repr title recipient event day
     = Ok subject
     ∧ subject ≠ ""
     ∧ Generator._generate_fallback repr title R w recipient event day ws
         error = Ok rec
     ∧ Main.prepare_item rec = Ok (Some entry)
     ∧ entry !! "recipient_email" = Some (dict_get recipient "email" JNull)
     ∧ entry !! "recipient_name" = Some (dict_get recipient "name" JNull)
     ∧ entry !! "subject" = Some (JStr subject)
     ∧ entry !! "body"
       = Some (JStr (Generator._get_fallback_body repr recipient event day))
     ∧ has_required_fields entry
       = truthy (dict_get recipient "email" JNull))
  ∧ (∀ d, topics = JDict d → d ≠ ∅ →
     Generator._generate_fallback repr title R w recipient event day ws error
     = Raise KeyError)
  ∧ (∀ v ts, topics = JList (v :: ts) → (∀ t, v ≠ JStr t) →
     Generator._generate_fallback repr title R w recipient event day ws error
     = Raise AttributeError)
  ∧ (∀ q, as_number topics = Some q → ¬ (q == 0)%Q →
     Generator._generate_fallback repr title R w recipient event day ws error
     = Raise TypeError).
Proof.
  intros Hcfg topics. split; [|split; [|split]].
  - intros Hshape.
    destruct (_get_fallback_subject_returns repr title recipient event day
                Hshape) as (subject & Hsubject & Hne).
    destruct (_generate_fallback_returns repr title R w recipient event day
                ws error cfg subject Hcfg Hsubject)
      as (rec & Hrec & _ & Hemail & ver & pf & Hver & Hpf & Haddr & Hname).
    pose proof (_generate_fallback_inv _ _ _ _ _ _ _ _ _ _ Hrec)
      as (Hstatus & _).
    apply meta_field_str in Hstatus as (meta & Hmeta & Hst).
    assert (Hs : truthy (JStr subject) = true).
    { cbn. by destruct (String.eqb_spec subject ""). }
    assert (Hb : truthy (JStr (Generator._get_fallback_body repr recipient
                                 event day)) = true) by reflexivity.
    eexists rec, _, subject. split; [exact Hsubject|]. split; [exact Hne|].
    split; [exact Hrec|]. split.
    { apply (prepare_item_generated rec meta _ ver pf Hmeta Hst Hemail).
      - exact Hs.
      - exact Hb.
      - unfold dict_get. by rewrite Hver.
      - unfold dict_get. by rewrite Hpf. }
    unfold has_required_fields, dict_get.
    repeat (rewrite lookup_insert_eq || rewrite lookup_insert_ne by done).
    rewrite Haddr, Hname. cbn [from_option id].
    rewrite Hs, Hb.
    repeat split; try reflexivity. by rewrite !andb_true_r.
  - intros d Ht Hd. apply _generate_fallback_raises.
    unfold Generator._get_fallback_subject. fold topics. rewrite Ht.
    cbn [truthy]. destruct (size d =? 0)%nat eqn:Hsize; [|done].
    apply Nat.eqb_eq, map_size_empty_iff in Hsize. done.
  - intros v ts Ht Hv. apply _generate_fallback_raises.
    unfold Generator._get_fallback_subject. fold topics. rewrite Ht.
    destruct v; try done. by destruct (Hv s).
  - intros q Ht Hq. apply _generate_fallback_raises.
    unfold Generator._get_fallback_subject. fold topics.
    destruct topics as [|b|q'| | |]; try done.
    + destruct b; [done|]. injection Ht as <-. by destruct Hq.
    + injection Ht as ->. cbn [truthy].
      destruct (Qeq_bool q 0) eqn:Hz; [|done].
      apply Qeq_bool_iff in Hz. done.
Qed.

Lemma fallback_record_is_addressed_to_recipient_witness :
  (∃ rec entry,
     Generator._generate_fallback Sample.repr Sample.title
       Sample.rules (Sample.env (AiException "x")) Sample.recipient
       (Sample.event "2099-01-01") "1" [] (Some "AI disabled") = Ok rec
     ∧ Main.prepare_item rec = Ok (Some entry)
     ∧ entry !! "recipient_email" = Some (JStr "asha@example.org")
     ∧ entry !! "subject"
       = Some (JStr "The #1 mistake that kills 97% of Education applications"))
  ∧ Generator._generate_fallback Sample.repr Sample.title
      Sample.rules (Sample.env (AiException "x"))
      (<["topics" := JList [JNum 7]]> Sample.recipient)
      (Sample.event "2099-01-01") "1" [] (Some "AI disabled")
    = Raise AttributeError.
Proof.
  split.
  - destruct (fallback_record_is_addressed_to_recipient Sample.repr
                Sample.title Sample.rules (Sample.env (AiException "x"))
                Sample.recipient (Sample.event "2099-01-01")
                (<["type" := JStr "Indoctrination"]> ∅) "1" []
                (Some "AI disabled"))
      as (Hreturns & _).
    + vm_compute. reflexivity.
    + destruct Hreturns
        as (rec & entry & subject & Hsubject & _ & Hrec & Hentry & Haddr & _
            & Hsubj & _).
      { right. left. by exists "education", []. }
      exists rec, entry. split; [exact Hrec|]. split; [exact Hentry|].
      split; [exact Haddr|].
      vm_compute in Hsubject. injection Hsubject as <-. exact Hsubj.
  - destruct (fallback_record_is_addressed_to_recipient Sample.repr
                Sample.title Sample.rules (Sample.env (AiException "x"))
                (<["topics" := JList [JNum 7]]> Sample.recipient)
                (Sample.event "2099-01-01")
                (<["type" := JStr "Indoctrination"]> ∅) "1" []
                (Some "AI disabled"))
      as (_ & _ & Hraises & _).
    + vm_compute. reflexivity.
    + apply (Hraises (JNum 7) []); [vm_compute; reflexivity|done].
Defined.

(** ** Order and multiplicity of topics and tags *)

Lemma ascii_compare_refl (c : ascii) : Ascii.compare c c = Eq.
Proof. unfold Ascii.compare. apply N.compare_refl. Qed.

Lemma ascii_compare_lt_trans (a b c : ascii) :
  Ascii.compare a b = Lt → Ascii.compare b c = Lt → Ascii.compare a c = Lt.
Proof.
  unfold Ascii.compare. rewrite !N.compare_lt_iff. apply N.lt_trans.
Qed.

#[local] Instance str_le_trans : Transitive str_le.
Proof.
  unfold str_le, String.leb. intros s1.
  induction s1 as [|c1 s1 IH]; intros s2 s3.
  - destruct s3; done.
  - destruct s2 as [|c2 s2]; [done|]. destruct s3 as [|c3 s3]; [done|].
    cbn [String.compare].
    destruct (Ascii.compare c1 c2) eqn:H12; [| |done].
    + apply Ascii.compare_eq_iff in H12 as <-.
      destruct (Ascii.compare c1 c3); [|done|done]. apply IH.
    + destruct (Ascii.compare c2 c3) eqn:H23; [| |done].
      * apply Ascii.compare_eq_iff in H23 as <-. by rewrite H12.
      * by rewrite (ascii_compare_lt_trans _ _ _ H12 H23).
Qed.

#[local] Instance str_le_antisym : AntiSymm eq str_le.
Proof. intros s1 s2. apply String.leb_antisym. Qed.

(** [sorted] gives the same list for every arrangement of its input. *)
Lemma py_sorted_Permutation (l1 l2 : list string) :
  l1 ≡ₚ l2 → py_sorted l1 = py_sorted l2.
Proof.
  intros Hp. apply (Sorted_unique str_le); try apply _.
  - apply Sorted_merge_sort. apply _.
  - apply Sorted_merge_sort. apply _.
  - unfold py_sorted. by rewrite !merge_sort_Permutation.
Qed.

(** X16: topics and tags behave as sets to [topic_overlap]: reordering the
    recipient's topics does not change the result, and the event's tags
    matter only through the set of their keys (trimmed, lower-cased), so
    reordering them, repeating one or changing its case or outer white
    space changes nothing. *)
Theorem topic_overlap_order_insensitive (rt rt' et et' : list string) :
  rt ≡ₚ rt' →
  (∀ k, k ∈ topic_key <$> et ↔ k ∈ topic_key <$> et') →
  Brain.topic_overlap (jstrs rt) (jstrs et)
  = Brain.topic_overlap (jstrs rt') (jstrs et').
Proof.
  intros Hrt Het. rewrite !topic_overlap_jstrs. f_equal.
  apply py_sorted_Permutation.
  rewrite <- Hrt. clear Hrt rt'.
  induction rt as [|t rt IH]; [done|].
  rewrite !filter_cons.
  destruct (decide (topic_key t ∈ topic_key <$> et)) as [Hin|Hout].
  - rewrite decide_True by (by apply Het). by rewrite IH.
  - rewrite decide_False by (by rewrite <- Het). exact IH.
Qed.

Lemma topic_overlap_order_insensitive_witness :
  Brain.topic_overlap (jstrs ["health"; "Climate"]) (jstrs ["CLIMATE"; " Health"])
  = Brain.topic_overlap (jstrs ["Climate"; "health"])
      (jstrs ["health"; "climate "; "health"]).
Proof.
  apply topic_overlap_order_insensitive.
  - apply Permutation_swap.
  - intros k. vm_compute fmap. rewrite !elem_of_cons. rewrite !elem_of_nil.
    tauto.
Defined.

(** ** The topic check of src/core/generator.py *)

Lemma lower_set_jstrs (l : list string) :
  Generator.lower_set (jstrs l) = Ok (list_to_set (py_lower <$> l)).
Proof.
  unfold Generator.lower_set, jstrs. csimpl.
  by rewrite (res_map_jstrs py_lower).
Qed.

(** X17: with the threshold 1, the topic check of [_validate_request]
    on lists of strings approves exactly when some topic and some tag
    are equal after lower-casing; white space is not trimmed there. It
    blocks otherwise, and the warning of the block prints the empty
    set. *)
Theorem generator_topic_check_lowercase_only
    (set_str : gset string → string) (R : Generator.rules)
    (recipient event : dict) (ws : list string) (rt et : list string) :
  Generator.topic_match_threshold_medium R = 1%nat →
  recipient !! "topics" = Some (jstrs rt) →
  event !! "tags" = Some (jstrs et) →
  ((∃ t g, t ∈ rt ∧ g ∈ et ∧ py_lower t = py_lower g) →
   Generator.topic_check set_str R recipient event ws
   = Ok (true, "approved", ws))
  ∧ ((∀ t g, t ∈ rt → g ∈ et → py_lower t ≠ py_lower g) →
     Generator.topic_check set_str R recipient event ws
     = Ok (false, "no_topic_match", ["Insufficient overlap: " +:+ set_str ∅])).
Proof.
  intros Hthreshold Htopics Htags.
  unfold Generator.topic_check, dict_get. rewrite Htopics, Htags.
  cbn [from_option id]. rewrite !lower_set_jstrs. csimpl. rewrite Hthreshold.
  set (overlap := list_to_set (py_lower <$> rt) ∩ list_to_set (py_lower <$> et)
                  : gset string).
  split.
  - intros (t & g & Ht & Hg & Hkey).
    assert (py_lower t ∈ overlap) as Hin.
    { apply elem_of_intersection. split; apply elem_of_list_to_set.
      - apply list_elem_of_fmap. by exists t.
      - rewrite Hkey. apply list_elem_of_fmap. by exists g. }
    destruct (size overlap <? 1)%nat eqn:Hsize; [|done].
    apply Nat.ltb_lt in Hsize.
    assert (overlap ≡ ∅) as Hempty by (apply size_empty_iff; lia).
    rewrite Hempty in Hin. by apply not_elem_of_empty in Hin.
  - intros Hnone.
    assert (overlap = ∅) as ->.
    { apply set_eq. intros k. split; [|by intros ?%not_elem_of_empty].
      intros [Hr He]%elem_of_intersection.
      apply elem_of_list_to_set, list_elem_of_fmap in Hr as (t & -> & Ht).
      apply elem_of_list_to_set, list_elem_of_fmap in He as (g & Hkey & Hg).
      by destruct (Hnone t g Ht Hg). }
    by rewrite size_empty.
Qed.

(** A topic with outer white space: brain.py's gate trims it and
    approves, generator.py's gate does not and blocks. *)
Lemma generator_topic_check_lowercase_only_witness :
  Brain.topic_step Sample.repr
    (<["topics" := jstrs [" Education "]]> Sample.recipient)
    (Sample.event "2099-01-01") []
  = Ok (true, "approved", [])
  ∧ Generator.topic_check Sample.set_str Sample.rules
      (<["topics" := jstrs [" Education "]]> Sample.recipient)
      (Sample.event "2099-01-01") []
    = Ok (false, "no_topic_match", ["Insufficient overlap: set()"]).
Proof.
  split; [vm_compute; reflexivity|].
  apply (generator_topic_check_lowercase_only Sample.set_str Sample.rules
           (<["topics" := jstrs [" Education "]]> Sample.recipient)
           (Sample.event "2099-01-01") [] [" Education "] ["education"]).
  - reflexivity.
  - vm_compute. reflexivity.
  - vm_compute. reflexivity.
  - intros t g Ht Hg. apply list_elem_of_singleton in Ht as ->.
    apply list_elem_of_singleton in Hg as ->. vm_compute. discriminate.
Defined.

(** ** Order of the records of a day *)

Section RecordOrder.
Context (parse : json → parse_result) (ist : Z → Z) (repr : json → string)
        (exn_str : exn → string).

Lemma blocked_record_ids recipient event day reason ws rec :
  Brain.blocked_record recipient event day reason ws = Ok rec →
  record_of_pair day rec (recipient, event).
Proof.
  unfold Brain.blocked_record.
  destruct (Brain.topic_overlap _ _) as [overlap|]; csimpl; [|done].
  intros [= <-]. repeat split; reflexivity.
Qed.

Lemma add_metadata_ids w recipient event day ws result rec :
  Brain.add_metadata w recipient event day ws result = Ok rec →
  record_of_pair day rec (recipient, event).
Proof.
  unfold Brain.add_metadata.
  destruct (Brain.tone_from_engagement _) as [tone|]; csimpl; [|done].
  destruct (Brain.topic_overlap _ _) as [overlap|]; csimpl; [|done].
  destruct result as [| | | | |d]; csimpl; try done.
  destruct (list_concat _ _) as [wsj|]; csimpl; [|done].
  intros [= <-]. unfold record_of_pair, meta_field.
  rewrite lookup_insert_ne by done. rewrite lookup_insert_eq.
  repeat split; reflexivity.
Qed.

(** Every record names the pair and the day it was made for. *)
Lemma pair_record_ids w recipient event day ai use_ai rec :
  (Brain.generate_email_for_pair parse ist repr exn_str w recipient event
     day ai use_ai).2 = Ok rec →
  record_of_pair day rec (recipient, event).
Proof.
  unfold Brain.generate_email_for_pair.
  destruct (Brain.should_send_email _ _ _ _ _ _)
    as [[[should_send reason] ws]|]; [|done].
  destruct should_send; cbn [negb].
  - destruct (use_ai && ai); cbn [snd].
    + destruct (match Brain.generate_email_content _ _ _ _ _ with
                | Ok j => Ok j
                | Raise e => _
                end) as [result|]; csimpl; [|done].
      apply add_metadata_ids.
    + destruct (JDict <$> Brain._fallback_email _ _ _ _ _) as [result|];
        csimpl; [|done].
      apply add_metadata_ids.
  - cbn [snd]. apply blocked_record_ids.
Qed.

Lemma events_loop_records world ai use_ai day recipient events st outs st' outs' :
  foldl (Brain.pair_step parse ist repr exn_str world ai use_ai day recipient)
        (Ok (st, outs)) events = Ok (st', outs') →
  ∃ new, outs' = outs ++ new
         ∧ Forall2 (record_of_pair day) new ((λ e, (recipient, e)) <$> events).
Proof.
  revert st outs. induction events as [|ev events IH]; intros st outs.
  - cbn. intros [= <- <-]. exists []. split; [by rewrite app_nil_r|constructor].
  - cbn [foldl].
    destruct (Brain.pair_step _ _ _ _ _ _ _ _ _ (Ok (st, outs)) ev)
      as [[st1 outs1]|e] eqn:Hstep.
    + intros Hrest. apply IH in Hrest as (new & -> & Hnew).
      unfold Brain.pair_step in Hstep. csimpl in Hstep.
      destruct (Brain.generate_email_for_pair _ _ _ _ _ _ _ _ _ _).2
        as [result|] eqn:Hres; csimpl in Hstep; [|done].
      destruct (Brain.update_stats _ result) as [st2|]; csimpl in Hstep;
        [|done].
      injection Hstep as <- <-.
      exists (result :: new). split; [by rewrite <- app_assoc|].
      csimpl. constructor; [|done]. by eapply pair_record_ids.
    + by rewrite foldl_pair_step_raise.
Qed.

Lemma recipients_loop_records world ai use_ai day events recipients
    st outs st' outs' :
  foldl (Brain.recipient_step parse ist repr exn_str world ai use_ai day events)
        (Ok (st, outs)) recipients = Ok (st', outs') →
  ∃ new, outs' = outs ++ new
         ∧ Forall2 (record_of_pair day) new (cross_product recipients events).
Proof.
  revert st outs. induction recipients as [|r recipients IH]; intros st outs.
  - cbn. intros [= <- <-]. exists []. split; [by rewrite app_nil_r|constructor].
  - cbn [foldl]. unfold Brain.recipient_step at 2.
    destruct (foldl (Brain.pair_step parse ist repr exn_str world ai use_ai
                       day r) (Ok (st, outs)) events)
      as [[st1 outs1]|e] eqn:Hev.
    + intros Hrest. apply IH in Hrest as (new & -> & Hnew).
      apply events_loop_records in Hev as (new1 & -> & Hnew1).
      exists (new1 ++ new). split; [by rewrite <- app_assoc|].
      unfold cross_product. cbn [flat_map]. by apply Forall2_app.
    + by rewrite foldl_recipient_step_raise.
Qed.

Lemma days_loop_records world ai use_ai recipients events days
    st saved st' saved' :
  foldl (Brain.day_step parse ist repr exn_str world ai use_ai recipients events)
        (Ok (st, saved)) days = Ok (st', saved') →
  ∃ new, saved' = saved ++ new
         ∧ Forall2 (λ file day,
                      file.1 = day
                      ∧ Forall2 (record_of_pair day) file.2
                          (cross_product recipients events)) new days.
Proof.
  revert st saved. induction days as [|d days IH]; intros st saved.
  - cbn. intros [= <- <-]. exists []. split; [by rewrite app_nil_r|constructor].
  - cbn [foldl]. unfold Brain.day_step at 2. csimpl.
    destruct (foldl (Brain.recipient_step parse ist repr exn_str world ai
                       use_ai d events) (Ok (st, [])) recipients)
      as [[st1 outs1]|e] eqn:Hday; csimpl.
    + intros Hrest. apply IH in Hrest as (new & -> & Hnew).
      apply recipients_loop_records in Hday as (new1 & -> & Hnew1).
      exists ((d, new1) :: new). split; [by rewrite <- app_assoc|].
      constructor; [|done]. done.
    + by rewrite foldl_day_step_raise.
Qed.
End RecordOrder.

(** X18: [generate_batch] writes one file per day, in the order of the
    days, and the records of a day are in recipient-major order: the
    records of the first recipient with every event in turn, then those
    of the second recipient, and so on; each record names the recipient,
    the event and the day it was made for. *)
Theorem batch_records_in_recipient_major_order
    (parse : json → parse_result) (ist : Z → Z) (repr : json → string)
    (exn_str : exn → string) (world : nat → pair_env)
    (api_key_set use_ai : bool) (recipients events : list dict)
    (days : list string) (st : Brain.stats)
    (saved : list (string * list dict)) :
  Brain.generate_batch parse ist repr exn_str world api_key_set use_ai
    recipients events days = Ok (st, saved) →
  Forall2 (λ file day,
             file.1 = day
             ∧ Forall2 (record_of_pair day) file.2
                 (cross_product recipients events)) saved days.
Proof.
  unfold Brain.generate_batch. intros Hrun.
  by apply days_loop_records in Hrun as (new & -> & Hnew).
Qed.

Lemma batch_records_in_recipient_major_order_witness :
  ∃ st saved,
    Brain.generate_batch Sample.parse Sample.ist Sample.repr Sample.exn_str
      (λ _, Sample.env (AiException "down")) false false
      [Sample.recipient; <["recipient_id" := JStr "r2"]> Sample.recipient]
      [Sample.event "2099-01-01";
       <["event_id" := JStr "e2"]> (Sample.event "2099-01-01")]
      ["1"; "3"] = Ok (st, saved)
    ∧ Forall2 (λ file day,
                 file.1 = day
                 ∧ Forall2 (record_of_pair day) file.2
                     (cross_product
                        [Sample.recipient;
                         <["recipient_id" := JStr "r2"]> Sample.recipient]
                        [Sample.event "2099-01-01";
                         <["event_id" := JStr "e2"]>
                           (Sample.event "2099-01-01")]))
        saved ["1"; "3"].
Proof.
  destruct (Brain.generate_batch Sample.parse Sample.ist Sample.repr
              Sample.exn_str (λ _, Sample.env (AiException "down")) false false
              [Sample.recipient;
               <["recipient_id" := JStr "r2"]> Sample.recipient]
              [Sample.event "2099-01-01";
               <["event_id" := JStr "e2"]> (Sample.event "2099-01-01")]
              ["1"; "3"]) as [[st saved]|] eqn:Hrun.
  - exists st, saved. split; [reflexivity|].
    exact (batch_records_in_recipient_major_order _ _ _ _ _ _ _ _ _ _ _ _ Hrun).
  - assert (Hok : is_ok (Brain.generate_batch Sample.parse Sample.ist
                           Sample.repr Sample.exn_str
                           (λ _, Sample.env (AiException "down")) false false
                           [Sample.recipient;
                            <["recipient_id" := JStr "r2"]> Sample.recipient]
                           [Sample.event "2099-01-01";
                            <["event_id" := JStr "e2"]>
                              (Sample.event "2099-01-01")]
                           ["1"; "3"]) = true) by (vm_compute; reflexivity).
    rewrite Hrun in Hok. discriminate Hok.
Defined.

(** ** The stand-alone sender, email_sender.py *)

Section StandaloneSender.
Context (C : EmailSender.config) (exn_str : exn → string).

(** In a dry run the retry loop makes one attempt, when it makes any. *)
Lemma send_with_retry_dry_run (send : Z → option exn) :
  EmailSender.send_with_retry C exn_str true send
  = if 1 <=? EmailSender.MAX_RETRIES C
    then Ok (true, None, 1)
    else Ok (false, Some "Max retries exceeded", EmailSender.MAX_RETRIES C).
Proof.
  unfold EmailSender.send_with_retry.
  destruct (Z.leb_spec 1 (EmailSender.MAX_RETRIES C)) as [Hle|Hlt].
  - destruct (Z.to_nat (EmailSender.MAX_RETRIES C)) as [|fuel] eqn:Hfuel;
      [lia|]. reflexivity.
  - rewrite Z2Nat.nonpos by lia. reflexivity.
Qed.

Lemma standalone_send_one_incomplete dry_run smtp len st idx email_data :
  has_required_fields email_data = false →
  EmailSender.send_one C exn_str dry_run smtp len st idx email_data
  = Ok (Sender.mk_stats (S (Sender.attempted st)) (Sender.sent st)
          (Sender.failed st) (S (Sender.skipped st))).
Proof.
  unfold has_required_fields, EmailSender.send_one. intros H.
  destruct (truthy (dict_get email_data "recipient_email" JNull));
    destruct (truthy (dict_get email_data "subject" JNull));
    destruct (truthy (dict_get email_data "body" JNull)); done.
Qed.

Lemma standalone_send_one_dry_run smtp len st idx email_data :
  has_required_fields email_data = true →
  EmailSender.send_one C exn_str true smtp len st idx email_data
  = (_ ← EmailSender.rate_limit C idx len;
     Ok (if 1 <=? EmailSender.MAX_RETRIES C
         then Sender.mk_stats (S (Sender.attempted st)) (S (Sender.sent st))
                (Sender.failed st) (Sender.skipped st)
         else Sender.mk_stats (S (Sender.attempted st)) (Sender.sent st)
                (S (Sender.failed st)) (Sender.skipped st))).
Proof.
  unfold has_required_fields, EmailSender.send_one. intros H.
  destruct (truthy (dict_get email_data "recipient_email" JNull)); [|done].
  destruct (truthy (dict_get email_data "subject" JNull)); [|done].
  destruct (truthy (dict_get email_data "body" JNull)); [|done].
  cbn [negb orb]. rewrite send_with_retry_dry_run.
  destruct (1 <=? EmailSender.MAX_RETRIES C); reflexivity.
Qed.

Lemma standalone_send_loop_dry_run smtp len emails st idx st' :
  EmailSender.send_loop C exn_str true smtp len st idx emails = Ok st' →
  Sender.attempted st' = (Sender.attempted st + length emails)%nat
  ∧ Sender.skipped st'
    = (Sender.skipped st
       + length (List.filter (λ e, negb (has_required_fields e)) emails))%nat
  ∧ (if 1 <=? EmailSender.MAX_RETRIES C
     then Sender.sent st'
          = (Sender.sent st
             + length (List.filter has_required_fields emails))%nat
          ∧ Sender.failed st' = Sender.failed st
     else Sender.failed st'
          = (Sender.failed st
             + length (List.filter has_required_fields emails))%nat
          ∧ Sender.sent st' = Sender.sent st).
Proof.
  revert st idx. induction emails as [|e emails IH]; intros st idx.
  - cbn. intros [= <-].
    destruct (1 <=? EmailSender.MAX_RETRIES C); repeat split; lia.
  - cbn [EmailSender.send_loop List.filter].
    destruct (has_required_fields e) eqn:He; cbn [negb length].
    + rewrite (standalone_send_one_dry_run _ _ _ _ _ He).
      destruct (EmailSender.rate_limit C idx len) as [[]|]; csimpl; [|done].
      intros Hrest. apply IH in Hrest as (Hatt & Hsk & Hsf).
      destruct (1 <=? EmailSender.MAX_RETRIES C); cbn in *;
        (split; [lia|]); (split; [lia|]); lia.
    + rewrite (standalone_send_one_incomplete _ _ _ _ _ _ He). csimpl.
      intros Hrest. apply IH in Hrest as (Hatt & Hsk & Hsf).
      destruct (1 <=? EmailSender.MAX_RETRIES C); cbn in *;
        (split; [lia|]); (split; [lia|]); lia.
Qed.

(** With a batch size other than 0 and a pause that is not negative the
    rate limiting never raises, and neither does the dry run. *)
Lemma standalone_send_loop_dry_run_returns smtp len emails st idx :
  EmailSender.BATCH_SIZE C ≠ 0 →
  0 ≤ EmailSender.BATCH_PAUSE C →
  is_ok (EmailSender.send_loop C exn_str true smtp len st idx emails) = true.
Proof.
  intros Hsize Hpause. revert st idx.
  induction emails as [|e emails IH]; intros st idx; [done|].
  cbn [EmailSender.send_loop].
  destruct (has_required_fields e) eqn:He.
  - rewrite (standalone_send_one_dry_run _ _ _ _ _ He).
    assert (EmailSender.rate_limit C idx len = Ok tt) as ->.
    { unfold EmailSender.rate_limit, Sender.sleep.
      destruct (idx <? len); [|done].
      destruct (Z.eqb_spec (EmailSender.BATCH_SIZE C) 0); [done|].
      destruct (_ =? 0); [|done].
      destruct (Z.ltb_spec (EmailSender.BATCH_PAUSE C) 0); [lia|done]. }
    csimpl. apply IH.
  - rewrite (standalone_send_one_incomplete _ _ _ _ _ _ He). csimpl. apply IH.
Qed.
End StandaloneSender.

(** X19: with a batch size other than 0 and a pause that is not negative,
    a dry run of email_sender.py's [send_batch] returns, having counted
    every e-mail as attempted and every e-mail without an address, a
    subject or a body as skipped; the others are all counted as sent when
    [MAX_RETRIES] is at least 1, and all counted as failed when
    [MAX_RETRIES] is 0 or negative, because the retry loop then makes no
    attempt at all. *)
Theorem standalone_dry_run_counts
    (C : EmailSender.config) (exn_str : exn → string) (connect : bool)
    (smtp : Z → Z → option exn) (emails : list dict) (st : Sender.stats) :
  EmailSender.BATCH_SIZE C ≠ 0 →
  0 ≤ EmailSender.BATCH_PAUSE C →
  ∃ st',
    EmailSender.send_batch C exn_str true st connect smtp emails = Ok st'
    ∧ Sender.attempted st' = (Sender.attempted st + length emails)%nat
    ∧ Sender.skipped st'
      = (Sender.skipped st
         + length (List.filter (λ e, negb (has_required_fields e)) emails))%nat
    ∧ (1 ≤ EmailSender.MAX_RETRIES C →
       Sender.sent st'
       = (Sender.sent st
          + length (List.filter has_required_fields emails))%nat
       ∧ Sender.failed st' = Sender.failed st)
    ∧ (EmailSender.MAX_RETRIES C ≤ 0 →
       Sender.failed st'
       = (Sender.failed st
          + length (List.filter has_required_fields emails))%nat
       ∧ Sender.sent st' = Sender.sent st).
Proof.
  intros Hsize Hpause.
  assert (EmailSender.send_batch C exn_str true st connect smtp emails
          = EmailSender.send_loop C exn_str true smtp
              (Z.of_nat (length emails)) st 1 emails) as ->.
  { unfold EmailSender.send_batch. by destruct emails. }
  pose proof (standalone_send_loop_dry_run_returns C exn_str smtp
                (Z.of_nat (length emails)) emails st 1 Hsize Hpause) as Hok.
  destruct (EmailSender.send_loop C exn_str true smtp
              (Z.of_nat (length emails)) st 1 emails) as [st'|] eqn:Hloop;
    [|done].
  exists st'. split; [done|].
  apply standalone_send_loop_dry_run in Hloop as (Hatt & Hsk & Hsf).
  split; [done|]. split; [done|].
  destruct (Z.leb_spec 1 (EmailSender.MAX_RETRIES C)); split; intros;
    (done || lia).
Qed.

Lemma standalone_dry_run_counts_witness :
  ∃ st',
    EmailSender.send_batch (EmailSender.mk_config None None None 10 50 60 0 5)
      Sample.exn_str true Sender.stats0 false (λ _ _, None)
      [<["recipient_email" := JStr "asha@example.org"]>
       (<["subject" := JStr "Hello"]> (<["body" := JStr "Text"]> ∅));
       <["recipient_email" := JStr ""]>
       (<["subject" := JStr "Hello"]> (<["body" := JStr "Text"]> ∅))]
    = Ok st'
    ∧ Sender.failed st' = 1%nat ∧ Sender.sent st' = 0%nat
    ∧ Sender.skipped st' = 1%nat.
Proof.
  destruct (standalone_dry_run_counts
              (EmailSender.mk_config None None None 10 50 60 0 5)
              Sample.exn_str false (λ _ _, None)
              [<["recipient_email" := JStr "asha@example.org"]>
               (<["subject" := JStr "Hello"]> (<["body" := JStr "Text"]> ∅));
               <["recipient_email" := JStr ""]>
               (<["subject" := JStr "Hello"]> (<["body" := JStr "Text"]> ∅))]
              Sender.stats0)
    as (st' & Hrun & _ & Hsk & _ & Hfailed).
  - cbn. lia.
  - cbn. lia.
  - exists st'. split; [exact Hrun|].
    destruct Hfailed as [Hf Hs]; [cbn; lia|].
    split; [exact Hf|]. split; [exact Hs|exact Hsk].
Defined.

(** X20: the rate limiting of email_sender.py runs in a dry run too:
    with [BATCH_SIZE] 0 and a batch of two or more e-mails whose first
    has its address, subject and body, the dry run raises
    [ZeroDivisionError] after the first e-mail. The dry run of
    src/core/sender.py skips the rate limiting and returns on every
    batch, whatever its configuration. *)
Theorem standalone_dry_run_is_rate_limited
    (C : EmailSender.config) (C' : Sender.config) (exn_str : exn → string)
    (connect : bool) (smtp : Z → Z → option exn) (first second : dict)
    (rest : list dict) (st : Sender.stats) :
  EmailSender.BATCH_SIZE C = 0 →
  has_required_fields first = true →
  EmailSender.send_batch C exn_str true st connect smtp
    (first :: second :: rest) = Raise ZeroDivisionError
  ∧ is_ok (Sender.send_batch C' exn_str true st connect smtp
             (first :: second :: rest)) = true.
Proof.
  intros Hsize Hfirst. split.
  - unfold EmailSender.send_batch. cbn [negb andb EmailSender.send_loop].
    rewrite (standalone_send_one_dry_run _ _ _ _ _ _ _ Hfirst).
    unfold EmailSender.rate_limit. rewrite Hsize.
    replace (1 <? Z.of_nat (length (first :: second :: rest))) with true;
      [done|].
    symmetry. apply Z.ltb_lt. cbn [length]. lia.
  - unfold Sender.send_batch. cbn [negb andb].
    apply send_loop_dry_run_returns.
Qed.

Lemma standalone_dry_run_is_rate_limited_witness :
  EmailSender.send_batch (EmailSender.mk_config None None None 10 0 60 3 5)
    Sample.exn_str true Sender.stats0 false (λ _ _, None)
    [<["recipient_email" := JStr "asha@example.org"]>
     (<["subject" := JStr "Hello"]> (<["body" := JStr "Text"]> ∅));
     <["recipient_email" := JStr "ravi@example.org"]>
     (<["subject" := JStr "Hello"]> (<["body" := JStr "Text"]> ∅))]
  = Raise ZeroDivisionError
  ∧ is_ok (Sender.send_batch (Sender.mk_config 10 0 60 3 5) Sample.exn_str
             true Sender.stats0 false (λ _ _, None)
             [<["recipient_email" := JStr "asha@example.org"]>
              (<["subject" := JStr "Hello"]> (<["body" := JStr "Text"]> ∅));
              <["recipient_email" := JStr "ravi@example.org"]>
              (<["subject" := JStr "Hello"]> (<["body" := JStr "Text"]> ∅))])
    = true.
Proof.
  apply (standalone_dry_run_is_rate_limited
           (EmailSender.mk_config None None None 10 0 60 3 5)
           (Sender.mk_config 10 0 60 3 5) Sample.exn_str false (λ _ _, None)).
  - reflexivity.
  - vm_compute. reflexivity.
Defined.

(** ** Loading the day's file in email_sender.py *)

(** What [load_generated_emails] makes of a generated record with a
    subject and a body. *)
Lemma load_item_generated (item meta em ver pf : dict) :
  item !! "meta" = Some (JDict meta) →
  meta !! "status" = Some (JStr "generated") →
  item !! "email" = Some (JDict em) →
  truthy (dict_get em "subject" JNull) = true →
  truthy (dict_get em "body" JNull) = true →
  dict_get item "verification" (JDict ∅) = JDict ver →
  dict_get ver "personalization_fields" (JDict ∅) = JDict pf →
  EmailSender.load_item (JDict item)
  = Ok (Some (<["recipient_email" := dict_get pf "email" (JStr "MISSING")]>
              (<["recipient_name" := dict_get pf "name" (JStr "there")]>
              (<["subject" := dict_get em "subject" JNull]>
              (<["body" := dict_get em "body" JNull]>
              (<["meta" := JDict meta]> ∅)))))).
Proof.
  intros Hmeta Hstatus Hemail Hsubject Hbody Hver Hpf.
  assert (Hm : dict_get item "meta" (JDict ∅) = JDict meta)
    by (unfold dict_get; by rewrite Hmeta).
  assert (Hs : dict_get meta "status" JNull = JStr "generated")
    by (unfold dict_get; by rewrite Hstatus).
  assert (He : dict_get item "email" JNull = JDict em)
    by (unfold dict_get; by rewrite Hemail).
  assert (Hnonempty : truthy (JDict em) = true).
  { cbn [truthy]. destruct (size em =? 0)%nat eqn:Hsize; [|done].
    apply Nat.eqb_eq, map_size_empty_iff in Hsize. subst em.
    unfold dict_get in Hsubject. by rewrite lookup_empty in Hsubject. }
  unfold EmailSender.load_item. cbn [py_get]. rewrite Hm. csimpl.
  rewrite Hs. cbn [is_str String.eqb Ascii.eqb Bool.eqb negb andb].
  rewrite He, Hnonempty. cbn [negb]. csimpl.
  rewrite Hsubject. cbn [negb]. rewrite Hbody. cbn [negb].
  rewrite Hver. csimpl. rewrite Hpf. csimpl. reflexivity.
Qed.

(** The same item in the hands of the two loaders. *)
Lemma load_item_prepare_item (item : dict) r1 r2 :
  EmailSender.load_item (JDict item) = Ok r1 →
  Main.prepare_item item = Ok r2 →
  match r1, r2 with
  | None, None => True
  | Some e1, Some e2 =>
      ∃ pf,
        e1 = <["recipient_email" := dict_get pf "email" (JStr "MISSING")]>
             (<["recipient_name" := dict_get pf "name" (JStr "there")]>
             (delete "recipient_name" (delete "recipient_email" e2)))
        ∧ e2 !! "recipient_email" = Some (dict_get pf "email" JNull)
        ∧ e2 !! "recipient_name" = Some (dict_get pf "name" JNull)
  | _, _ => False
  end.
Proof.
  unfold EmailSender.load_item, Main.prepare_item. cbn [py_get]. csimpl.
  destruct (dict_get item "meta" (JDict ∅)) as [| | | | |meta] eqn:Hmeta;
    csimpl; try done.
  destruct (is_str "generated" (dict_get meta "status" JNull)) eqn:Hstatus;
    cbn [negb].
  2: { by intros [= <-] [= <-]. }
  assert (Hm : dict_get item "meta" JNull = JDict meta).
  { unfold dict_get in Hmeta |- *.
    destruct (item !! "meta") as [v|]; cbn in *; [done|].
    injection Hmeta as <-. unfold dict_get in Hstatus.
    by rewrite lookup_empty in Hstatus. }
  assert (Hte : truthy (dict_get item "email" (JDict ∅))
                = truthy (dict_get item "email" JNull)).
  { unfold dict_get. by destruct (item !! "email"). }
  rewrite Hte.
  destruct (truthy (dict_get item "email" JNull)) eqn:Htruthy; cbn [negb].
  2: { intros [= <-].
       destruct (py_get (dict_get item "verification" (JDict ∅)) _ _);
         csimpl; [|done].
       by intros [= <-]. }
  assert (Hee : dict_get item "email" (JDict ∅) = dict_get item "email" JNull).
  { unfold dict_get in Htruthy |- *. by destruct (item !! "email"). }
  rewrite Hee.
  destruct (py_get (dict_get item "email" JNull) "subject" JNull)
    as [subject|]; csimpl; [|done].
  destruct (truthy subject); cbn [negb].
  2: { intros [= <-].
       destruct (py_get (dict_get item "verification" (JDict ∅)) _ _);
         csimpl; [|done].
       by intros [= <-]. }
  destruct (py_get (dict_get item "email" JNull) "body" JNull)
    as [body|]; csimpl; [|done].
  destruct (truthy body); cbn [negb].
  2: { intros [= <-].
       destruct (py_get (dict_get item "verification" (JDict ∅)) _ _);
         csimpl; [|done].
       by intros [= <-]. }
  destruct (py_get (dict_get item "verification" (JDict ∅)) _ _)
    as [[| | | | |pf]|]; csimpl; try done.
  intros [= <-] [= <-]. exists pf. rewrite Hm. split; [|split].
  - apply map_eq. intros k.
    destruct (decide (k = "recipient_email")) as [->|Hk1].
    { by rewrite !lookup_insert_eq. }
    rewrite (lookup_insert_ne _ "recipient_email" k) by done.
    rewrite (lookup_insert_ne _ "recipient_email" k) by done.
    destruct (decide (k = "recipient_name")) as [->|Hk2].
    { by rewrite !lookup_insert_eq. }
    rewrite (lookup_insert_ne _ "recipient_name" k) by done.
    rewrite (lookup_insert_ne _ "recipient_name" k) by done.
    rewrite lookup_delete_ne by done. rewrite lookup_delete_ne by done.
    rewrite (lookup_insert_ne _ "recipient_email" k) by done.
    by rewrite (lookup_insert_ne _ "recipient_name" k) by done.
  - by rewrite lookup_insert_eq.
  - rewrite lookup_insert_ne by done. by rewrite lookup_insert_eq.
Qed.

(** X21: on a list of records on which both return,
    [load_generated_emails] of email_sender.py and
    [prepare_emails_for_sending] of main.py keep the same records, in
    the same order, and make the same entries of them, except that where
    main.py has the address or the name null, email_sender.py may have the
    default "MISSING" for the address and "there" for the name. *)
Theorem loaders_agree_up_to_defaults (items : list dict) (l1 l2 : list dict) :
  EmailSender.load_items (JDict <$> items) = Ok l1 →
  Main.prepare_emails_for_sending items = Ok l2 →
  Forall2 same_entry_up_to_defaults l1 l2.
Proof.
  revert l1 l2. induction items as [|item items IH]; intros l1 l2.
  - cbn. intros [= <-] [= <-]. constructor.
  - cbn [fmap list_fmap EmailSender.load_items
         Main.prepare_emails_for_sending]. csimpl.
    destruct (EmailSender.load_item (JDict item)) as [r1|] eqn:H1; csimpl;
      [|done].
    destruct (EmailSender.load_items (JDict <$> items)) as [t1|]; csimpl;
      [|done].
    destruct (Main.prepare_item item) as [r2|] eqn:H2; csimpl; [|done].
    destruct (Main.prepare_emails_for_sending items) as [t2|]; csimpl;
      [|done].
    intros [= <-] [= <-].
    pose proof (load_item_prepare_item item r1 r2 H1 H2) as Hrel.
    specialize (IH t1 t2 eq_refl eq_refl).
    destruct r1 as [e1|], r2 as [e2|]; try done.
    constructor; [|done].
    destruct Hrel as (pf & -> & Haddr & Hname).
    unfold same_entry_up_to_defaults. split; [|split].
    + intros k Hk1 Hk2.
      rewrite lookup_insert_ne by done. rewrite lookup_insert_ne by done.
      rewrite lookup_delete_ne by done. by rewrite lookup_delete_ne by done.
    + rewrite lookup_insert_eq, Haddr. unfold dict_get.
      destruct (pf !! "email"); cbn; [by left|by right].
    + rewrite lookup_insert_ne by done. rewrite lookup_insert_eq, Hname.
      unfold dict_get. destruct (pf !! "name"); cbn; [by left|by right].
Qed.

Lemma loaders_agree_up_to_defaults_witness :
  ∃ l1 l2,
    EmailSender.load_items
      (JDict <$>
       [<["meta" := JDict (<["status" := JStr "blocked"]> ∅)]>
        (<["email" := JNull]> ∅);
        <["meta" := JDict (<["status" := JStr "generated"]> ∅)]>
        (<["email" := JDict (<["subject" := JStr "Hello"]>
                             (<["body" := JStr "Text"]> ∅))]> ∅)]) = Ok l1
    ∧ Main.prepare_emails_for_sending
        [<["meta" := JDict (<["status" := JStr "blocked"]> ∅)]>
         (<["email" := JNull]> ∅);
         <["meta" := JDict (<["status" := JStr "generated"]> ∅)]>
         (<["email" := JDict (<["subject" := JStr "Hello"]>
                              (<["body" := JStr "Text"]> ∅))]> ∅)] = Ok l2
    ∧ length l1 = 1%nat
    ∧ Forall2 same_entry_up_to_defaults l1 l2.
Proof.
  assert (Hok1 : is_ok (EmailSender.load_items
              (JDict <$>
               [<["meta" := JDict (<["status" := JStr "blocked"]> ∅)]>
               (<["email" := JNull]> ∅);
               <["meta" := JDict (<["status" := JStr "generated"]> ∅)]>
               (<["email" := JDict (<["subject" := JStr "Hello"]>
                                    (<["body" := JStr "Text"]> ∅))]> ∅)])) = true)
    by (vm_compute; reflexivity).
  assert (Hok2 : is_ok (Main.prepare_emails_for_sending
              [<["meta" := JDict (<["status" := JStr "blocked"]> ∅)]>
               (<["email" := JNull]> ∅);
               <["meta" := JDict (<["status" := JStr "generated"]> ∅)]>
               (<["email" := JDict (<["subject" := JStr "Hello"]>
                                    (<["body" := JStr "Text"]> ∅))]> ∅)]) = true)
    by (vm_compute; reflexivity).
  assert (Hlen : match EmailSender.load_items
              (JDict <$>
               [<["meta" := JDict (<["status" := JStr "blocked"]> ∅)]>
               (<["email" := JNull]> ∅);
               <["meta" := JDict (<["status" := JStr "generated"]> ∅)]>
               (<["email" := JDict (<["subject" := JStr "Hello"]>
                                    (<["body" := JStr "Text"]> ∅))]> ∅)])
                 with Ok l => length l | Raise _ => 0%nat end = 1%nat)
    by (vm_compute; reflexivity).
  destruct (is_ok_inv _ Hok1) as [l1 H1].
  destruct (is_ok_inv _ Hok2) as [l2 H2].
  rewrite H1 in Hlen.
  exists l1, l2. split; [exact H1|]. split; [exact H2|]. split; [exact Hlen|].
  exact (loaders_agree_up_to_defaults _ _ _ H1 H2).
Defined.

(** ** Fallback records of brain.py in the hands of email_sender.py *)

Section FallbackLoaded.
Context (parse : json → parse_result) (ist : Z → Z) (repr : json → string)
        (exn_str : exn → string).

Lemma _fallback_email_verification recipient event day error fb :
  Brain._fallback_email repr recipient event day error = Ok fb →
  fb !! "verification"
  = Some (JDict (<["all_data_from_json" := JBool true]>
                 (<["fallback_used" := JBool true]> ∅))).
Proof.
  unfold Brain._fallback_email.
  destruct (Brain._generate_simple_body _ _ _ _) as [body|]; csimpl; [|done].
  intros [= <-].
  rewrite lookup_insert_ne by done. rewrite lookup_insert_ne by done.
  by rewrite lookup_insert_eq.
Qed.

(** "Add metadata" touches [meta] and [warnings] only. *)
Lemma add_metadata_keeps w recipient event day ws d rec k :
  Brain.add_metadata w recipient event day ws (JDict d) = Ok rec →
  k ≠ "meta" → k ≠ "warnings" → rec !! k = d !! k.
Proof.
  unfold Brain.add_metadata.
  destruct (Brain.tone_from_engagement _) as [tone|]; csimpl; [|done].
  destruct (Brain.topic_overlap _ _) as [overlap|]; csimpl; [|done].
  destruct (list_concat _ _) as [wsj|]; csimpl; [|done].
  intros [= <-] Hk1 Hk2.
  rewrite lookup_insert_ne by done. by rewrite lookup_insert_ne by done.
Qed.

Lemma simple_body_nonempty recipient event day txt :
  Brain._generate_simple_body repr recipient event day = Ok txt →
  truthy (JStr txt) = true.
Proof.
  unfold Brain._generate_simple_body.
  destruct (py_get _ "amount_range" _) as [amount|]; csimpl; [|done].
  destruct (py_get _ "application_deadline" _) as [deadline|]; csimpl;
    [|done].
  by intros [= <-].
Qed.

Lemma fallback_subject_nonempty (a b : string) :
  truthy (JStr (a +:+ " - Opportunity for " +:+ b)) = true.
Proof. by destruct a. Qed.

(** The fallback record of a pair, loaded by [load_generated_emails]. *)
Lemma fallback_record_loaded w recipient event day ws error txt tone overlap :
  Brain._generate_simple_body repr recipient event day = Ok txt →
  Brain.tone_from_engagement
    (dict_get recipient "engagement_score" (JNum (5 # 10))) = Ok tone →
  Brain.topic_overlap (dict_get recipient "topics" (JList []))
                      (dict_get event "tags" (JList [])) = Ok overlap →
  ∃ fb rec meta,
    Brain._fallback_email repr recipient event day error = Ok fb
    ∧ Brain.add_metadata w recipient event day ws (JDict fb) = Ok rec
    ∧ rec !! "meta" = Some (JDict meta)
    ∧ EmailSender.load_item (JDict rec)
      = Ok (Some (<["recipient_email" := JStr "MISSING"]>
                  (<["recipient_name" := JStr "there"]>
                  (<["subject" :=
                       JStr (Brain.py_str repr (dict_get event "title" JNull)
                             +:+ " - Opportunity for "
                             +:+ Brain.py_str repr
                                   (dict_get recipient "organization" JNull))]>
                  (<["body" := JStr txt]>
                  (<["meta" := JDict meta]> ∅)))))).
Proof.
  intros Htxt Htone Hov.
  destruct (_fallback_email_fields repr recipient event day error txt Htxt)
    as (fb & Hfb & Hemail & Hwarn).
  pose proof (_fallback_email_verification _ _ _ _ _ Hfb) as Hver.
  destruct (add_metadata_returns w recipient event day ws fb tone overlap
              [JStr ("Used fallback due to: " +:+ error)] Htone Hov)
    as (rec & Hrec & Hst & _ & _ & Hem & _).
  { unfold dict_get. by rewrite Hwarn. }
  apply meta_field_str in Hst as (meta & Hmeta & Hstatus).
  exists fb, rec, meta. split; [done|]. split; [done|]. split; [done|].
  rewrite (load_item_generated rec meta
             (<["subject" :=
                  JStr (Brain.py_str repr (dict_get event "title" JNull)
                        +:+ " - Opportunity for "
                        +:+ Brain.py_str repr
                              (dict_get recipient "organization" JNull))]>
              (<["body" := JStr txt]> ∅))
             (<["all_data_from_json" := JBool true]>
              (<["fallback_used" := JBool true]> ∅))
             ∅ Hmeta Hstatus).
  - unfold dict_get. rewrite !lookup_insert_eq.
    rewrite lookup_insert_ne by done. rewrite lookup_insert_eq.
    by rewrite !lookup_empty.
  - by rewrite Hem, Hemail.
  - unfold dict_get. rewrite lookup_insert_eq. cbn [default from_option id].
    apply fallback_subject_nonempty.
  - unfold dict_get. rewrite lookup_insert_ne by done.
    rewrite lookup_insert_eq. cbn [default from_option id].
    by eapply simple_body_nonempty.
  - unfold dict_get.
    rewrite (add_metadata_keeps _ _ _ _ _ _ _ "verification" Hrec) by done.
    by rewrite Hver.
  - unfold dict_get. rewrite lookup_insert_ne by done.
    rewrite lookup_insert_ne by done. by rewrite lookup_empty.
Qed.
End FallbackLoaded.

(** X22: the fallback e-mail that brain.py writes for an approved pair
    (AI switched off, no generator, or a failed model call) carries no
    personalization fields, so [load_generated_emails] of email_sender.py
    turns it into an entry addressed to "MISSING" with the name "there",
    whatever the recipient's own address and name; the entry has all the
    fields [send_batch] asks for, so it is not skipped. *)
Theorem brain_fallback_is_addressed_to_MISSING
    (parse : json → parse_result) (ist : Z → Z) (repr : json → string)
    (exn_str : exn → string) (w : pair_env) (recipient event : dict)
    (day reason : string) (gate_ws : list string) (q : Q)
    (ai use_ai : bool) :
  Brain.should_send_email parse ist repr recipient event (now_utc w)
  = Ok (true, reason, gate_ws) →
  as_number (dict_get recipient "engagement_score" (JNum (5 # 10))) = Some q →
  use_ai && ai = false
  ∨ (∃ msg, ai_body w = AiJSONDecodeError msg ∨ ai_body w = AiException msg) →
  ∃ rec entry,
    (Brain.generate_email_for_pair parse ist repr exn_str w recipient event
       day ai use_ai).2 = Ok rec
    ∧ EmailSender.load_item (JDict rec) = Ok (Some entry)
    ∧ entry !! "recipient_email" = Some (JStr "MISSING")
    ∧ entry !! "recipient_name" = Some (JStr "there")
    ∧ has_required_fields entry = true.
Proof.
  intros Happ Hscore Hfail.
  destruct (should_send_email_approved_inv _ _ _ _ _ _ _ _ Happ)
    as (_ & [md Hmd] & overlap & Hov & _).
  destruct (_generate_simple_body_returns repr recipient event day md Hmd)
    as [txt Htxt].
  destruct (tone_from_engagement_returns _ q Hscore) as [tone Htone].
  set (error := if use_ai && ai
                then match ai_body w with
                     | AiJSONDecodeError m => "JSON parse error: " +:+ m
                     | AiException m => "API error: " +:+ m
                     | AiReply _ => ""
                     end
                else "AI disabled").
  destruct (fallback_record_loaded repr w recipient event day gate_ws error
              txt tone overlap Htxt Htone Hov)
    as (fb & rec & meta & Hfb & Hrec & Hmeta & Hload).
  eexists rec, _. split; [|split; [exact Hload|]].
  - unfold Brain.generate_email_for_pair. rewrite Happ. cbn [negb].
    subst error. destruct (use_ai && ai); cbn [snd].
    + destruct Hfail as [?|[msg [Hf|Hf]]]; [done| |];
        rewrite Hf in Hfb |- *; unfold Brain.generate_email_content;
        rewrite Hfb; csimpl; exact Hrec.
    + rewrite Hfb. csimpl. exact Hrec.
  - rewrite lookup_insert_eq. rewrite lookup_insert_ne by done.
    rewrite lookup_insert_eq. split; [done|]. split; [done|].
    unfold has_required_fields, dict_get.
    repeat (rewrite lookup_insert_eq || rewrite lookup_insert_ne by done).
    cbn [default from_option id].
    rewrite fallback_subject_nonempty.
    by rewrite (simple_body_nonempty repr _ _ _ _ Htxt).
Qed.

Lemma brain_fallback_is_addressed_to_MISSING_witness :
  ∃ rec entry,
    (Brain.generate_email_for_pair Sample.parse Sample.ist Sample.repr
       Sample.exn_str (Sample.env (AiException "down")) Sample.recipient
       (Sample.event "2099-01-01") "1" false false).2 = Ok rec
    ∧ dict_get Sample.recipient "email" JNull = JStr "asha@example.org"
    ∧ EmailSender.load_item (JDict rec) = Ok (Some entry)
    ∧ entry !! "recipient_email" = Some (JStr "MISSING")
    ∧ has_required_fields entry = true.
Proof.
  destruct (brain_fallback_is_addressed_to_MISSING Sample.parse Sample.ist
              Sample.repr Sample.exn_str (Sample.env (AiException "down"))
              Sample.recipient (Sample.event "2099-01-01") "1" "approved" []
              (3 # 4) false false)
    as (rec & entry & Hrec & Hload & Haddr & _ & Hfields).
  - vm_compute. reflexivity.
  - vm_compute. reflexivity.
  - by left.
  - exists rec, entry. split; [exact Hrec|]. split; [vm_compute; reflexivity|].
    split; [exact Hload|]. split; [exact Haddr|exact Hfields].
Defined.

(** ** Constructing the senders *)

Lemma env_unset_false (v : option string) :
  env_unset v = false ↔ ∃ s, v = Some s ∧ s ≠ "".
Proof.
  unfold env_unset. destruct v as [s|].
  - destruct (String.eqb_spec s ""); split.
    + done.
    + intros (s' & [= <-] & Hs). done.
    + intros _. by exists s.
    + done.
  - split; [done|]. by intros (s & ? & _).
Qed.

(** X23: both senders are built without looking at the configuration in a
    dry run. In a real run the sender of src/core/sender.py raises
    [ValueError] unless [EMAIL_USER] and [EMAIL_PASSWORD] are set and not
    empty; the sender of email_sender.py raises it in the same cases and
    in one more, when [EMAIL_FROM] is set to the empty string. *)
Theorem sender_construction
    (env : gmap string string) (c : EmailSender.config) :
  (EmailSender.USER c, EmailSender.PASSWORD c, EmailSender.FROM_EMAIL c)
  = EmailSender.credentials env →
  Sender.__init__ (env !! "EMAIL_USER") (env !! "EMAIL_PASSWORD") true
  = Ok Sender.stats0
  ∧ EmailSender.__init__ c true = Ok Sender.stats0
  ∧ ((∃ u p, env !! "EMAIL_USER" = Some u ∧ u ≠ ""
             ∧ env !! "EMAIL_PASSWORD" = Some p ∧ p ≠ "") →
     Sender.__init__ (env !! "EMAIL_USER") (env !! "EMAIL_PASSWORD") false
     = Ok Sender.stats0
     ∧ EmailSender.__init__ c false
       = if decide (env !! "EMAIL_FROM" = Some "")
         then Raise ValueError else Ok Sender.stats0)
  ∧ (¬ (∃ u p, env !! "EMAIL_USER" = Some u ∧ u ≠ ""
               ∧ env !! "EMAIL_PASSWORD" = Some p ∧ p ≠ "") →
     Sender.__init__ (env !! "EMAIL_USER") (env !! "EMAIL_PASSWORD") false
     = Raise ValueError
     ∧ EmailSender.__init__ c false = Raise ValueError).
Proof.
  unfold EmailSender.credentials. intros [= Hu Hp Hf].
  split; [done|]. split; [done|].
  unfold Sender.__init__, EmailSender.__init__, EmailSender.validate,
    Config.validate_email_config.
  rewrite Hu, Hp, Hf. cbn [negb].
  split.
  - intros (u & p & -> & Hune & -> & Hpne).
    assert (env_unset (Some u) = false) as -> by (apply env_unset_false; eauto).
    assert (env_unset (Some p) = false) as -> by (apply env_unset_false; eauto).
    split; [done|].
    destruct (env !! "EMAIL_FROM") as [f|] eqn:Hfrom.
    + destruct (decide (Some f = Some "")) as [[= ->]|Hne]; [done|].
      assert (env_unset (Some f) = false) as ->; [|done].
      apply env_unset_false. exists f. split; [done|]. by intros ->.
    + rewrite decide_False by done.
      assert (env_unset (Some u) = false) as -> by (apply env_unset_false; eauto).
      done.
  - intros Hnot.
    destruct (env_unset (env !! "EMAIL_USER")) eqn:Huser.
    { split; [done|]. by destruct (env_unset _), (env_unset _). }
    destruct (env_unset (env !! "EMAIL_PASSWORD")) eqn:Hpass.
    { split; [done|]. by destruct (env_unset _). }
    apply env_unset_false in Huser as (u & Hu' & Hune).
    apply env_unset_false in Hpass as (p & Hp' & Hpne).
    destruct Hnot. exists u, p. by rewrite Hu', Hp'.
Qed.

Lemma sender_construction_witness :
  Sender.__init__ (Some "me@example.org") (Some "secret") false
  = Ok Sender.stats0
  ∧ EmailSender.__init__
      (EmailSender.mk_config (Some "me@example.org") (Some "secret") (Some "")
         10 50 60 3 5) false
    = Raise ValueError.
Proof.
  destruct (sender_construction
              (<["EMAIL_USER" := "me@example.org"]>
               (<["EMAIL_PASSWORD" := "secret"]>
               (<["EMAIL_FROM" := ""]> ∅)))
              (EmailSender.mk_config (Some "me@example.org") (Some "secret")
                 (Some "") 10 50 60 3 5))
    as (_ & _ & Hset & _).
  - vm_compute. reflexivity.
  - destruct Hset as [Hcore Hstandalone].
    + exists "me@example.org", "secret". vm_compute. repeat split; discriminate.
    + split; [exact Hcore|exact Hstandalone].
Defined.

(** ** A run without the model, read back by email_sender.py *)

Lemma load_items_app (l1 l2 : list json) (e1 e2 : list dict) :
  EmailSender.load_items l1 = Ok e1 →
  EmailSender.load_items l2 = Ok e2 →
  EmailSender.load_items (l1 ++ l2) = Ok (e1 ++ e2).
Proof.
  revert e1. induction l1 as [|item l1 IH]; intros e1.
  - cbn. by intros [= <-] ->.
  - cbn [app EmailSender.load_items].
    destruct (EmailSender.load_item item) as [entry|]; csimpl; [|done].
    destruct (EmailSender.load_items l1) as [t1|] eqn:Ht; csimpl; [|done].
    intros [= <-] H2. rewrite (IH t1 eq_refl H2). csimpl.
    by destruct entry.
Qed.

(** A record that is not "generated" is passed over. *)
Lemma load_item_not_generated (rec : dict) (s : string) :
  meta_field rec "status" = JStr s → s ≠ "generated" →
  EmailSender.load_item (JDict rec) = Ok None.
Proof.
  intros Hst Hs. apply meta_field_str in Hst as (m & Hmeta & Hstatus).
  assert (Hm : dict_get rec "meta" (JDict ∅) = JDict m)
    by (unfold dict_get; by rewrite Hmeta).
  assert (Hst : dict_get m "status" JNull = JStr s)
    by (unfold dict_get; by rewrite Hstatus).
  unfold EmailSender.load_item. cbn [py_get]. rewrite Hm. csimpl.
  rewrite Hst. cbn [is_str].
  destruct (String.eqb_spec "generated" s) as [<-|]; done.
Qed.

(** What "Update stats" does to [generated]. *)
Lemma update_stats_generated (st st' : Brain.stats) (rec : dict) :
  Brain.update_stats st rec = Ok st' →
  Brain.generated st'
  = if is_str "generated" (meta_field rec "status")
    then S (Brain.generated st) else Brain.generated st.
Proof.
  unfold Brain.update_stats, meta_field. cbn [py_getitem].
  destruct (rec !! "meta") as [[| | | | |m]|]; csimpl; try done.
  unfold dict_get. destruct (m !! "status") as [status|]; csimpl; [|done].
  destruct (is_str "generated" status).
  - by intros [= <-].
  - destruct (m !! "reason") as [[| | |r| |]|]; csimpl; try done.
    by intros [= <-].
Qed.

Section FallbackBatch.
Context (parse : json → parse_result) (ist : Z → Z) (repr : json → string)
        (exn_str : exn → string) (world : nat → pair_env).

(** A record made without the model is either blocked, and passed over
    by the loader, or a fallback, and loaded with the default address. *)
Lemma pair_record_loaded w recipient event day rec :
  (Brain.generate_email_for_pair parse ist repr exn_str w recipient event
     day false false).2 = Ok rec →
  (is_str "generated" (meta_field rec "status") = false
   ∧ EmailSender.load_item (JDict rec) = Ok None)
  ∨ (is_str "generated" (meta_field rec "status") = true
     ∧ ∃ entry, EmailSender.load_item (JDict rec) = Ok (Some entry)
                ∧ addressed_to_MISSING entry).
Proof.
  unfold Brain.generate_email_for_pair.
  destruct (Brain.should_send_email _ _ _ _ _ _)
    as [[[should_send reason] ws]|] eqn:Hgate; [|done].
  destruct should_send; cbn [negb andb snd].
  - destruct (should_send_email_approved_inv _ _ _ _ _ _ _ _ Hgate)
      as (_ & [md Hmd] & overlap & Hov & _).
    destruct (_generate_simple_body_returns repr recipient event day md Hmd)
      as [txt Htxt].
    destruct (Brain.tone_from_engagement
                (dict_get recipient "engagement_score" (JNum (5 # 10))))
      as [tone|e] eqn:Htone.
    + destruct (fallback_record_loaded repr w recipient event day ws
                  "AI disabled" txt tone overlap Htxt Htone Hov)
        as (fb & rec' & meta & Hfb & Hrec & Hmeta & Hload).
      rewrite Hfb. csimpl. rewrite Hrec. intros [= <-]. right.
      apply add_metadata_inv in Hrec as (_ & _ & Hst & _).
      split; [by rewrite Hst|].
      eexists. split; [exact Hload|].
      unfold addressed_to_MISSING, has_required_fields, dict_get.
      repeat (rewrite lookup_insert_eq || rewrite lookup_insert_ne by done).
      cbn [default from_option id].
      rewrite fallback_subject_nonempty.
      by rewrite (simple_body_nonempty repr _ _ _ _ Htxt).
    + destruct (JDict <$> Brain._fallback_email repr recipient event day _)
        as [[| | | | |fb]|]; csimpl; try done;
        unfold Brain.add_metadata; by rewrite Htone.
  - intros Hrec. left.
    apply blocked_record_fields in Hrec as (Hst & _).
    split; [by rewrite Hst|].
    by apply (load_item_not_generated rec "blocked").
Qed.

Lemma events_loop_loaded day recipient events st outs st' outs' :
  foldl (Brain.pair_step parse ist repr exn_str world false false day
           recipient) (Ok (st, outs)) events = Ok (st', outs') →
  ∃ new entries,
    outs' = outs ++ new
    ∧ EmailSender.load_items (JDict <$> new) = Ok entries
    ∧ Forall addressed_to_MISSING entries
    ∧ Brain.generated st' = (Brain.generated st + length entries)%nat.
Proof.
  revert st outs. induction events as [|ev events IH]; intros st outs.
  - cbn. intros [= <- <-]. exists [], [].
    split; [by rewrite app_nil_r|]. split; [done|]. split; [constructor|].
    cbn. lia.
  - cbn [foldl].
    destruct (Brain.pair_step _ _ _ _ _ _ _ _ _ (Ok (st, outs)) ev)
      as [[st1 outs1]|e] eqn:Hstep.
    + intros Hrest. apply IH in Hrest as (new & entries & -> & Hl & Hall & Hg).
      unfold Brain.pair_step in Hstep. csimpl in Hstep.
      destruct (Brain.generate_email_for_pair _ _ _ _ _ _ _ _ _ _).2
        as [result|] eqn:Hres; csimpl in Hstep; [|done].
      destruct (Brain.update_stats _ result) as [st2|] eqn:Hup;
        csimpl in Hstep; [|done].
      injection Hstep as <- <-.
      apply update_stats_generated in Hup. cbn in Hup.
      apply pair_record_loaded in Hres
        as [[Hst Hload]|[Hst (entry & Hload & Hentry)]];
        rewrite Hst in Hup.
      * exists (result :: new), entries.
        split; [by rewrite <- app_assoc|]. split.
        { cbn [fmap list_fmap EmailSender.load_items]. csimpl.
          rewrite Hload. csimpl. by rewrite Hl. }
        split; [done|]. lia.
      * exists (result :: new), (entry :: entries).
        split; [by rewrite <- app_assoc|]. split.
        { cbn [fmap list_fmap EmailSender.load_items]. csimpl.
          rewrite Hload. csimpl. by rewrite Hl. }
        split; [by constructor|]. cbn [length]. lia.
    + by rewrite foldl_pair_step_raise.
Qed.

Lemma recipients_loop_loaded day events recipients st outs st' outs' :
  foldl (Brain.recipient_step parse ist repr exn_str world false false day
           events) (Ok (st, outs)) recipients = Ok (st', outs') →
  ∃ new entries,
    outs' = outs ++ new
    ∧ EmailSender.load_items (JDict <$> new) = Ok entries
    ∧ Forall addressed_to_MISSING entries
    ∧ Brain.generated st' = (Brain.generated st + length entries)%nat.
Proof.
  revert st outs. induction recipients as [|r recipients IH]; intros st outs.
  - cbn. intros [= <- <-]. exists [], [].
    split; [by rewrite app_nil_r|]. split; [done|]. split; [constructor|].
    cbn. lia.
  - cbn [foldl]. unfold Brain.recipient_step at 2.
    destruct (foldl (Brain.pair_step parse ist repr exn_str world false false
                       day r) (Ok (st, outs)) events)
      as [[st1 outs1]|e] eqn:Hev.
    + intros Hrest.
      apply IH in Hrest as (new & entries & -> & Hl & Hall & Hg).
      apply events_loop_loaded in Hev as (new1 & entries1 & -> & Hl1 & Hall1 & Hg1).
      exists (new1 ++ new), (entries1 ++ entries).
      split; [by rewrite <- app_assoc|]. split.
      { rewrite fmap_app. by apply load_items_app. }
      split; [by apply Forall_app|]. rewrite length_app. lia.
    + by rewrite foldl_recipient_step_raise.
Qed.

Lemma days_loop_loaded recipients events days st saved st' saved' :
  foldl (Brain.day_step parse ist repr exn_str world false false recipients
           events) (Ok (st, saved)) days = Ok (st', saved') →
  ∃ files loaded,
    saved' = saved ++ files
    ∧ Forall2 (λ file entries,
                 EmailSender.load_items (JDict <$> file.2) = Ok entries)
        files loaded
    ∧ Forall (Forall addressed_to_MISSING) loaded
    ∧ Brain.generated st' = (Brain.generated st + length (concat loaded))%nat.
Proof.
  revert st saved. induction days as [|d days IH]; intros st saved.
  - cbn. intros [= <- <-]. exists [], [].
    split; [by rewrite app_nil_r|]. split; [constructor|].
    split; [constructor|]. cbn. lia.
  - cbn [foldl]. unfold Brain.day_step at 2. csimpl.
    destruct (foldl (Brain.recipient_step parse ist repr exn_str world false
                       false d events) (Ok (st, [])) recipients)
      as [[st1 outs1]|e] eqn:Hday; csimpl.
    + intros Hrest.
      apply IH in Hrest as (files & loaded & -> & Hl & Hall & Hg).
      apply recipients_loop_loaded in Hday
        as (new1 & entries1 & -> & Hl1 & Hall1 & Hg1).
      exists ((d, new1) :: files), (entries1 :: loaded).
      split; [by rewrite <- app_assoc|]. split; [by constructor|].
      split; [by constructor|]. cbn [concat]. rewrite length_app. lia.
    + by rewrite foldl_day_step_raise.
Qed.
End FallbackBatch.

(** X24: when [generate_batch] runs without the model (AI switched off,
    or no API key) and returns, [load_generated_emails] of
    email_sender.py reads every day's file without raising; every entry
    it makes is addressed to "MISSING" and has the address, subject and
    body [send_batch] asks for; and the entries of all the files together
    are as many as the [generated] counter of the run. The day's file is
    any JSON object whose [emails] are the day's records, as
    [generate_batch] writes it. *)
Theorem batch_without_model_is_addressed_to_MISSING
    (parse : json → parse_result) (ist : Z → Z) (repr : json → string)
    (exn_str : exn → string) (world : nat → pair_env)
    (api_key_set use_ai : bool) (recipients events : list dict)
    (days : list string) (st : Brain.stats)
    (saved : list (string * list dict)) :
  use_ai && api_key_set = false →
  Brain.generate_batch parse ist repr exn_str world api_key_set use_ai
    recipients events days = Ok (st, saved) →
  ∃ loaded,
    Forall2 (λ file entries,
               ∀ data : dict,
                 data !! "emails" = Some (JList (JDict <$> file.2)) →
                 EmailSender.load_generated_emails (JDict data) = Ok entries)
      saved loaded
    ∧ Forall (Forall addressed_to_MISSING) loaded
    ∧ Brain.generated st = length (concat loaded).
Proof.
  intros Hflag. unfold Brain.generate_batch. rewrite Hflag. intros Hrun.
  apply days_loop_loaded in Hrun as (files & loaded & -> & Hl & Hall & Hg).
  exists loaded. split; [|split; [done|exact Hg]].
  cbn [app]. eapply Forall2_impl; [exact Hl|].
  intros file entries Hload data Hdata.
  unfold EmailSender.load_generated_emails. cbn [py_get]. unfold dict_get.
  rewrite Hdata. csimpl. exact Hload.
Qed.

Lemma batch_without_model_is_addressed_to_MISSING_witness :
  ∃ st saved loaded,
    Brain.generate_batch Sample.parse Sample.ist Sample.repr Sample.exn_str
      (λ _, Sample.env (AiException "down")) false true
      [Sample.recipient; <["opt_out" := JBool true]> Sample.recipient]
      [Sample.event "2099-01-01"] ["1"] = Ok (st, saved)
    ∧ Brain.generated st = 1%nat
    ∧ Forall (Forall addressed_to_MISSING) loaded
    ∧ Brain.generated st = length (concat loaded).
Proof.
  assert (Hok : is_ok (Brain.generate_batch Sample.parse Sample.ist
                         Sample.repr Sample.exn_str
                         (λ _, Sample.env (AiException "down")) false true
                         [Sample.recipient;
                          <["opt_out" := JBool true]> Sample.recipient]
                         [Sample.event "2099-01-01"] ["1"]) = true)
    by (vm_compute; reflexivity).
  assert (Hgen : match Brain.generate_batch Sample.parse Sample.ist
                         Sample.repr Sample.exn_str
                         (λ _, Sample.env (AiException "down")) false true
                         [Sample.recipient;
                          <["opt_out" := JBool true]> Sample.recipient]
                         [Sample.event "2099-01-01"] ["1"]
                 with Ok (st, _) => Brain.generated st | Raise _ => 0%nat end
                 = 1%nat)
    by (vm_compute; reflexivity).
  destruct (is_ok_inv _ Hok) as [[st saved] Hrun].
  rewrite Hrun in Hgen.
  destruct (batch_without_model_is_addressed_to_MISSING Sample.parse
              Sample.ist Sample.repr Sample.exn_str
              (λ _, Sample.env (AiException "down")) false true
              [Sample.recipient; <["opt_out" := JBool true]> Sample.recipient]
              [Sample.event "2099-01-01"] ["1"] st saved eq_refl Hrun)
    as (loaded & _ & Hall & Hcount).
  exists st, saved, loaded. split; [exact Hrun|]. split; [exact Hgen|].
  split; [exact Hall|exact Hcount].
Defined.

(** ** The decisions of the gate of src/core/generator.py *)

(** X25: every decision [_validate_request] returns is an approval or a
    block for one of three reasons: "opted_out", "deadline_passed" or
    "no_topic_match"; it never blocks a pair for a missing field. An
    approval carries the warnings for the recipient's missing required
    fields, followed by "Invalid deadline format" when the deadline
    cannot be parsed; a block drops those warnings and carries one
    message of its own. *)
Theorem generator_decision_shape
    (parse : json → parse_result) (ist : Z → Z)
    (set_str : gset string → string) (R : Generator.rules)
    (recipient event : dict) (now : Z)
    (ok : bool) (reason : string) (ws : list string) :
  Generator._validate_request parse ist set_str R recipient event now
  = Ok (ok, reason, ws) →
  ok = true ∧ reason = "approved"
  ∧ (ws = missing_fields "Missing recipient field: "
            (Generator.required_recipient_fields R) recipient
     ∨ ws = missing_fields "Missing recipient field: "
              (Generator.required_recipient_fields R) recipient
            ++ ["Invalid deadline format"])
  ∨ ok = false
    ∧ (reason = "opted_out" ∧ ws = ["Recipient opted out"]
       ∨ reason = "deadline_passed" ∧ ws = ["Deadline passed"]
       ∨ reason = "no_topic_match"
         ∧ ∃ overlap : gset string,
             (size overlap < Generator.topic_match_threshold_medium R)%nat
             ∧ ws = ["Insufficient overlap: " +:+ set_str overlap]).
Proof.
  unfold Generator._validate_request.
  destruct (truthy (dict_get recipient "opt_out" _)).
  { intros [= <- <- <-]. right. split; [done|]. by left. }
  destruct (py_get _ _ _) as [deadline|]; csimpl; [|done].
  set (missing := missing_fields _ _ _).
  assert (Hstep : Generator.deadline_check parse ist deadline now missing
                  = inr tt
                  ∨ Generator.deadline_check parse ist deadline now missing
                    = inl missing
                  ∨ Generator.deadline_check parse ist deadline now missing
                    = inl (missing ++ ["Invalid deadline format"])).
  { unfold Generator.deadline_check.
    destruct (truthy deadline); [|by right; left].
    destruct (parse deadline) as [dt|msg]; [|by right; right].
    destruct (to_utc ist dt) as [instant|]; [|by right; right].
    destruct (_ <? _); [by left|by right; left]. }
  assert (Htopic : ∀ ws0,
            Generator.topic_check set_str R recipient event ws0
            = Ok (ok, reason, ws) →
            ok = true ∧ reason = "approved" ∧ ws = ws0
            ∨ ok = false ∧ reason = "no_topic_match"
              ∧ ∃ overlap : gset string,
                  (size overlap
                   < Generator.topic_match_threshold_medium R)%nat
                  ∧ ws = ["Insufficient overlap: " +:+ set_str overlap]).
  { intros ws0. unfold Generator.topic_check.
    destruct (Generator.lower_set (dict_get recipient _ _)) as [r|];
      csimpl; [|done].
    destruct (Generator.lower_set _) as [e|]; csimpl; [|done].
    destruct (_ <? _)%nat eqn:Hsize.
    - intros [= <- <- <-]. right. split; [done|]. split; [done|].
      exists (r ∩ e). split; [|done]. by apply Nat.ltb_lt.
    - intros [= <- <- <-]. by left. }
  destruct Hstep as [-> | [-> | ->]].
  - intros [= <- <- <-]. right. split; [done|]. right. by left.
  - intros H. apply Htopic in H as [(-> & -> & ->)|(-> & -> & Hov)].
    + left. split; [done|]. split; [done|]. by left.
    + right. split; [done|]. right. by right.
  - intros H. apply Htopic in H as [(-> & -> & ->)|(-> & -> & Hov)].
    + left. split; [done|]. split; [done|]. by right.
    + right. split; [done|]. right. by right.
Qed.

(** A recipient without an [email] is approved, with a warning. *)
Lemma generator_decision_shape_witness :
  Generator._validate_request Sample.parse Sample.ist Sample.set_str
    Sample.rules (delete "email" Sample.recipient)
    (Sample.event "2099-01-01") 1735689600
  = Ok (true, "approved", ["Missing recipient field: email"])
  ∧ (true = true ∧ "approved" = "approved"
     ∧ (["Missing recipient field: email"]
        = missing_fields "Missing recipient field: "
            (Generator.required_recipient_fields Sample.rules)
            (delete "email" Sample.recipient)
        ∨ ["Missing recipient field: email"]
          = missing_fields "Missing recipient field: "
              (Generator.required_recipient_fields Sample.rules)
              (delete "email" Sample.recipient)
            ++ ["Invalid deadline format"])
     ∨ true = false
       ∧ ("approved" = "opted_out"
          ∧ ["Missing recipient field: email"] = ["Recipient opted out"]
          ∨ "approved" = "deadline_passed"
            ∧ ["Missing recipient field: email"] = ["Deadline passed"]
          ∨ "approved" = "no_topic_match"
            ∧ ∃ overlap : gset string,
                (size overlap
                 < Generator.topic_match_threshold_medium Sample.rules)%nat
                ∧ ["Missing recipient field: email"]
                  = ["Insufficient overlap: " +:+ Sample.set_str overlap])).
Proof.
  split; [vm_compute; reflexivity|].
  apply (generator_decision_shape Sample.parse Sample.ist Sample.set_str
           Sample.rules (delete "email" Sample.recipient)
           (Sample.event "2099-01-01") 1735689600).
  vm_compute. reflexivity.
Defined.

(** ** Retries of email_sender.py *)

Section StandaloneRetry.
Context (C : EmailSender.config) (exn_str : exn → string).

Lemma standalone_retry_loop_succeeds send fuel a k :
  0 ≤ EmailSender.RETRY_DELAY C →
  Z.of_nat fuel = EmailSender.MAX_RETRIES C + 1 - a →
  a ≤ k ≤ EmailSender.MAX_RETRIES C →
  send k = None →
  (∀ i, a ≤ i < k → send i ≠ None) →
  EmailSender.retry_loop C exn_str false send fuel a = Ok (true, None, k).
Proof.
  intros Hdelay. revert a.
  induction fuel as [|fuel IH]; intros a Hfuel Hk Hsend Hbefore; [lia|].
  cbn [EmailSender.retry_loop EmailSender.send_single_email].
  destruct (send a) as [e|] eqn:Ha.
  - assert (a ≠ k) by congruence.
    rewrite (proj2 (Z.ltb_lt a (EmailSender.MAX_RETRIES C))) by lia.
    unfold Sender.sleep. rewrite (proj2 (Z.ltb_ge _ _) Hdelay). csimpl.
    apply IH; [lia|lia|done|]. intros i Hi. apply Hbefore. lia.
  - destruct (decide (a = k)) as [->|Hne]; [done|].
    by destruct (Hbefore a ltac:(lia)).
Qed.

Lemma standalone_retry_loop_exhausts send fuel a :
  0 ≤ EmailSender.RETRY_DELAY C →
  Z.of_nat fuel = EmailSender.MAX_RETRIES C + 1 - a →
  a ≤ EmailSender.MAX_RETRIES C →
  (∀ i, a ≤ i ≤ EmailSender.MAX_RETRIES C → send i ≠ None) →
  ∃ e, send (EmailSender.MAX_RETRIES C) = Some e
       ∧ EmailSender.retry_loop C exn_str false send fuel a
         = Ok (false, Some (exn_str e), EmailSender.MAX_RETRIES C).
Proof.
  intros Hdelay. revert a.
  induction fuel as [|fuel IH]; intros a Hfuel Ha Hfail; [lia|].
  cbn [EmailSender.retry_loop EmailSender.send_single_email].
  destruct (send a) as [e|] eqn:Hsend; [|by destruct (Hfail a ltac:(lia))].
  destruct (a <? EmailSender.MAX_RETRIES C) eqn:Hlt.
  - apply Z.ltb_lt in Hlt.
    unfold Sender.sleep. rewrite (proj2 (Z.ltb_ge _ _) Hdelay). csimpl.
    apply IH; [lia|lia|]. intros i Hi. apply Hfail. lia.
  - apply Z.ltb_ge in Hlt.
    assert (a = EmailSender.MAX_RETRIES C) as -> by lia.
    by exists e.
Qed.
End StandaloneRetry.

(** X26: in a real run [send_with_retry] of email_sender.py reports the
    number of attempts it made: with a retry delay that is not negative,
    the number of the first attempt that goes through, if there is one
    among the first [MAX_RETRIES], and [MAX_RETRIES] with the message of
    the last attempt when they all fail. With a negative retry delay a
    first attempt that fails, when another one is allowed, makes it raise
    [ValueError] from [time.sleep] instead of retrying. *)
Theorem standalone_send_with_retry_attempts
    (C : EmailSender.config) (exn_str : exn → string)
    (send : Z → option exn) :
  (0 ≤ EmailSender.RETRY_DELAY C →
   ∀ k, 1 ≤ k ≤ EmailSender.MAX_RETRIES C → send k = None →
        (∀ i, 1 ≤ i < k → send i ≠ None) →
        EmailSender.send_with_retry C exn_str false send
        = Ok (true, None, k))
  ∧ (0 ≤ EmailSender.RETRY_DELAY C →
     1 ≤ EmailSender.MAX_RETRIES C →
     (∀ i, 1 ≤ i ≤ EmailSender.MAX_RETRIES C → send i ≠ None) →
     ∃ e, send (EmailSender.MAX_RETRIES C) = Some e
          ∧ EmailSender.send_with_retry C exn_str false send
            = Ok (false, Some (exn_str e), EmailSender.MAX_RETRIES C))
  ∧ (EmailSender.RETRY_DELAY C < 0 →
     2 ≤ EmailSender.MAX_RETRIES C →
     send 1 ≠ None →
     EmailSender.send_with_retry C exn_str false send = Raise ValueError).
Proof.
  unfold EmailSender.send_with_retry. split; [|split].
  - intros Hdelay k Hk Hsend Hbefore.
    apply (standalone_retry_loop_succeeds C exn_str send _ 1 k); try done.
    lia.
  - intros Hdelay Hn Hfail.
    apply standalone_retry_loop_exhausts; try done. lia.
  - intros Hdelay Hn Hsend.
    destruct (Z.to_nat (EmailSender.MAX_RETRIES C)) as [|fuel] eqn:Hfuel;
      [lia|].
    cbn [EmailSender.retry_loop EmailSender.send_single_email].
    destruct (send 1) as [e|]; [|done].
    rewrite (proj2 (Z.ltb_lt 1 (EmailSender.MAX_RETRIES C))) by lia.
    unfold Sender.sleep.
    by rewrite (proj2 (Z.ltb_lt (EmailSender.RETRY_DELAY C) 0)).
Qed.

Lemma standalone_send_with_retry_attempts_witness :
  EmailSender.send_with_retry
    (EmailSender.mk_config None None None 10 50 60 3 5) Sample.exn_str false
    (λ k, if k <? 2 then Some (RuntimeError "busy") else None)
  = Ok (true, None, 2)
  ∧ EmailSender.send_with_retry
      (EmailSender.mk_config None None None 10 50 60 3 (-1)) Sample.exn_str
      false (λ _, Some (RuntimeError "busy"))
    = Raise ValueError.
Proof.
  split.
  - destruct (standalone_send_with_retry_attempts
                (EmailSender.mk_config None None None 10 50 60 3 5)
                Sample.exn_str
                (λ k, if k <? 2 then Some (RuntimeError "busy") else None))
      as (Hfirst & _).
    apply (Hfirst ltac:(cbn; lia) 2); [cbn; lia|reflexivity|].
    intros i Hi. assert (i = 1) as -> by lia. discriminate.
  - destruct (standalone_send_with_retry_attempts
                (EmailSender.mk_config None None None 10 50 60 3 (-1))
                Sample.exn_str (λ _, Some (RuntimeError "busy")))
      as (_ & _ & Hneg).
    apply Hneg; [cbn; lia|cbn; lia|discriminate].
Defined.
